(** * PokerProject: rank classification and hand comparison

    A shallow embedding of the modules [cards], [cardUtils], [ranks] and
    [pokerLogic] of PokerConcepts, followed by the properties of the
    classification and comparison engine.

    Conventions of the embedding:
    - Python [int] values that can be negative or are compared as numbers
      (face values, rank values, sort keys) are [Z]; lengths, loop counts
      and frequencies, which are never negative, are [nat].
    - A Python call that may raise is a computation in the [result] monad;
      [Raise e] is the uncaught exception [e].
    - A [dict] and a [Counter] are association lists in insertion order, a
      [set] is a duplicate-free list in insertion order. *)

From Stdlib Require Import String.
From Stdlib Require Import ZArith List Bool Lia Permutation Sorted.
Import ListNotations.

Open Scope Z_scope.

(** ** Exceptions and the error monad *)

Inductive exn : Set := ValueError | IndexError | KeyError.

Definition exn_eqb (a b : exn) : bool :=
  match a, b with
  | ValueError, ValueError | IndexError, IndexError | KeyError, KeyError => true
  | _, _ => false
  end.

Inductive result (A : Type) : Type :=
| Ok (a : A)
| Raise (e : exn).

Arguments Ok {A} a.
Arguments Raise {A} e.

Definition bind {A B : Type} (m : result A) (k : A -> result B) : result B :=
  match m with
  | Ok a => k a
  | Raise e => Raise e
  end.

Notation "x <- m ;; k" := (bind m (fun x => k))
  (at level 61, m at next level, right associativity).

(** [try: m except e: h] *)
Definition try_except {A : Type} (m : result A) (e : exn) (h : result A) : result A :=
  match m with
  | Ok a => Ok a
  | Raise e' => if exn_eqb e e' then h else Raise e'
  end.

Fixpoint mapM {A B : Type} (f : A -> result B) (l : list A) : result (list B) :=
  match l with
  | [] => Ok []
  | x :: l' => y <- f x ;; ys <- mapM f l' ;; Ok (y :: ys)
  end.

(** A [for] loop whose body may raise, threading the loop state. *)
Fixpoint foldM {A S : Type} (body : S -> A -> result S) (l : list A) (s : S) : result S :=
  match l with
  | [] => Ok s
  | x :: l' => s' <- body s x ;; foldM body l' s'
  end.

(** ** Python built-ins used by the program *)

Module py.

(** [max(xs)] over non-negative counts: [ValueError] on an empty argument. *)
Definition max (xs : list nat) : result nat :=
  match xs with
  | [] => Raise ValueError
  | x :: xs' => Ok (fold_left Nat.max xs' x)
  end.

(** [xs[0]] and [xs[-1]]: [IndexError] on an empty list. *)
Definition first {A : Type} (xs : list A) : result A :=
  match xs with
  | [] => Raise IndexError
  | x :: _ => Ok x
  end.

Fixpoint last {A : Type} (xs : list A) : result A :=
  match xs with
  | [] => Raise IndexError
  | [x] => Ok x
  | _ :: xs' => last xs'
  end.

(** [sorted(xs, key=key, reverse=reverse)]: a stable sort that only uses
    [<] on the keys.  With [reverse=True] the order is descending and
    items with equal keys still keep their original relative order. *)
Section Sorting.
Context {A K : Type} (ltb : K -> K -> bool) (key : A -> K).

Fixpoint insert_asc (x : A) (l : list A) : list A :=
  match l with
  | [] => [x]
  | y :: l' => if ltb (key y) (key x) then y :: insert_asc x l' else x :: l
  end.

Fixpoint insert_desc (x : A) (l : list A) : list A :=
  match l with
  | [] => [x]
  | y :: l' => if ltb (key x) (key y) then y :: insert_desc x l' else x :: l
  end.

Definition sorted (reverse : bool) (xs : list A) : list A :=
  fold_right (if reverse then insert_desc else insert_asc) [] xs.
End Sorting.

(** [x in xs] *)
Definition contains {A : Type} (eqb : A -> A -> bool) (x : A) (xs : list A) : bool :=
  existsb (eqb x) xs.

(** [zip(xs, ys)] *)
Definition zip {A B : Type} (xs : list A) (ys : list B) : list (A * B) := combine xs ys.

(** *** [set] *)
Section PySet.
Context {A : Type} (eqb : A -> A -> bool).

Definition set_add (s : list A) (x : A) : list A :=
  if contains eqb x s then s else s ++ [x].

(** [set(xs)].  CPython iterates a set in hash order; the embedding
    iterates it in insertion order.  The only sets the program iterates
    are those of the starter search, whose result does not depend on the
    order (lemma [starter_search_order_irrelevant]). *)
Definition set_of (xs : list A) : list A := fold_left set_add xs [].
End PySet.

(** *** [dict] *)
Section PyDict.
Context {K V : Type} (eqb : K -> K -> bool).

(** [d[k] = v] *)
Fixpoint dict_set (d : list (K * V)) (k : K) (v : V) : list (K * V) :=
  match d with
  | [] => [(k, v)]
  | (k', v') :: d' =>
      if eqb k' k then (k', v) :: d' else (k', v') :: dict_set d' k v
  end.

(** [d[k]]: [KeyError] when the key is absent. *)
Fixpoint dict_get (d : list (K * V)) (k : K) : result V :=
  match d with
  | [] => Raise KeyError
  | (k', v') :: d' => if eqb k' k then Ok v' else dict_get d' k
  end.

Definition keys (d : list (K * V)) : list K := map fst d.
Definition values (d : list (K * V)) : list V := map snd d.
Definition items (d : list (K * V)) : list (K * V) := d.
End PyDict.

(** *** [collections.Counter] *)
Section PyCounter.
Context {K : Type} (eqb : K -> K -> bool).

Fixpoint counter_incr (c : list (K * nat)) (k : K) : list (K * nat) :=
  match c with
  | [] => [(k, 1%nat)]
  | (k', n) :: c' =>
      if eqb k' k then (k', S n) :: c' else (k', n) :: counter_incr c' k
  end.

(** [c.update(xs)] *)
Definition counter_update (c : list (K * nat)) (xs : list K) : list (K * nat) :=
  fold_left counter_incr xs c.

(** [Counter(xs)] *)
Definition Counter (xs : list K) : list (K * nat) := counter_update [] xs.

(** [c[k]]: a missing key counts zero. *)
Fixpoint counter_get (c : list (K * nat)) (k : K) : nat :=
  match c with
  | [] => 0%nat
  | (k', n) :: c' => if eqb k' k then n else counter_get c' k
  end.
End PyCounter.

(** [min(xs)] over non-negative counts: [ValueError] on an empty argument. *)
Definition min (xs : list nat) : result nat :=
  match xs with
  | [] => Raise ValueError
  | x :: xs' => Ok (fold_left Nat.min xs' x)
  end.

(** [xs.count(x)] *)
Definition count {A : Type} (eqb : A -> A -> bool) (x : A) (xs : list A) : nat :=
  length (filter (fun y => eqb y x) xs).

(** [xs[:n]] for any integer [n]: a negative bound counts from the end. *)
Definition slice_to {A : Type} (n : Z) (xs : list A) : list A :=
  if n <? 0 then firstn (length xs - Z.to_nat (- n)) xs else firstn (Z.to_nat n) xs.

(** [xs[1:]] *)
Definition slice_from_1 {A : Type} (xs : list A) : list A := tl xs.

(** [xs.remove(x)]: drops the first item equal to [x], [ValueError] if there
    is none. *)
Fixpoint remove {A : Type} (eqb : A -> A -> bool) (x : A) (xs : list A) : result (list A) :=
  match xs with
  | [] => Raise ValueError
  | y :: xs' => if eqb y x then Ok xs' else rest <- remove eqb x xs' ;; Ok (y :: rest)
  end.

(** [xs.pop()]: the last item and the list without it, [IndexError] on an
    empty list. *)
Fixpoint pop {A : Type} (xs : list A) : result (A * list A) :=
  match xs with
  | [] => Raise IndexError
  | [x] => Ok (x, [])
  | y :: xs' => r <- pop xs' ;; Ok (fst r, y :: snd r)
  end.

End py.

(** ** cards.py *)

Module cds.

Inductive Face : Set :=
| TWO | THREE | FOUR | FIVE | SIX | SEVEN | EIGHT | NINE | TEN
| JACK | QUEEN | KING | ACE.

Inductive Suit : Set := SPADES | HEARTS | CLOVERS | DIAMONDS.

Definition Face_value (f : Face) : Z :=
  match f with
  | TWO => 2 | THREE => 3 | FOUR => 4 | FIVE => 5 | SIX => 6 | SEVEN => 7
  | EIGHT => 8 | NINE => 9 | TEN => 10 | JACK => 11 | QUEEN => 12
  | KING => 13 | ACE => 14
  end.

Definition Suit_value (s : Suit) : Z :=
  match s with SPADES => 0 | HEARTS => 1 | CLOVERS => 2 | DIAMONDS => 3 end.

(** The members of the enumerations, in definition order. *)
Definition Face_members : list Face :=
  [TWO; THREE; FOUR; FIVE; SIX; SEVEN; EIGHT; NINE; TEN; JACK; QUEEN; KING; ACE].

Definition Suit_members : list Suit := [SPADES; HEARTS; CLOVERS; DIAMONDS].

(** Enum members have distinct values, so identity is equality of values. *)
Definition Face_eqb (a b : Face) : bool := Face_value a =? Face_value b.
Definition Suit_eqb (a b : Suit) : bool := Suit_value a =? Suit_value b.

(** [Face(value)]: the member with this value, [ValueError] if none. *)
Definition Face_call (value : Z) : result Face :=
  match find (fun f => Face_value f =? value) Face_members with
  | Some f => Ok f
  | None => Raise ValueError
  end.

(** [min(face.value for face in Face)], [max(face.value for face in Face)] *)
Definition MIN_VALUE : Z :=
  match map Face_value Face_members with
  | [] => 0
  | v :: vs => fold_left Z.min vs v
  end.

Definition MAX_VALUE : Z :=
  match map Face_value Face_members with
  | [] => 0
  | v :: vs => fold_left Z.max vs v
  end.

Record Card : Set := mkCard { face : Face; suit : Suit }.

Definition Card_value (c : Card) : Z := Face_value (face c).

(** [Card.__eq__], [Card.__lt__], [Card.__gt__] *)
Definition Card_eqb (a b : Card) : bool :=
  Face_eqb (face a) (face b) && Suit_eqb (suit a) (suit b).
Definition Card_ltb (a b : Card) : bool := Card_value a <? Card_value b.
Definition Card_gtb (a b : Card) : bool := Card_value a >? Card_value b.

Definition get_next_face (face : Face) : result Face :=
  try_except (Face_call (Face_value face + 1)) ValueError (Face_call MIN_VALUE).

Definition get_previous_face (face : Face) : result Face :=
  try_except (Face_call (Face_value face - 1)) ValueError (Face_call MAX_VALUE).

(** [Card.__ne__], [Card.__ge__], [Card.__le__] *)
Definition Card_neb (a b : Card) : bool :=
  negb (Face_eqb (face a) (face b)) || negb (Suit_eqb (suit a) (suit b)).
Definition Card_geb (a b : Card) : bool := Card_value a >=? Card_value b.
Definition Card_leb (a b : Card) : bool := Card_value a <=? Card_value b.

(** [get_face_from_value] returns [None] where [Face(value)] raises. *)
Definition get_face_from_value (value : Z) : result (option Face) :=
  try_except (f <- Face_call value ;; Ok (Some f)) ValueError (Ok None).

End cds.

(** ** cardUtils.py *)

Module cardUtils.
Import cds.

(** [Hand(cards)] is a [UserList]: a list holding the cards given. *)
Definition Hand (cards : list Card) : list Card := cards.

Definition get_faces (self : list Card) : list Face := map face self.
Definition get_suits (self : list Card) : list Suit := map suit self.

(** The body of the loop [for card in self: groups[key(card)].append(card)]. *)
Definition append_to_group {K : Type} (eqb : K -> K -> bool) (key : Card -> K)
    (groups : list (K * list Card)) (card : Card) : result (list (K * list Card)) :=
  group <- py.dict_get eqb groups (key card) ;;
  Ok (py.dict_set eqb groups (key card) (group ++ [card])).

Definition get_groups_by_face (self : list Card) : result (list (Face * list Card)) :=
  let groups := fold_left (fun d f => py.dict_set Face_eqb d f []) (get_faces self) [] in
  foldM (append_to_group Face_eqb face) self groups.

Definition get_groups_by_suit (self : list Card) : result (list (Suit * list Card)) :=
  let groups := fold_left (fun d s => py.dict_set Suit_eqb d s []) (get_suits self) [] in
  foldM (append_to_group Suit_eqb suit) self groups.

(** The sort key of [sorted_starters]. *)
Definition starter_key (starter : Face) : Z :=
  if negb (Face_eqb starter ACE) then Face_value starter else MIN_VALUE - 1.

Definition sorted_starters (starters : list Face) (reverse : bool) : list Face :=
  py.sorted Z.ltb starter_key reverse starters.

Definition get_max_straight_starter (starters : list Face) : result Face :=
  py.last (sorted_starters starters false).

Definition get_min_straight_starter (starters : list Face) : result Face :=
  py.first (sorted_starters starters false).

Definition is_straight_starter_greater (starter1 starter2 : Face) : bool :=
  if Face_eqb starter1 starter2 then false
  else if negb (Face_eqb starter1 ACE) && negb (Face_eqb starter2 ACE)
       then Face_value starter1 >? Face_value starter2
       else negb (Face_eqb starter1 ACE).

Definition is_straight_starter_lesser (starter1 starter2 : Face) : bool :=
  if Face_eqb starter1 starter2 then false
  else if negb (Face_eqb starter1 ACE) && negb (Face_eqb starter2 ACE)
       then Face_value starter1 <? Face_value starter2
       else Face_eqb starter1 ACE.

(** [invalid or set()] *)
Definition or_empty (invalid : option (list Face)) : list Face :=
  match invalid with
  | Some l => l
  | None => []
  end.

(** The loop of [get_starters_of_sequences_including_face]; [n] is the
    number of iterations left, [Ok] is returned at [break] as well as at
    exhaustion of the range. *)
Fixpoint starters_loop (invalid : list Face) (n : nat) (starters : list Face)
    (starter : Face) : result (list Face) :=
  match n with
  | O => Ok starters
  | S n' =>
      if py.contains Face_eqb starter starters then Ok starters
      else
        let starters' :=
          if negb (py.contains Face_eqb starter invalid)
          then py.set_add Face_eqb starters starter
          else starters in
        starter' <- get_previous_face starter ;;
        starters_loop invalid n' starters' starter'
  end.

Definition get_starters_of_sequences_including_face (face : Face)
    (sequence_length : nat) (invalid : option (list Face)) : result (list Face) :=
  starters_loop (or_empty invalid) sequence_length [] face.

Definition get_starters_of_sequences_including_faces (faces : list Face)
    (sequence_length : nat) (invalid : option (list Face)) : result (list (Face * nat)) :=
  foldM (fun starters face =>
           s <- get_starters_of_sequences_including_face face sequence_length invalid ;;
           Ok (py.counter_update Face_eqb starters s))
        (py.set_of Face_eqb faces) [].

Definition get_most_frequent_starter_of_sequences_including_faces (faces : list Face)
    (sequence_length : nat) (invalid : option (list Face)) : result Face :=
  starters <- get_starters_of_sequences_including_faces faces sequence_length invalid ;;
  max_frequency <- py.max (py.values starters) ;;
  get_max_straight_starter
    (filter (fun face => Nat.eqb (py.counter_get Face_eqb starters face) max_frequency)
            (py.keys starters)).

(** Lexicographic [<] on the key tuples [(len, value)]. *)
Definition size_value_ltb (a b : nat * Z) : bool :=
  (fst a <? fst b)%nat || ((fst a =? fst b)%nat && (snd a <? snd b)).

(** The sort key of [get_group_items_by_size_and_value]:
    [(len(tup[1]), sorted(tup[1], reverse=True)[0].value)]. *)
Definition group_item_key {K : Type} (tup : K * list Card) : result (nat * Z) :=
  top <- py.first (py.sorted Card_ltb (fun c => c) true (snd tup)) ;;
  Ok (length (snd tup), Card_value top).

(** [sorted] evaluates the key of every item before it compares any two,
    so a raising key aborts the call. *)
Definition get_group_items_by_size_and_value {K : Type} (face_group : list (K * list Card))
    (reverse : bool) : result (list (K * list Card)) :=
  ks <- mapM group_item_key (py.items face_group) ;;
  Ok (map snd (py.sorted size_value_ltb fst reverse (combine ks (py.items face_group)))).

Definition get_max_face_frequency (cards : list Card) : result nat :=
  let hand := Hand cards in
  groups <- get_groups_by_face hand ;;
  py.max (map (fun group => length group) (py.values groups)).

Definition get_max_suit_frequency (cards : list Card) : result nat :=
  let hand := Hand cards in
  groups <- get_groups_by_suit hand ;;
  py.max (map (fun group => length group) (py.values groups)).

Definition get_cards_with_face (self : list Card) (face : Face) : list Card :=
  filter (fun card => Face_eqb (cds.face card) face) self.

Definition get_cards_with_suit (self : list Card) (suit : Suit) : list Card :=
  filter (fun card => Suit_eqb (cds.suit card) suit) self.

(** The loop of [get_faces_with_frequency] / [get_suits_with_frequency]
    over the items of the group dictionary. *)
Definition keys_with_frequency {K : Type} (groups : list (K * list Card)) (frequency : Z)
    : list K :=
  fold_left (fun found '(k, group) =>
               if Z.of_nat (length group) =? frequency then found ++ [k] else found)
            (py.items groups) [].

Definition get_faces_with_frequency (self : list Card) (frequency : Z) : result (list Face) :=
  groups <- get_groups_by_face self ;;
  Ok (keys_with_frequency groups frequency).

Definition get_suits_with_frequency (self : list Card) (frequency : Z) : result (list Suit) :=
  groups <- get_groups_by_suit self ;;
  Ok (keys_with_frequency groups frequency).

Definition sorted_faces (faces : list Face) (reverse : bool) : list Face :=
  py.sorted Z.ltb Face_value reverse faces.

Definition get_max_face (faces : list Face) : result Face :=
  py.last (sorted_faces faces false).

Definition get_min_face (faces : list Face) : result Face :=
  py.first (sorted_faces faces false).

(** The loop of [get_sequence_of_starter]. *)
Fixpoint sequence_of_starter_loop (n : nat) (sequence : list Face) (cur_face : Face)
    : result (list Face) :=
  match n with
  | O => Ok sequence
  | S n' =>
      cur_face' <- get_next_face cur_face ;;
      sequence_of_starter_loop n' (sequence ++ [cur_face]) cur_face'
  end.

Definition get_sequence_of_starter (starter : Face) (sequence_length : nat)
    : result (list Face) :=
  sequence_of_starter_loop sequence_length [] starter.

Definition get_sequence_including_most_faces (faces : list Face) (sequence_length : nat)
    (invalid : option (list Face)) : result (list Face) :=
  starter <- get_most_frequent_starter_of_sequences_including_faces
               faces sequence_length invalid ;;
  get_sequence_of_starter starter sequence_length.

Definition sorted_by_frequency {A : Type} (eqb : A -> A -> bool) (iterable : list A)
    (reverse : bool) : list A :=
  py.sorted Nat.ltb (fun item => py.count eqb item iterable) reverse iterable.

(** The loop of [get_first_cards_with_faces] / [get_first_cards_with_suits];
    the state is the list built so far and the set of keys already used. *)
Definition first_cards_step {K : Type} (eqb : K -> K -> bool) (key : Card -> K)
    (wanted : list K) (state : list Card * list K) (card : Card) : list Card * list K :=
  let '(first_cards, used) := state in
  if py.contains eqb (key card) wanted && negb (py.contains eqb (key card) used)
  then (first_cards ++ [card], py.set_add eqb used (key card))
  else (first_cards, used).

Definition get_first_cards_with_faces (cards : list Card) (faces : list Face) : list Card :=
  fst (fold_left (first_cards_step Face_eqb face faces) cards ([], [])).

Definition get_first_cards_with_suits (cards : list Card) (suits : list Suit) : list Card :=
  fst (fold_left (first_cards_step Suit_eqb suit suits) cards ([], [])).

Definition get_min_face_frequency (cards : list Card) : result nat :=
  let hand := Hand cards in
  groups <- get_groups_by_face hand ;;
  py.min (map (fun group => length group) (py.values groups)).

Definition get_min_suit_frequency (cards : list Card) : result nat :=
  let hand := Hand cards in
  groups <- get_groups_by_suit hand ;;
  py.min (map (fun group => length group) (py.values groups)).

End cardUtils.

(** ** ranks.py *)

Module ranks.
Import cds.

Definition RankValidator : Type := list Card -> result bool.

Record Rank : Type := mkRank {
  name : string;
  value : Z;
  validators : list RankValidator
}.

(** [Rank.__init__]: [self.validators = validators or []]. *)
Definition Rank_init (name : string) (value : Z)
    (validators : option (list RankValidator)) : Rank :=
  mkRank name value (match validators with Some vs => vs | None => [] end).

(** [__eq__], [__gt__] and [__lt__] compare the values only. *)
Definition Rank_eqb (a b : Rank) : bool := value a =? value b.
Definition Rank_gtb (a b : Rank) : bool := value a >? value b.
Definition Rank_ltb (a b : Rank) : bool := value a <? value b.

Fixpoint run_validators (vs : list RankValidator) (cards : list Card) : result bool :=
  match vs with
  | [] => Ok true
  | validator :: vs' =>
      ok <- validator cards ;;
      if negb ok then Ok false else run_validators vs' cards
  end.

Definition is_rank (self : Rank) (cards : list Card) : result bool :=
  run_validators (validators self) cards.

Definition Rank_none : Rank := Rank_init "None"%string 0 None.

(** [frequency] ranges over [attribute_frequencies.values()]. *)
Definition has_required_group {A : Type} (eqb : A -> A -> bool) (attributes : list A)
    (group_size num_of_groups : nat) : bool :=
  let attribute_frequencies := py.Counter eqb attributes in
  let num_of_valid_groups :=
    fold_left (fun n frequency => if Nat.eqb frequency group_size then S n else n)
              (py.values attribute_frequencies) 0%nat in
  Nat.eqb num_of_valid_groups num_of_groups.

Definition create_length_validator (required_length : nat) : RankValidator :=
  fun cards => Ok (Nat.eqb (length cards) required_length).

(** The loop of [validate_sequence]. *)
Fixpoint sequence_loop (faces : list Face) (n : nat) (starter : Face) : result bool :=
  match n with
  | O => Ok true
  | S n' =>
      if negb (py.contains Face_eqb starter faces) then Ok false
      else starter' <- get_next_face starter ;; sequence_loop faces n' starter'
  end.

Definition create_sequence_validator (invalid_starters : option (list Face)) : RankValidator :=
  let invalid_starters := cardUtils.or_empty invalid_starters in
  fun cards =>
    let card_group := cardUtils.Hand cards in
    let sequence_length := length card_group in
    let faces := cardUtils.get_faces card_group in
    starter <- cardUtils.get_most_frequent_starter_of_sequences_including_faces
                 faces sequence_length (Some invalid_starters) ;;
    sequence_loop faces sequence_length starter.

(** The validators below loop over their requirements and return [False] at
    the first one that fails; no step of these loops can raise, so each
    loop is the conjunction of its tests. *)
Definition create_face_validator (required_faces : list Face) : RankValidator :=
  fun cards =>
    let faces := cardUtils.get_faces (cardUtils.Hand cards) in
    Ok (forallb (fun face => py.contains Face_eqb face faces) required_faces).

Definition create_suit_validator (required_suits : list Suit) : RankValidator :=
  fun cards =>
    let suits := cardUtils.get_suits (cardUtils.Hand cards) in
    Ok (forallb (fun suit => py.contains Suit_eqb suit suits) required_suits).

Definition create_face_frequency_validator (required_frequencies : list (nat * nat))
    : RankValidator :=
  fun cards =>
    let card_group := cardUtils.Hand cards in
    Ok (forallb (fun '(group_size, required_num_of_group) =>
                   has_required_group Face_eqb (cardUtils.get_faces card_group)
                                      group_size required_num_of_group)
                (py.items required_frequencies)).

Definition create_suit_frequency_validator (required_frequencies : list (nat * nat))
    : RankValidator :=
  fun cards =>
    let card_group := cardUtils.Hand cards in
    Ok (forallb (fun '(group_size, required_num_of_group) =>
                   has_required_group Suit_eqb (cardUtils.get_suits card_group)
                                      group_size required_num_of_group)
                (py.items required_frequencies)).

Definition REQUIRED_LENGTH : nat := 5.
Definition INVALID_STRAIGHT_STARTERS : list Face := [JACK; QUEEN; KING].
Definition ROYAL_FACES : list Face := [TEN; JACK; QUEEN; KING; ACE].

Definition NULL_RANK : Rank := Rank_init "None"%string 0 None.

Definition HIGH : Rank :=
  Rank_init "High Card"%string 1 (Some [create_length_validator REQUIRED_LENGTH]).

Definition PAIR : Rank :=
  Rank_init "Pair"%string 2
    (Some [create_length_validator REQUIRED_LENGTH;
           create_face_frequency_validator [(2, 1)]%nat]).

Definition TWO_PAIR : Rank :=
  Rank_init "Two Pair"%string 3
    (Some [create_length_validator REQUIRED_LENGTH;
           create_face_frequency_validator [(2, 2)]%nat]).

Definition THREE_OF_A_KIND : Rank :=
  Rank_init "Three of a Kind"%string 4
    (Some [create_length_validator REQUIRED_LENGTH;
           create_face_frequency_validator [(3, 1)]%nat]).

Definition STRAIGHT : Rank :=
  Rank_init "Straight"%string 5
    (Some [create_length_validator REQUIRED_LENGTH;
           create_sequence_validator (Some INVALID_STRAIGHT_STARTERS)]).

Definition FLUSH : Rank :=
  Rank_init "Flush"%string 6
    (Some [create_length_validator REQUIRED_LENGTH;
           create_suit_frequency_validator [(REQUIRED_LENGTH, 1%nat)]]).

Definition FULL_HOUSE : Rank :=
  Rank_init "Full House"%string 7
    (Some [create_length_validator REQUIRED_LENGTH;
           create_face_frequency_validator [(3, 1); (2, 1)]%nat]).

Definition FOUR_OF_A_KIND : Rank :=
  Rank_init "Four of a Kind"%string 8
    (Some [create_length_validator REQUIRED_LENGTH;
           create_face_frequency_validator [(4, 1)]%nat]).

Definition STRAIGHT_FLUSH : Rank :=
  Rank_init "Straight Flush"%string 9
    (Some [create_length_validator REQUIRED_LENGTH;
           create_sequence_validator (Some INVALID_STRAIGHT_STARTERS);
           create_suit_frequency_validator [(REQUIRED_LENGTH, 1%nat)]]).

Definition ROYAL_FLUSH : Rank :=
  Rank_init "Royal Flush"%string 10
    (Some [create_length_validator REQUIRED_LENGTH;
           create_sequence_validator (Some INVALID_STRAIGHT_STARTERS);
           create_suit_frequency_validator [(REQUIRED_LENGTH, 1%nat)];
           create_face_validator ROYAL_FACES]).

Definition DEFAULT_RANKS : list Rank :=
  [ROYAL_FLUSH; STRAIGHT_FLUSH; FOUR_OF_A_KIND; FULL_HOUSE; FLUSH; STRAIGHT;
   THREE_OF_A_KIND; TWO_PAIR; PAIR; HIGH].

(** The loop of [get_rank]; falling through returns [NULL_RANK]. *)
Fixpoint first_rank (ranks : list Rank) (cards : list Card) : result Rank :=
  match ranks with
  | [] => Ok NULL_RANK
  | rank :: ranks' =>
      ok <- is_rank rank cards ;;
      if ok then Ok rank else first_rank ranks' cards
  end.

(** [ranks = ranks or DEFAULT_RANKS]: [None] and an empty sequence are both
    replaced by the default catalog. *)
Definition get_rank (cards : list Card) (ranks : option (list Rank)) : result Rank :=
  let ranks :=
    match ranks with
    | Some (r :: rs) => r :: rs
    | Some [] | None => DEFAULT_RANKS
    end in
  first_rank ranks cards.

End ranks.

(** ** pokerLogic.py *)

Module pokerLogic.
Import cds.

Inductive Comparison : Set := GREATER | EQUAL | LESSER.

Definition Comparison_value (c : Comparison) : Z :=
  match c with GREATER => 1 | EQUAL => 0 | LESSER => -1 end.

Definition Comparison_eqb (a b : Comparison) : bool :=
  Comparison_value a =? Comparison_value b.

Definition FACE_FREQUENCY_RANKS : list ranks.Rank :=
  [ranks.HIGH; ranks.PAIR; ranks.TWO_PAIR; ranks.THREE_OF_A_KIND;
   ranks.FULL_HOUSE; ranks.FOUR_OF_A_KIND].
Definition SEQUENTIAL_RANKS : list ranks.Rank :=
  [ranks.STRAIGHT; ranks.STRAIGHT_FLUSH; ranks.ROYAL_FLUSH].
Definition SUIT_FREQUENCY_RANKS : list ranks.Rank := [ranks.FLUSH].

Definition compare_group_items (group_item1 group_item2 : Face * list Card) : Comparison :=
  let '(face1, group1) := group_item1 in
  let '(face2, group2) := group_item2 in
  if (length group2 <? length group1)%nat
     || ((length group1 =? length group2)%nat && (Face_value face1 >? Face_value face2))
  then GREATER
  else if (length group1 <? length group2)%nat
          || ((length group1 =? length group2)%nat && (Face_value face1 <? Face_value face2))
  then LESSER
  else EQUAL.

(** [compare_length] only reads the two lengths. *)
Definition compare_length (len1 len2 : nat) : Comparison :=
  if (len2 <? len1)%nat then GREATER
  else if (len1 <? len2)%nat then LESSER
  else EQUAL.

(** The loop over [zip(...)] in [compare_by_face_frequency]; [None] when
    the loop ends without returning. *)
Fixpoint first_group_difference (match_ups : list ((Face * list Card) * (Face * list Card)))
    : option Comparison :=
  match match_ups with
  | [] => None
  | (inc_group_item, cha_group_item) :: rest =>
      let result := compare_group_items inc_group_item cha_group_item in
      if negb (Comparison_eqb result EQUAL) then Some result
      else first_group_difference rest
  end.

Definition compare_by_face_frequency (incumbent_hand challenger_hand : list Card)
    : result Comparison :=
  incumbent_groups <- cardUtils.get_groups_by_face (cardUtils.Hand incumbent_hand) ;;
  challenger_groups <- cardUtils.get_groups_by_face (cardUtils.Hand challenger_hand) ;;
  inc_items <- cardUtils.get_group_items_by_size_and_value incumbent_groups true ;;
  cha_items <- cardUtils.get_group_items_by_size_and_value challenger_groups true ;;
  match first_group_difference (py.zip inc_items cha_items) with
  | Some result => Ok result
  | None => Ok (compare_length (length incumbent_groups) (length challenger_groups))
  end.

Definition compare_by_straight_starter (incumbent_hand challenger_hand : list Card)
    : result Comparison :=
  inc_starter <- cardUtils.get_most_frequent_starter_of_sequences_including_faces
                   (cardUtils.get_faces (cardUtils.Hand incumbent_hand))
                   ranks.REQUIRED_LENGTH (Some ranks.INVALID_STRAIGHT_STARTERS) ;;
  cha_starter <- cardUtils.get_most_frequent_starter_of_sequences_including_faces
                   (cardUtils.get_faces (cardUtils.Hand challenger_hand))
                   ranks.REQUIRED_LENGTH (Some ranks.INVALID_STRAIGHT_STARTERS) ;;
  if Face_eqb inc_starter cha_starter then Ok EQUAL
  else if cardUtils.is_straight_starter_greater inc_starter cha_starter then Ok GREATER
  else Ok LESSER.

(** The loop over [zip(...)] in [compare_by_value]. *)
Fixpoint first_value_difference (pairs : list (Card * Card)) : option Comparison :=
  match pairs with
  | [] => None
  | (inc_item, cha_item) :: rest =>
      if Card_value inc_item >? Card_value cha_item then Some GREATER
      else if Card_value inc_item <? Card_value cha_item then Some LESSER
      else first_value_difference rest
  end.

Definition compare_by_value (incumbent_hand challenger_hand : list Card) : Comparison :=
  let sorted_incumbent := py.sorted Card_ltb (fun c => c) true incumbent_hand in
  let sorted_challenger := py.sorted Card_ltb (fun c => c) true challenger_hand in
  match first_value_difference (py.zip sorted_incumbent sorted_challenger) with
  | Some result => result
  | None => compare_length (length incumbent_hand) (length challenger_hand)
  end.

Definition compare_hands (incumbent_hand challenger_hand : list Card) : result Comparison :=
  incumbent_rank <- ranks.get_rank incumbent_hand None ;;
  challenger_rank <- ranks.get_rank challenger_hand None ;;
  if ranks.Rank_gtb incumbent_rank challenger_rank then Ok GREATER
  else if ranks.Rank_ltb incumbent_rank challenger_rank then Ok LESSER
  else if py.contains ranks.Rank_eqb incumbent_rank FACE_FREQUENCY_RANKS
       then compare_by_face_frequency incumbent_hand challenger_hand
  else if py.contains ranks.Rank_eqb incumbent_rank SEQUENTIAL_RANKS
       then compare_by_straight_starter incumbent_hand challenger_hand
  else Ok (compare_by_value incumbent_hand challenger_hand).

End pokerLogic.

(** ** game.py (the parts that compute on cards) *)

Module game.
Import cds.

Definition CardKeeper : Type := list Card -> result (list Card).

(** [Frequency]: an [int], or a callable evaluated on the cards. *)
Inductive Frequency : Type :=
| Fixed (n : Z)
| Computed (f : list Card -> result Z).

Definition create_sequence_target_finder (sequence_length : nat)
    (invalid_starters : option (list Face)) : CardKeeper :=
  fun cards =>
    let hand := cardUtils.Hand cards in
    let faces := cardUtils.get_faces hand in
    target_faces <- cardUtils.get_sequence_including_most_faces
                      faces sequence_length (Some (cardUtils.or_empty invalid_starters)) ;;
    Ok (cardUtils.get_first_cards_with_faces cards target_faces).

(** [get_min_frequency_func] *)
Definition min_frequency_func (get_min_frequency : Frequency) (cards : list Card) : result Z :=
  match get_min_frequency with
  | Fixed n => Ok n
  | Computed f => f cards
  end.

(** The loop of [get_face_frequency_targets] / [get_suit_frequency_targets]:
    groups are kept while they are large enough, the first one that is not
    ends the loop. *)
Fixpoint keep_large_groups {K : Type} (get_min_frequency : Frequency) (cards : list Card)
    (items : list (K * list Card)) (cards_to_keep : list Card) : result (list Card) :=
  match items with
  | [] => Ok cards_to_keep
  | (_, group) :: rest =>
      min_frequency <- min_frequency_func get_min_frequency cards ;;
      if Z.of_nat (length group) >=? min_frequency
      then keep_large_groups get_min_frequency cards rest (cards_to_keep ++ group)
      else Ok cards_to_keep
  end.

Definition create_face_frequency_target_finder (get_min_frequency : Frequency) : CardKeeper :=
  fun cards =>
    let hand := cardUtils.Hand cards in
    groups <- cardUtils.get_groups_by_face hand ;;
    items <- cardUtils.get_group_items_by_size_and_value groups true ;;
    keep_large_groups get_min_frequency cards items [].

Definition create_suit_frequency_target_finder (get_min_frequency : Frequency) : CardKeeper :=
  fun cards =>
    let hand := cardUtils.Hand cards in
    groups <- cardUtils.get_groups_by_suit hand ;;
    items <- cardUtils.get_group_items_by_size_and_value groups true ;;
    keep_large_groups get_min_frequency cards items [].

Definition get_most_frequent_face_targets : CardKeeper :=
  fun cards =>
    let hand := cardUtils.Hand cards in
    groups <- cardUtils.get_groups_by_face hand ;;
    sorted_group_items <- cardUtils.get_group_items_by_size_and_value groups true ;;
    item <- py.first sorted_group_items ;;
    Ok (snd item).

Definition get_most_frequent_suit_targets : CardKeeper :=
  fun cards =>
    let hand := cardUtils.Hand cards in
    groups <- cardUtils.get_groups_by_suit hand ;;
    sorted_group_items <- cardUtils.get_group_items_by_size_and_value groups true ;;
    item <- py.first sorted_group_items ;;
    Ok (snd item).

(** [Discarder]; [sorter] defaults to the built-in [sorted]. *)
Record Discarder : Type := mkDiscarder {
  max_discards : Z;
  get_keeper_func : CardKeeper;
  sorter : list Card -> bool -> list Card
}.

Definition default_sorter (cards : list Card) (reverse : bool) : list Card :=
  py.sorted Card_ltb (fun c => c) reverse cards.

Definition sorted_by_precedence (self : Discarder) (cards : list Card) (reverse : bool)
    : list Card :=
  sorter self cards reverse.

Definition get_target_cards (self : Discarder) (cards : list Card) : result (list Card) :=
  let sorted_cards := sorted_by_precedence self cards true in
  get_keeper_func self sorted_cards.

Definition get_irrelevant_cards (self : Discarder) (cards : list Card) : result (list Card) :=
  keeper_cards <- get_keeper_func self cards ;;
  Ok (filter (fun card => negb (py.contains Card_eqb card keeper_cards)) cards).

Definition get_discards (self : Discarder) (cards : list Card) : result (list Card) :=
  irrelevant_cards <- get_irrelevant_cards self cards ;;
  Ok (py.slice_to (max_discards self) irrelevant_cards).

Definition MAX_NUM_OF_DISCARDS : Z := 3.
Definition MIN_FREQUENCY_TO_KEEP : Z := 2.

Definition FREQUENCY_DISCARDER : Discarder :=
  mkDiscarder MAX_NUM_OF_DISCARDS
    (create_face_frequency_target_finder (Fixed MIN_FREQUENCY_TO_KEEP)) default_sorter.

Definition FLUSH_DISCARDER : Discarder :=
  mkDiscarder MAX_NUM_OF_DISCARDS get_most_frequent_suit_targets default_sorter.

Definition STRAIGHT_DISCARDER : Discarder :=
  mkDiscarder MAX_NUM_OF_DISCARDS
    (create_sequence_target_finder ranks.REQUIRED_LENGTH
       (Some ranks.INVALID_STRAIGHT_STARTERS)) default_sorter.

(** [Player]: the hand is the mutable part. *)
Record Player : Type := mkPlayer {
  name : string;
  discarder : Discarder;
  hand : list Card
}.

Definition set_hand (player : Player) (cards : list Card) : Player :=
  mkPlayer (name player) (discarder player) cards.

(** [Player.discard]: every targeted discard is removed from the hand with
    [list.remove]. *)
Definition discard (self : Player) : result Player :=
  cards_to_be_discarded <- get_discards (discarder self) (hand self) ;;
  new_hand <- foldM (fun h card => py.remove Card_eqb card h) cards_to_be_discarded (hand self) ;;
  Ok (set_hand self new_hand).

Definition MAX_HAND_LENGTH : nat := 5.

(** [Game.fill_player_hand]: [while len(player.hand) < MAX_HAND_LENGTH] pops
    the deck and appends to the hand; each round lengthens the hand by
    one, so the loop runs [MAX_HAND_LENGTH - len(hand)] times unless the
    deck runs out.  The state is the deck and the hand. *)
Fixpoint fill_loop (rounds : nat) (deck hand : list Card) : result (list Card * list Card) :=
  match rounds with
  | O => Ok (deck, hand)
  | S rounds' =>
      r <- py.pop deck ;;
      fill_loop rounds' (snd r) (hand ++ [fst r])
  end.

Definition fill_player_hand (deck : list Card) (player : Player)
    : result (list Card * Player) :=
  r <- fill_loop (MAX_HAND_LENGTH - length (hand player)) deck (hand player) ;;
  Ok (fst r, set_hand player (snd r)).


(** The loop body of [Game.find_winners]; the state is the key incumbent and
    the incumbents found so far. *)
Definition find_winners_step (state : Player * list Player) (challenger : Player)
    : result (Player * list Player) :=
  let '(key_incumbent, incumbents) := state in
  result <- pokerLogic.compare_hands (hand key_incumbent) (hand challenger) ;;
  if pokerLogic.Comparison_eqb result pokerLogic.EQUAL
  then Ok (key_incumbent, incumbents ++ [challenger])
  else if pokerLogic.Comparison_eqb result pokerLogic.LESSER
  then Ok (challenger, [challenger])
  else Ok (key_incumbent, incumbents).

Definition find_winners (players : list Player) : result (list Player) :=
  key_incumbent <- py.first players ;;
  final <- foldM find_winners_step (py.slice_from_1 players) (key_incumbent, [key_incumbent]) ;;
  Ok (snd final).

(** [Game]: the players, in list order, and the deck are the mutable
    parts. *)
Record Game : Type := mkGame {
  players : list Player;
  deck : list Card
}.




Definition clear_player_hand (player : Player) : Player := set_hand player [].

Definition clear_all_player_hands (self : Game) : Game :=
  mkGame (map clear_player_hand (players self)) (deck self).





End game.

(** * Properties *)

Import cds.

(** ** Vocabulary of the statements *)

(** [x] may stand before [y] in a list that is descending (resp. ascending)
    for the order [ltb] on the keys. *)
Definition desc_ok {A K : Type} (ltb : K -> K -> bool) (key : A -> K) (x y : A) : Prop :=
  ltb (key x) (key y) = false.
Definition asc_ok {A K : Type} (ltb : K -> K -> bool) (key : A -> K) (x y : A) : Prop :=
  ltb (key y) (key x) = false.

(** The dictionary with keys [ks], in this order, and value [F k] at [k]. *)
Definition tabulate {K V : Type} (F : K -> V) (ks : list K) : list (K * V) :=
  map (fun k => (k, F k)) ks.

(** The cards of a hand whose key is [k], in hand order. *)
Definition group_of {K : Type} (eqb : K -> K -> bool) (key : Card -> K)
    (cards : list Card) (k : K) : list Card :=
  filter (fun card => eqb (key card) k) cards.

(** All the validators of a rank accept the cards. *)
Definition validators_hold (rank : ranks.Rank) (cards : list Card) : Prop :=
  Forall (fun validator => validator cards = Ok true) (ranks.validators rank).

(** All the cards have one and the same suit. *)
Definition same_suit (cards : list Card) : Prop :=
  exists s, forall card, In card cards -> suit card = s.

(** What the catalog's sequence validator computes, as a function of the
    faces of the cards. *)
Definition sequence_check (faces : list Face) : result bool :=
  starter <- cardUtils.get_most_frequent_starter_of_sequences_including_faces
               faces (length faces) (Some ranks.INVALID_STRAIGHT_STARTERS) ;;
  ranks.sequence_loop faces (length faces) starter.

(** Finite enumerations, for properties settled by evaluation: all the
    lists of a given length over an alphabet, and all the orderings of a
    list. *)
Fixpoint all_lists {A : Type} (alphabet : list A) (n : nat) : list (list A) :=
  match n with
  | O => [[]]
  | S n' => flat_map (fun x => map (cons x) (all_lists alphabet n')) alphabet
  end.

Fixpoint insert_everywhere {A : Type} (x : A) (l : list A) : list (list A) :=
  match l with
  | [] => [[x]]
  | y :: l' => (x :: l) :: map (cons y) (insert_everywhere x l')
  end.

Fixpoint permutations {A : Type} (l : list A) : list (list A) :=
  match l with
  | [] => [[]]
  | x :: l' => flat_map (insert_everywhere x) (permutations l')
  end.

Definition all_equalb (suits : list Suit) : bool :=
  match suits with
  | [] => true
  | s :: rest => forallb (Suit_eqb s) rest
  end.

Definition is_Ok_true (r : result bool) : bool :=
  match r with Ok true => true | _ => false end.

Definition is_Ok_face (f : Face) (r : result Face) : bool :=
  match r with Ok g => Face_eqb g f | _ => false end.

Definition is_Ok_false (r : result bool) : bool :=
  match r with Ok false => true | _ => false end.

Definition rank_value_is (v : Z) (r : result ranks.Rank) : bool :=
  match r with Ok rank => ranks.value rank =? v | _ => false end.

(** The hands of the worked examples. *)
Definition spades_2_5_7_9_K : list Card :=
  [mkCard TWO SPADES; mkCard FIVE SPADES; mkCard SEVEN SPADES;
   mkCard NINE SPADES; mkCard KING SPADES].

Definition hearts_3_5_7_9_K : list Card :=
  [mkCard THREE HEARTS; mkCard FIVE HEARTS; mkCard SEVEN HEARTS;
   mkCard NINE HEARTS; mkCard KING HEARTS].

Definition kings_full_of_twos : list Card :=
  [mkCard KING SPADES; mkCard KING HEARTS; mkCard KING CLOVERS;
   mkCard TWO SPADES; mkCard TWO HEARTS].

Definition queens_full_of_aces : list Card :=
  [mkCard QUEEN SPADES; mkCard QUEEN HEARTS; mkCard QUEEN CLOVERS;
   mkCard ACE SPADES; mkCard ACE HEARTS].

Definition ace_low_mixed : list Card :=
  [mkCard ACE SPADES; mkCard TWO HEARTS; mkCard THREE SPADES;
   mkCard FOUR CLOVERS; mkCard FIVE DIAMONDS].

Definition hearts_9_to_K : list Card :=
  [mkCard NINE HEARTS; mkCard TEN HEARTS; mkCard JACK HEARTS;
   mkCard QUEEN HEARTS; mkCard KING HEARTS].

(** The inverse of a comparison. *)
Definition flip (c : pokerLogic.Comparison) : pokerLogic.Comparison :=
  match c with
  | pokerLogic.GREATER => pokerLogic.LESSER
  | pokerLogic.EQUAL => pokerLogic.EQUAL
  | pokerLogic.LESSER => pokerLogic.GREATER
  end.

(** The (group size, face value) of an item of a face-group dictionary, and
    the comparison of two such pairs, size first. *)
Definition group_size_value (item : Face * list Card) : nat * Z :=
  (length (snd item), Face_value (fst item)).

Definition compare_size_value (a b : nat * Z) : pokerLogic.Comparison :=
  if cardUtils.size_value_ltb b a then pokerLogic.GREATER
  else if cardUtils.size_value_ltb a b then pokerLogic.LESSER
  else pokerLogic.EQUAL.

Definition compare_groups (x y : Face * list Card) : pokerLogic.Comparison :=
  compare_size_value (group_size_value x) (group_size_value y).

(** The comparison of two raw card values, and of two cards by value. *)
Definition compare_values (a b : Z) : pokerLogic.Comparison :=
  if a >? b then pokerLogic.GREATER
  else if a <? b then pokerLogic.LESSER
  else pokerLogic.EQUAL.

Definition compare_card_values (a b : Card) : pokerLogic.Comparison :=
  compare_values (Card_value a) (Card_value b).

(** "Compare pairwise; the first differing pair decides; when no compared
    pair differs the result is [fallback]": [res] is the outcome of
    comparing [xs] and [ys] position by position with [cmp]. *)
Definition decided_by_first_difference {X : Type} (cmp : X -> X -> pokerLogic.Comparison)
    (xs ys : list X) (fallback res : pokerLogic.Comparison) : Prop :=
  (exists i x y,
     nth_error xs i = Some x /\ nth_error ys i = Some y /\
     cmp x y <> pokerLogic.EQUAL /\ res = cmp x y /\
     forall j x' y', (j < i)%nat -> nth_error xs j = Some x' -> nth_error ys j = Some y' ->
                     cmp x' y' = pokerLogic.EQUAL) \/
  ((forall j x' y', nth_error xs j = Some x' -> nth_error ys j = Some y' ->
                    cmp x' y' = pokerLogic.EQUAL) /\
   res = fallback).

(** The loop "return the first comparison that is not EQUAL". *)
Fixpoint first_difference {X : Type} (cmp : X -> X -> pokerLogic.Comparison)
    (pairs : list (X * X)) : option pokerLogic.Comparison :=
  match pairs with
  | [] => None
  | (x, y) :: rest =>
      match cmp x y with
      | pokerLogic.EQUAL => first_difference cmp rest
      | r => Some r
      end
  end.

(** [groups] lists the face groups of [cards], each face once with all the
    cards of that face, in descending (group size, face value) order. *)
Definition sorted_face_groups (cards : list Card) (groups : list (Face * list Card)) : Prop :=
  NoDup (map fst groups) /\
  (forall f g, In (f, g) groups <->
               In f (cardUtils.get_faces cards) /\ g = group_of Face_eqb face cards f) /\
  StronglySorted (fun x y => cardUtils.size_value_ltb (group_size_value x) (group_size_value y) = false)
                 groups.

(** [sorted] lists the cards of [cards] in descending order of value. *)
Definition sorted_by_value_desc (cards sorted : list Card) : Prop :=
  Permutation sorted cards /\
  StronglySorted (fun a b => Card_value a >= Card_value b) sorted.

(** The face-group dictionary of a hand and its items in the order used by
    the comparison. *)
Definition face_groups (cards : list Card) : list (Face * list Card) :=
  tabulate (group_of Face_eqb face cards) (py.set_of Face_eqb (cardUtils.get_faces cards)).

Definition sorted_groups (cards : list Card) : list (Face * list Card) :=
  py.sorted cardUtils.size_value_ltb group_size_value true (face_groups cards).

(** The number of occurrences of a face in a list. *)
Definition occurrences (k : Face) (l : list Face) : nat :=
  length (filter (fun x => Face_eqb x k) l).

(** The counter obtained from [Counter()] by one [update] per set, and the
    choice that [get_most_frequent_starter_of_sequences_including_faces]
    makes from a counter. *)
Definition count_sets (sets : list (list Face)) : list (Face * nat) :=
  fold_left (py.counter_update Face_eqb) sets [].

Definition pick_starter (starters : list (Face * nat)) : result Face :=
  max_frequency <- py.max (py.values starters) ;;
  cardUtils.get_max_straight_starter
    (filter (fun face => Nat.eqb (py.counter_get Face_eqb starters face) max_frequency)
            (py.keys starters)).

(** [sets'] lists the sets of [sets] in another order, each of them in
    another order of its elements. *)
Definition reordering (sets sets' : list (list Face)) : Prop :=
  exists mid, Permutation sets mid /\ Forall2 (@Permutation Face) mid sets'.

(** *** Scores

    Every hand has a score, a pair of its rank value and a list of
    (size, value) pairs, such that [compare_hands] compares scores: rank
    values first, then the lists position by position, a proper prefix
    being smaller. *)

Definition lex_compare (xs ys : list (nat * Z)) : pokerLogic.Comparison :=
  match first_difference compare_size_value (py.zip xs ys) with
  | Some r => r
  | None => pokerLogic.compare_length (length xs) (length ys)
  end.

Definition tie_break_key (rank : ranks.Rank) (cards : list Card) : result (list (nat * Z)) :=
  if py.contains ranks.Rank_eqb rank pokerLogic.FACE_FREQUENCY_RANKS
  then Ok (map group_size_value (sorted_groups cards))
  else if py.contains ranks.Rank_eqb rank pokerLogic.SEQUENTIAL_RANKS
  then starter <- cardUtils.get_most_frequent_starter_of_sequences_including_faces
                    (cardUtils.get_faces cards) ranks.REQUIRED_LENGTH
                    (Some ranks.INVALID_STRAIGHT_STARTERS) ;;
       Ok [(0%nat, cardUtils.starter_key starter)]
  else Ok (map (fun card => (0%nat, Card_value card))
               (py.sorted Card_ltb (fun c => c) true cards)).

Definition hand_score (cards : list Card) : result (Z * list (nat * Z)) :=
  rank <- ranks.get_rank cards None ;;
  key <- tie_break_key rank cards ;;
  Ok (ranks.value rank, key).

Definition compare_scores (a b : Z * list (nat * Z)) : pokerLogic.Comparison :=
  if fst a >? fst b then pokerLogic.GREATER
  else if fst a <? fst b then pokerLogic.LESSER
  else lex_compare (snd a) (snd b).

(** The score of a hand as a total function ([hand_score] never raises). *)
Definition score_of (cards : list Card) : Z * list (nat * Z) :=
  match hand_score cards with
  | Ok s => s
  | Raise _ => (0, [])
  end.

(** The hand of [p] is not below the hand of [q]. *)
Definition beats_or_ties (p q : game.Player) : bool :=
  match pokerLogic.compare_hands (game.hand p) (game.hand q) with
  | Ok pokerLogic.LESSER => false
  | Ok _ => true
  | Raise _ => false
  end.

(** The hands of [p] and [key] have the same score. *)
Definition ties_with (key p : game.Player) : bool :=
  pokerLogic.Comparison_eqb
    (compare_scores (score_of (game.hand p)) (score_of (game.hand key))) pokerLogic.EQUAL.

(** *** Sequences of faces *)

(** [get_next_face] and [get_previous_face] as total functions (they never
    raise). *)
Definition next_face (f : Face) : Face :=
  match get_next_face f with Ok g => g | Raise _ => f end.

Definition previous_face (f : Face) : Face :=
  match get_previous_face f with Ok g => g | Raise _ => f end.

(** The [n] faces met from [f] by repeating [step]. *)
Fixpoint walk (step : Face -> Face) (n : nat) (f : Face) : list Face :=
  match n with
  | O => []
  | S n' => f :: walk step n' (step f)
  end.

(** The number of distinct faces of [faces] that belong to [sequence]. *)
Definition covered (faces sequence : list Face) : nat :=
  length (filter (fun f => py.contains Face_eqb f sequence) (py.set_of Face_eqb faces)).

(** The number of faces, 13. *)
Definition NUM_FACES : nat := length Face_members.

(** No face occurs twice in [l]. *)
Fixpoint distinctb (l : list Face) : bool :=
  match l with
  | [] => true
  | f :: l' => negb (py.contains Face_eqb f l') && distinctb l'
  end.

(** *** The game *)




(** The sort key that [get_group_items_by_size_and_value] computes. *)
Definition size_and_value {K : Type} (item : K * list Card) : nat * Z :=
  match cardUtils.group_item_key item with
  | Ok k => k
  | Raise _ => (0%nat, 0)
  end.


(** The longest prefix of [l] whose items satisfy [p]. *)
Fixpoint take_while {A : Type} (p : A -> bool) (l : list A) : list A :=
  match l with
  | [] => []
  | x :: l' => if p x then x :: take_while p l' else []
  end.



(** *** The poker category of a hand *)

(** The faces that occur exactly [n] times in [faces]. *)
Definition occurring (n : nat) (faces : list Face) : list Face :=
  filter (fun f => Nat.eqb (py.count Face_eqb f faces) n) Face_members.

(** The starters of the ten straights, A-2-3-4-5 up to 10-J-Q-K-A. *)
Definition straight_starters : list Face :=
  [ACE; TWO; THREE; FOUR; FIVE; SIX; SEVEN; EIGHT; NINE; TEN].

(** The five faces of some straight are all among [faces]. *)
Definition is_straightb (faces : list Face) : bool :=
  existsb (fun starter =>
             forallb (fun f => py.contains Face_eqb f faces) (walk next_face 5 starter))
          straight_starters.

(** Ten, Jack, Queen, King and Ace are all among [faces]. *)
Definition is_royalb (faces : list Face) : bool :=
  forallb (fun f => py.contains Face_eqb f faces) [TEN; JACK; QUEEN; KING; ACE].

(** The category of a five-card hand, best first. *)
Definition poker_category (cards : list Card) : ranks.Rank :=
  let faces := cardUtils.get_faces cards in
  let straight := is_straightb faces in
  let flush := all_equalb (cardUtils.get_suits cards) in
  if straight && flush && is_royalb faces then ranks.ROYAL_FLUSH
  else if straight && flush then ranks.STRAIGHT_FLUSH
  else if Nat.eqb (length (occurring 4 faces)) 1 then ranks.FOUR_OF_A_KIND
  else if Nat.eqb (length (occurring 3 faces)) 1 && Nat.eqb (length (occurring 2 faces)) 1
       then ranks.FULL_HOUSE
  else if flush then ranks.FLUSH
  else if straight then ranks.STRAIGHT
  else if Nat.eqb (length (occurring 3 faces)) 1 then ranks.THREE_OF_A_KIND
  else if Nat.eqb (length (occurring 2 faces)) 2 then ranks.TWO_PAIR
  else if Nat.eqb (length (occurring 2 faces)) 1 then ranks.PAIR
  else ranks.HIGH.

(** The three-way comparison of two counts. *)
Definition compare_counts (n m : nat) : pokerLogic.Comparison :=
  match Nat.compare n m with
  | Gt => pokerLogic.GREATER
  | Eq => pokerLogic.EQUAL
  | Lt => pokerLogic.LESSER
  end.

(** ** The error monad *)

Lemma bind_Ok {A B : Type} (m : result A) (k : A -> result B) (a : A) :
  m = Ok a -> bind m k = k a.
Proof. intros ->; reflexivity. Qed.


(** A loop whose body keeps an invariant on the state ends in a state that
    satisfies it, provided the body never raises from such a state. *)
Lemma foldM_invariant {A S : Type} (P : S -> Prop) (body : S -> A -> result S) (l : list A) :
  (forall s x, P s -> exists s', body s x = Ok s' /\ P s') ->
  forall s, P s -> exists r, foldM body l s = Ok r /\ P r.
Proof.
  intros Hbody; induction l as [|x l IH]; intros s Hs; simpl.
  - eauto.
  - destruct (Hbody s x Hs) as (s' & -> & Hs'); simpl; auto.
Qed.

(** ** Faces *)

Lemma Face_eqb_eq (a b : Face) : Face_eqb a b = true <-> a = b.
Proof.
  split.
  - destruct a, b; intros H; solve [reflexivity | discriminate H].
  - intros ->; unfold Face_eqb; apply Z.eqb_refl.
Qed.


Lemma Face_eqb_sym (a b : Face) : Face_eqb a b = Face_eqb b a.
Proof. unfold Face_eqb; apply Z.eqb_sym. Qed.

Lemma Face_eqb_neq (a b : Face) : Face_eqb a b = false <-> a <> b.
Proof.
  rewrite <- Face_eqb_eq; destruct (Face_eqb a b); split; congruence.
Qed.

Lemma Suit_eqb_eq (a b : Suit) : Suit_eqb a b = true <-> a = b.
Proof.
  split.
  - destruct a, b; intros H; solve [reflexivity | discriminate H].
  - intros ->; unfold Suit_eqb; apply Z.eqb_refl.
Qed.

Lemma Face_value_inj (a b : Face) : Face_value a = Face_value b -> a = b.
Proof. intros H; apply Face_eqb_eq; unfold Face_eqb; apply Z.eqb_eq, H. Qed.

Lemma MIN_VALUE_eq : MIN_VALUE = 2.
Proof. reflexivity. Qed.

Lemma MAX_VALUE_eq : MAX_VALUE = 14.
Proof. reflexivity. Qed.

Lemma get_next_face_total (f : Face) : exists g, get_next_face f = Ok g.
Proof. destruct f; eexists; reflexivity. Qed.

Lemma get_previous_face_total (f : Face) : exists g, get_previous_face f = Ok g.
Proof. destruct f; eexists; reflexivity. Qed.

(** C8: [get_next_face] and [get_previous_face] never raise and walk the
    thirteen faces cyclically: the face after Ace is Two, the face before
    Two is Ace, and everywhere else the value moves by exactly one. *)
Theorem next_previous_face_cyclic :
  get_next_face ACE = Ok TWO /\
  get_previous_face TWO = Ok ACE /\
  (forall f, f <> ACE ->
     exists g, get_next_face f = Ok g /\ Face_value g = Face_value f + 1) /\
  (forall f, f <> TWO ->
     exists g, get_previous_face f = Ok g /\ Face_value g = Face_value f - 1) /\
  (forall f, exists g, get_next_face f = Ok g) /\
  (forall f, exists g, get_previous_face f = Ok g).
Proof.
  repeat split.
  - intros f Hf; destruct f; try congruence; eexists; split; reflexivity.
  - intros f Hf; destruct f; try congruence; eexists; split; reflexivity.
  - apply get_next_face_total.
  - apply get_previous_face_total.
Qed.

Lemma next_previous_face_cyclic_witness :
  (exists g, get_next_face KING = Ok g /\ Face_value g = Face_value KING + 1) /\
  (exists g, get_previous_face THREE = Ok g /\ Face_value g = Face_value THREE - 1).
Proof.
  destruct next_previous_face_cyclic as (_ & _ & Hnext & Hprev & _).
  split; [apply (Hnext KING) | apply (Hprev THREE)]; discriminate.
Defined.

(** ** Starter precedence *)

Lemma starter_greater_lesser_swap (a b : Face) :
  cardUtils.is_straight_starter_greater a b = cardUtils.is_straight_starter_lesser b a.
Proof. destruct a, b; reflexivity. Qed.

(** Both predicates are the strict order induced by the sort key of
    [sorted_starters]. *)
Lemma starter_lesser_key (a b : Face) :
  cardUtils.is_straight_starter_lesser a b = (cardUtils.starter_key a <? cardUtils.starter_key b).
Proof. destruct a, b; reflexivity. Qed.

Lemma starter_greater_key (a b : Face) :
  cardUtils.is_straight_starter_greater a b = (cardUtils.starter_key b <? cardUtils.starter_key a).
Proof. destruct a, b; reflexivity. Qed.

Lemma starter_key_inj (a b : Face) :
  cardUtils.starter_key a = cardUtils.starter_key b -> a = b.
Proof. destruct a, b; intros H; solve [reflexivity | discriminate H]. Qed.

Lemma starter_precedence_cases (a b : Face) :
  (a = b /\ cardUtils.is_straight_starter_greater a b = false
         /\ cardUtils.is_straight_starter_lesser a b = false) \/
  (a <> b /\ cardUtils.is_straight_starter_greater a b = true
          /\ cardUtils.is_straight_starter_lesser a b = false) \/
  (a <> b /\ cardUtils.is_straight_starter_greater a b = false
          /\ cardUtils.is_straight_starter_lesser a b = true).
Proof.
  rewrite starter_greater_key, starter_lesser_key.
  destruct (Z.lt_total (cardUtils.starter_key a) (cardUtils.starter_key b)) as [H|[H|H]].
  - right; right; repeat split.
    + intros ->; lia.
    + apply Z.ltb_ge; lia.
    + apply Z.ltb_lt; lia.
  - left; apply starter_key_inj in H; subst b.
    rewrite Z.ltb_irrefl; auto.
  - right; left; repeat split.
    + intros ->; lia.
    + apply Z.ltb_lt; lia.
    + apply Z.ltb_ge; lia.
Qed.

(** C10: starter precedence is a strict total order with Ace at the bottom:
    [greater a b] is [lesser b a], exactly one of [a = b], [greater a b],
    [lesser a b] holds, and the relation is transitive. *)
Theorem starter_precedence_strict_total_order :
  (forall a b, cardUtils.is_straight_starter_greater a b = true <->
               cardUtils.is_straight_starter_lesser b a = true) /\
  (forall a b,
     (a = b /\ cardUtils.is_straight_starter_greater a b = false
            /\ cardUtils.is_straight_starter_lesser a b = false) \/
     (a <> b /\ cardUtils.is_straight_starter_greater a b = true
             /\ cardUtils.is_straight_starter_lesser a b = false) \/
     (a <> b /\ cardUtils.is_straight_starter_greater a b = false
             /\ cardUtils.is_straight_starter_lesser a b = true)) /\
  (forall a, cardUtils.is_straight_starter_lesser ACE a = negb (Face_eqb a ACE)) /\
  (forall a b c, cardUtils.is_straight_starter_lesser a b = true ->
                 cardUtils.is_straight_starter_lesser b c = true ->
                 cardUtils.is_straight_starter_lesser a c = true).
Proof.
  split; [|split; [|split]].
  - intros a b; rewrite starter_greater_lesser_swap; reflexivity.
  - apply starter_precedence_cases.
  - intros a; destruct a; reflexivity.
  - intros a b c; rewrite !starter_lesser_key, !Z.ltb_lt; lia.
Qed.

Lemma starter_precedence_witness :
  cardUtils.is_straight_starter_lesser ACE TEN = true.
Proof.
  destruct starter_precedence_strict_total_order as (_ & _ & _ & Htrans).
  apply (Htrans ACE TWO TEN); reflexivity.
Defined.

(** ** Sorting *)

Section SortedFacts.
Context {A K : Type} (ltb : K -> K -> bool) (key : A -> K).

Lemma insert_asc_Permutation (x : A) (l : list A) :
  Permutation (py.insert_asc ltb key x l) (x :: l).
Proof.
  induction l as [|y l IH]; simpl; [reflexivity|].
  destruct (ltb (key y) (key x)); [|reflexivity].
  rewrite IH; apply perm_swap.
Qed.

Lemma insert_desc_Permutation (x : A) (l : list A) :
  Permutation (py.insert_desc ltb key x l) (x :: l).
Proof.
  induction l as [|y l IH]; simpl; [reflexivity|].
  destruct (ltb (key x) (key y)); [|reflexivity].
  rewrite IH; apply perm_swap.
Qed.

Lemma sorted_Permutation (reverse : bool) (xs : list A) :
  Permutation (py.sorted ltb key reverse xs) xs.
Proof.
  unfold py.sorted; induction xs as [|x xs IH]; simpl; [reflexivity|].
  destruct reverse.
  - rewrite insert_desc_Permutation; auto.
  - rewrite insert_asc_Permutation; auto.
Qed.

Lemma sorted_length (reverse : bool) (xs : list A) :
  length (py.sorted ltb key reverse xs) = length xs.
Proof. apply Permutation_length, sorted_Permutation. Qed.

Lemma sorted_In (reverse : bool) (xs : list A) (x : A) :
  In x (py.sorted ltb key reverse xs) <-> In x xs.
Proof.
  split; apply Permutation_in;
    [apply sorted_Permutation | symmetry; apply sorted_Permutation].
Qed.

(** The order of the keys is a strict weak order: asymmetric, and being
    not-below is transitive. *)
Hypothesis ltb_asym : forall a b, ltb a b = true -> ltb b a = false.
Hypothesis nltb_trans : forall a b c, ltb a b = false -> ltb b c = false -> ltb a c = false.

Local Abbreviation desc_ok := (desc_ok ltb key).
Local Abbreviation asc_ok := (asc_ok ltb key).

Lemma insert_desc_sorted (x : A) (l : list A) :
  StronglySorted desc_ok l -> StronglySorted desc_ok (py.insert_desc ltb key x l).
Proof.
  induction 1 as [|y l Hl IH Hy]; simpl.
  - constructor; constructor.
  - destruct (ltb (key x) (key y)) eqn:Hxy.
    + constructor; [exact IH|].
      rewrite Forall_forall; intros z Hz.
      apply (Permutation_in _ (insert_desc_Permutation x l)) in Hz.
      destruct Hz as [<-|Hz]; [apply ltb_asym, Hxy|].
      rewrite Forall_forall in Hy; auto.
    + constructor; [constructor; assumption|].
      constructor; [exact Hxy|].
      rewrite Forall_forall in *; intros z Hz.
      apply (nltb_trans _ (key y)); [exact Hxy | apply Hy, Hz].
Qed.

Lemma insert_asc_sorted (x : A) (l : list A) :
  StronglySorted asc_ok l -> StronglySorted asc_ok (py.insert_asc ltb key x l).
Proof.
  induction 1 as [|y l Hl IH Hy]; simpl.
  - constructor; constructor.
  - destruct (ltb (key y) (key x)) eqn:Hyx.
    + constructor; [exact IH|].
      rewrite Forall_forall; intros z Hz.
      apply (Permutation_in _ (insert_asc_Permutation x l)) in Hz.
      destruct Hz as [<-|Hz]; [apply ltb_asym, Hyx|].
      rewrite Forall_forall in Hy; auto.
    + constructor; [constructor; assumption|].
      constructor; [exact Hyx|].
      rewrite Forall_forall in *; intros z Hz.
      apply (nltb_trans _ (key y)); [apply Hy, Hz | exact Hyx].
Qed.

Lemma sorted_desc_StronglySorted (xs : list A) :
  StronglySorted desc_ok (py.sorted ltb key true xs).
Proof.
  unfold py.sorted; induction xs as [|x xs IH]; simpl;
    [constructor | apply insert_desc_sorted, IH].
Qed.

Lemma sorted_asc_StronglySorted (xs : list A) :
  StronglySorted asc_ok (py.sorted ltb key false xs).
Proof.
  unfold py.sorted; induction xs as [|x xs IH]; simpl;
    [constructor | apply insert_asc_sorted, IH].
Qed.
End SortedFacts.

(** Sorting items decorated with their keys, then dropping the keys, is
    sorting by the key function. *)
Lemma sorted_decorated {A K : Type} (ltb : K -> K -> bool) (key : A -> K)
    (reverse : bool) (xs : list A) :
  map snd (py.sorted ltb fst reverse (combine (map key xs) xs)) = py.sorted ltb key reverse xs.
Proof.
  assert (Hd : forall x l,
             py.insert_desc ltb fst (key x, x) (map (fun y => (key y, y)) l)
             = map (fun y => (key y, y)) (py.insert_desc ltb key x l)).
  { intros x l; induction l as [|y l IH]; simpl; [reflexivity|].
    destruct (ltb (key x) (key y)); simpl; [rewrite IH|]; reflexivity. }
  assert (Ha : forall x l,
             py.insert_asc ltb fst (key x, x) (map (fun y => (key y, y)) l)
             = map (fun y => (key y, y)) (py.insert_asc ltb key x l)).
  { intros x l; induction l as [|y l IH]; simpl; [reflexivity|].
    destruct (ltb (key y) (key x)); simpl; [rewrite IH|]; reflexivity. }
  assert (Hc : forall l, combine (map key l) l = map (fun y => (key y, y)) l).
  { induction l as [|y l IH]; simpl; [|rewrite IH]; reflexivity. }
  rewrite Hc.
  assert (Hs : py.sorted ltb fst reverse (map (fun y => (key y, y)) xs)
               = map (fun y => (key y, y)) (py.sorted ltb key reverse xs)).
  { unfold py.sorted; induction xs as [|x xs IH]; simpl; [reflexivity|].
    rewrite IH; destruct reverse; [apply Hd | apply Ha]. }
  rewrite Hs, map_map; simpl; apply map_id.
Qed.

Lemma mapM_total {A B : Type} (f : A -> result B) (g : A -> B) (l : list A) :
  (forall x, In x l -> f x = Ok (g x)) -> mapM f l = Ok (map g l).
Proof.
  induction l as [|x l IH]; intros H; simpl; [reflexivity|].
  rewrite (H x (or_introl eq_refl)); simpl.
  rewrite IH; [reflexivity | intros; apply H; right; assumption].
Qed.

Lemma last_total {A : Type} (xs : list A) : xs <> [] -> exists x, py.last xs = Ok x /\ In x xs.
Proof.
  induction xs as [|x xs IH]; [congruence|]; intros _.
  destruct xs as [|y xs]; [exists x; simpl; auto|].
  destruct IH as (z & Hz & Hin); [discriminate|].
  exists z; split; [exact Hz | right; exact Hin].
Qed.

Lemma max_total (xs : list nat) : xs <> [] -> exists m, py.max xs = Ok m /\ In m xs.
Proof.
  destruct xs as [|x xs]; [congruence|]; intros _; simpl.
  eexists; split; [reflexivity|].
  revert x; induction xs as [|y xs IH]; intros x; simpl; [auto|].
  destruct (IH (Nat.max x y)) as [H|H]; [|right; right; exact H].
  destruct (Nat.max_dec x y) as [E|E]; rewrite E in *; [left | right; left]; exact H.
Qed.

(** ** Sets, dictionaries and counters *)

Section ContainerFacts.
Context {K : Type} (eqb : K -> K -> bool).
Hypothesis eqb_spec : forall a b, eqb a b = true <-> a = b.

Lemma eqb_refl' (a : K) : eqb a a = true.
Proof. apply eqb_spec; reflexivity. Qed.

Lemma eqb_false (a b : K) : eqb a b = false <-> a <> b.
Proof. rewrite <- eqb_spec; destruct (eqb a b); split; congruence. Qed.

Lemma contains_In (x : K) (s : list K) : py.contains eqb x s = true <-> In x s.
Proof.
  unfold py.contains; rewrite existsb_exists; split.
  - intros (y & Hy & E); apply eqb_spec in E; subst; assumption.
  - intros H; exists x; split; [assumption | apply eqb_refl'].
Qed.

Lemma contains_not_In (x : K) (s : list K) : py.contains eqb x s = false <-> ~ In x s.
Proof.
  rewrite <- contains_In; destruct (py.contains eqb x s); split; congruence.
Qed.

Lemma set_add_In (s : list K) (x y : K) :
  In y (py.set_add eqb s x) <-> y = x \/ In y s.
Proof.
  unfold py.set_add; destruct (py.contains eqb x s) eqn:E.
  - apply contains_In in E; split; [auto | intros [->|H]; assumption].
  - rewrite in_app_iff; simpl; split; intros H; intuition.
Qed.

Lemma set_add_NoDup (s : list K) (x : K) : NoDup s -> NoDup (py.set_add eqb s x).
Proof.
  intros Hs; unfold py.set_add; destruct (py.contains eqb x s) eqn:E; [assumption|].
  apply contains_not_In in E.
  apply (Permutation_NoDup (Permutation_cons_append s x)); constructor; assumption.
Qed.

Lemma set_fold_In (xs acc : list K) (y : K) :
  In y (fold_left (py.set_add eqb) xs acc) <-> In y acc \/ In y xs.
Proof.
  revert acc; induction xs as [|x xs IH]; intros acc; simpl; [intuition|].
  rewrite IH, set_add_In; intuition.
Qed.

Lemma set_fold_NoDup (xs acc : list K) : NoDup acc -> NoDup (fold_left (py.set_add eqb) xs acc).
Proof.
  revert acc; induction xs as [|x xs IH]; intros acc H; simpl; [assumption|].
  apply IH, set_add_NoDup, H.
Qed.

Lemma set_of_In (xs : list K) (y : K) : In y (py.set_of eqb xs) <-> In y xs.
Proof. unfold py.set_of; rewrite set_fold_In; simpl; intuition. Qed.

Lemma set_of_NoDup (xs : list K) : NoDup (py.set_of eqb xs).
Proof. apply set_fold_NoDup; constructor. Qed.

Lemma set_of_nonempty (xs : list K) : xs <> [] -> py.set_of eqb xs <> [].
Proof.
  destruct xs as [|x xs]; [congruence|]; intros _ E.
  assert (H : In x (py.set_of eqb (x :: xs))) by (apply set_of_In; left; reflexivity).
  rewrite E in H; exact H.
Qed.

(** *** A dictionary given by a key list and a value function *)
Section Tabulate.
Context {V : Type}.

Lemma dict_get_tabulate (F : K -> V) (ks : list K) (k : K) :
  In k ks -> py.dict_get eqb (tabulate F ks) k = Ok (F k).
Proof.
  induction ks as [|k' ks IH]; simpl; [tauto|]; intros H.
  destruct (eqb k' k) eqn:E; [apply eqb_spec in E; subst; reflexivity|].
  apply eqb_false in E; destruct H as [H|H]; [contradiction | auto].
Qed.

Lemma dict_set_tabulate (F : K -> V) (ks : list K) (k : K) (v : V) :
  NoDup ks -> In k ks ->
  py.dict_set eqb (tabulate F ks) k v = tabulate (fun k' => if eqb k' k then v else F k') ks.
Proof.
  induction ks as [|k' ks IH]; simpl; [tauto|]; intros Hnd H.
  inversion Hnd as [|? ? Hk' Hks]; subst.
  destruct (eqb k' k) eqn:E.
  - apply eqb_spec in E; subst k'; f_equal.
    apply map_ext_in; intros a Ha.
    destruct (eqb a k) eqn:E'; [apply eqb_spec in E'; subst; contradiction | reflexivity].
  - f_equal; apply eqb_false in E.
    destruct H as [H|H]; [contradiction | auto].
Qed.

Lemma dict_set_new_tabulate (v0 : V) (ks : list K) (k : K) :
  py.dict_set eqb (tabulate (fun _ => v0) ks) k v0
  = tabulate (fun _ => v0) (py.set_add eqb ks k).
Proof.
  unfold py.set_add; induction ks as [|k' ks IH]; simpl; [reflexivity|].
  destruct (eqb k' k) eqn:E.
  - apply eqb_spec in E; subst k'; rewrite eqb_refl'; reflexivity.
  - assert (E' : eqb k k' = false).
    { apply eqb_false; apply eqb_false in E; congruence. }
    rewrite E'; simpl; rewrite IH.
    destruct (py.contains eqb k ks); reflexivity.
Qed.

Lemma dict_init_tabulate (v0 : V) (xs acc : list K) :
  fold_left (fun d k => py.dict_set eqb d k v0) xs (tabulate (fun _ => v0) acc)
  = tabulate (fun _ => v0) (fold_left (py.set_add eqb) xs acc).
Proof.
  revert acc; induction xs as [|x xs IH]; intros acc; simpl; [reflexivity|].
  rewrite dict_set_new_tabulate; apply IH.
Qed.
End Tabulate.

(** *** Grouping cards by a key *)
Section Grouping.
Context (key : Card -> K).

Local Abbreviation group_of := (group_of eqb key).

Lemma group_of_snoc (P : list Card) (card : Card) (k : K) :
  (if eqb k (key card) then group_of P (key card) ++ [card] else group_of P k)
  = group_of (P ++ [card]) k.
Proof.
  unfold group_of; rewrite filter_app; simpl.
  destruct (eqb k (key card)) eqn:E.
  - apply eqb_spec in E; subst k; rewrite eqb_refl'; reflexivity.
  - assert (E' : eqb (key card) k = false).
    { apply eqb_false; apply eqb_false in E; congruence. }
    rewrite E', app_nil_r; reflexivity.
Qed.

Lemma append_loop_tabulate (R P : list Card) (ks : list K) :
  NoDup ks -> (forall card, In card R -> In (key card) ks) ->
  foldM (cardUtils.append_to_group eqb key) R (tabulate (group_of P) ks)
  = Ok (tabulate (group_of (P ++ R)) ks).
Proof.
  intros Hnd; revert P; induction R as [|card R IH]; intros P HR; simpl.
  - rewrite app_nil_r; reflexivity.
  - unfold cardUtils.append_to_group at 1.
    rewrite dict_get_tabulate by (apply HR; left; reflexivity); simpl.
    rewrite dict_set_tabulate by (auto; apply HR; left; reflexivity).
    replace (tabulate _ ks) with (tabulate (group_of (P ++ [card])) ks).
    + rewrite IH by (intros; apply HR; right; assumption).
      rewrite <- app_assoc; reflexivity.
    + apply map_ext; intros k; rewrite group_of_snoc; reflexivity.
Qed.

(** The dictionary built by [get_groups_by_face] / [get_groups_by_suit]:
    one entry per distinct key, in order of first occurrence, holding
    the cards with that key in hand order.  No [KeyError] is raised. *)
Lemma groups_tabulate (cards : list Card) :
  foldM (cardUtils.append_to_group eqb key) cards
        (fold_left (fun d k => py.dict_set eqb d k []) (map key cards) [])
  = Ok (tabulate (group_of cards) (py.set_of eqb (map key cards))).
Proof.
  change (@nil (K * list Card)) with (tabulate (fun _ : K => @nil Card) []) at 1.
  rewrite dict_init_tabulate.
  change (tabulate (fun _ => []) ?ks) with (tabulate (group_of []) ks).
  rewrite append_loop_tabulate; [reflexivity | apply set_fold_NoDup; constructor|].
  intros card H; apply set_fold_In; right; apply in_map, H.
Qed.

Lemma group_of_nonempty (cards : list Card) (k : K) :
  In k (map key cards) -> group_of cards k <> [].
Proof.
  rewrite in_map_iff; intros (card & E & H) Hnil.
  assert (Hin : In card (group_of cards k)).
  { apply filter_In; split; [exact H | apply eqb_spec, E]. }
  rewrite Hnil in Hin; exact Hin.
Qed.

Lemma group_of_key (cards : list Card) (k : K) (card : Card) :
  In card (group_of cards k) -> key card = k.
Proof. intros H; apply filter_In in H; apply eqb_spec, H. Qed.
End Grouping.
End ContainerFacts.

Lemma get_groups_by_face_eq (h : list Card) :
  cardUtils.get_groups_by_face h
  = Ok (tabulate (group_of Face_eqb face h) (py.set_of Face_eqb (cardUtils.get_faces h))).
Proof. apply (groups_tabulate Face_eqb Face_eqb_eq face). Qed.

Lemma get_groups_by_suit_eq (h : list Card) :
  cardUtils.get_groups_by_suit h
  = Ok (tabulate (group_of Suit_eqb suit h) (py.set_of Suit_eqb (cardUtils.get_suits h))).
Proof. apply (groups_tabulate Suit_eqb Suit_eqb_eq suit). Qed.

(** *** Counters *)

Section CounterFacts.
Context {K : Type} (eqb : K -> K -> bool).
Hypothesis eqb_spec : forall a b, eqb a b = true <-> a = b.

Lemma counter_incr_keys (c : list (K * nat)) (k : K) :
  py.keys (py.counter_incr eqb c k) = py.set_add eqb (py.keys c) k.
Proof.
  unfold py.set_add, py.keys; induction c as [|[k' n] c IH]; simpl; [reflexivity|].
  destruct (eqb k' k) eqn:E.
  - apply eqb_spec in E; subst k'; rewrite (eqb_refl' eqb eqb_spec); reflexivity.
  - assert (E' : eqb k k' = false).
    { apply (eqb_false eqb eqb_spec); apply (eqb_false eqb eqb_spec) in E; congruence. }
    rewrite E'; simpl; rewrite IH.
    fold (py.contains eqb k (map fst c)).
    destruct (py.contains eqb k (map fst c)); reflexivity.
Qed.

Lemma counter_incr_nonempty (c : list (K * nat)) (k : K) : py.counter_incr eqb c k <> [].
Proof. destruct c as [|[k' n] c]; simpl; [|destruct (eqb k' k)]; discriminate. Qed.

Lemma counter_update_keys_NoDup (xs : list K) (c : list (K * nat)) :
  NoDup (py.keys c) -> NoDup (py.keys (py.counter_update eqb c xs)).
Proof.
  unfold py.counter_update; revert c; induction xs as [|x xs IH]; intros c H; simpl;
    [assumption|].
  apply IH; rewrite counter_incr_keys; apply (set_add_NoDup eqb eqb_spec), H.
Qed.

Lemma counter_update_nonempty (xs : list K) (c : list (K * nat)) :
  c <> [] \/ xs <> [] -> py.counter_update eqb c xs <> [].
Proof.
  unfold py.counter_update; revert c; induction xs as [|x xs IH]; intros c H; simpl.
  - destruct H; congruence.
  - apply IH; left; apply counter_incr_nonempty.
Qed.

Lemma counter_get_In (c : list (K * nat)) (k : K) (n : nat) :
  NoDup (py.keys c) -> In (k, n) c -> py.counter_get eqb c k = n.
Proof.
  unfold py.keys; induction c as [|[k' n'] c IH]; simpl; [tauto|]; intros Hnd H.
  inversion Hnd as [|? ? Hk' Hc]; subst.
  destruct H as [H|H].
  - inversion H; subst; rewrite (eqb_refl' eqb eqb_spec); reflexivity.
  - destruct (eqb k' k) eqn:E; [|auto].
    apply eqb_spec in E; subst k'.
    exfalso; apply Hk'; change k with (fst (k, n)); apply in_map, H.
Qed.

(** In a non-empty counter some key reaches the maximal count, so the
    candidates kept by the comprehension of
    [get_most_frequent_starter_of_sequences_including_faces] are not empty. *)
Lemma counter_max_candidates (c : list (K * nat)) :
  c <> [] -> NoDup (py.keys c) ->
  exists m, py.max (py.values c) = Ok m /\
            filter (fun k => Nat.eqb (py.counter_get eqb c k) m) (py.keys c) <> [].
Proof.
  intros Hne Hnd.
  destruct (max_total (py.values c)) as (m & Hm & Hin).
  { destruct c; [congruence | discriminate]. }
  exists m; split; [exact Hm|].
  unfold py.values in Hin; apply in_map_iff in Hin; destruct Hin as ([k n] & E & Hin).
  simpl in E; subst n; intros Hnil.
  assert (Hk : In k (filter (fun k => Nat.eqb (py.counter_get eqb c k) m) (py.keys c))).
  { apply filter_In; split.
    - change k with (fst (k, m)); apply in_map, Hin.
    - rewrite (counter_get_In c k m Hnd Hin); apply Nat.eqb_refl. }
  rewrite Hnil in Hk; exact Hk.
Qed.
End CounterFacts.

(** ** Sequence starters *)

Lemma starters_loop_total (invalid : list Face) (n : nat) :
  forall starters starter, exists r, cardUtils.starters_loop invalid n starters starter = Ok r.
Proof.
  induction n as [|n IH]; intros starters starter; simpl; [eauto|].
  destruct (py.contains Face_eqb starter starters); [eauto|].
  destruct (get_previous_face_total starter) as [p ->]; simpl; apply IH.
Qed.

(** With the catalog's settings every face belongs to the sequence of at
    least one admissible starter. *)
Lemma default_starters_nonempty (f : Face) :
  exists s, cardUtils.get_starters_of_sequences_including_face
              f ranks.REQUIRED_LENGTH (Some ranks.INVALID_STRAIGHT_STARTERS) = Ok s
            /\ s <> [].
Proof. destruct f; eexists; (split; [reflexivity | discriminate]). Qed.

Lemma get_starters_of_faces_total (faces : list Face) (n : nat) (invalid : option (list Face)) :
  exists c, cardUtils.get_starters_of_sequences_including_faces faces n invalid = Ok c
            /\ NoDup (py.keys c).
Proof.
  unfold cardUtils.get_starters_of_sequences_including_faces.
  apply (foldM_invariant (fun c => NoDup (py.keys c))); [|constructor].
  intros c f Hc.
  destruct (starters_loop_total (cardUtils.or_empty invalid) n [] f) as [s Hs].
  unfold cardUtils.get_starters_of_sequences_including_face; rewrite Hs; simpl.
  eexists; split; [reflexivity|].
  apply (counter_update_keys_NoDup Face_eqb Face_eqb_eq), Hc.
Qed.

Lemma default_starters_of_faces_nonempty (faces : list Face) :
  faces <> [] ->
  exists c, cardUtils.get_starters_of_sequences_including_faces
              faces ranks.REQUIRED_LENGTH (Some ranks.INVALID_STRAIGHT_STARTERS) = Ok c
            /\ c <> [] /\ NoDup (py.keys c).
Proof.
  intros Hne.
  destruct (get_starters_of_faces_total faces ranks.REQUIRED_LENGTH
              (Some ranks.INVALID_STRAIGHT_STARTERS)) as (c & Hc & Hnd).
  exists c; split; [exact Hc | split; [|exact Hnd]].
  unfold cardUtils.get_starters_of_sequences_including_faces in Hc.
  apply (set_of_nonempty Face_eqb Face_eqb_eq) in Hne.
  destruct (py.set_of Face_eqb faces) as [|f fs]; [congruence|].
  simpl in Hc.
  destruct (default_starters_nonempty f) as (s & Hs & Hsne).
  rewrite Hs in Hc; simpl in Hc.
  assert (Hinv : exists r, foldM
            (fun starters face =>
               s <- cardUtils.get_starters_of_sequences_including_face
                      face ranks.REQUIRED_LENGTH (Some ranks.INVALID_STRAIGHT_STARTERS) ;;
               Ok (py.counter_update Face_eqb starters s))
            fs (py.counter_update Face_eqb [] s) = Ok r /\ r <> []).
  { apply (foldM_invariant (fun c : list (Face * nat) => c <> [])).
    - intros c0 f0 Hc0.
      destruct (default_starters_nonempty f0) as (s0 & -> & _); simpl.
      eexists; split; [reflexivity|].
      apply counter_update_nonempty; left; exact Hc0.
    - apply counter_update_nonempty; right; exact Hsne. }
  destruct Hinv as (r & Hr & Hrne).
  rewrite Hr in Hc; inversion Hc; subst; exact Hrne.
Qed.

Lemma get_max_straight_starter_total (starters : list Face) :
  starters <> [] ->
  exists f, cardUtils.get_max_straight_starter starters = Ok f /\ In f starters.
Proof.
  intros Hne; unfold cardUtils.get_max_straight_starter, cardUtils.sorted_starters.
  destruct (last_total (py.sorted Z.ltb cardUtils.starter_key false starters)) as (f & Hf & Hin).
  - intros E; apply Hne.
    apply (f_equal (@length Face)) in E; rewrite sorted_length in E.
    destruct starters; [reflexivity | discriminate].
  - exists f; split; [exact Hf | apply (sorted_In Z.ltb cardUtils.starter_key false), Hin].
Qed.

(** On a non-empty list of faces the catalog's starter search returns. *)
Lemma default_most_frequent_starter_total (faces : list Face) :
  faces <> [] ->
  exists f, cardUtils.get_most_frequent_starter_of_sequences_including_faces
              faces ranks.REQUIRED_LENGTH (Some ranks.INVALID_STRAIGHT_STARTERS) = Ok f.
Proof.
  intros Hne.
  destruct (default_starters_of_faces_nonempty faces Hne) as (c & Hc & Hcne & Hnd).
  unfold cardUtils.get_most_frequent_starter_of_sequences_including_faces.
  rewrite Hc; simpl.
  destruct (counter_max_candidates Face_eqb Face_eqb_eq c Hcne Hnd) as (m & -> & Hcand); simpl.
  destruct (get_max_straight_starter_total _ Hcand) as (f & Hf & _).
  exists f; exact Hf.
Qed.

Lemma sequence_loop_total (faces : list Face) (n : nat) :
  forall starter, exists b, ranks.sequence_loop faces n starter = Ok b.
Proof.
  induction n as [|n IH]; intros starter; simpl; [eauto|].
  destruct (py.contains Face_eqb starter faces); simpl; [|eauto].
  destruct (get_next_face_total starter) as [g ->]; simpl; apply IH.
Qed.

(** The sequence validator of the catalog returns on every five-card hand. *)
Lemma default_sequence_validator_total (cards : list Card) :
  length cards = ranks.REQUIRED_LENGTH ->
  exists b, ranks.create_sequence_validator (Some ranks.INVALID_STRAIGHT_STARTERS) cards = Ok b.
Proof.
  intros Hlen; unfold ranks.create_sequence_validator, cardUtils.Hand.
  rewrite Hlen; simpl cardUtils.or_empty.
  destruct (default_most_frequent_starter_total (cardUtils.get_faces cards)) as [f Hf].
  { destruct cards; [discriminate Hlen | discriminate]. }
  rewrite (bind_Ok _ _ f Hf); apply sequence_loop_total.
Qed.

(** ** Ranks *)

Lemma run_validators_true (vs : list ranks.RankValidator) (cards : list Card) :
  ranks.run_validators vs cards = Ok true <-> Forall (fun v => v cards = Ok true) vs.
Proof.
  induction vs as [|v vs IH]; simpl.
  - split; [constructor | reflexivity].
  - destruct (v cards) as [[|]|e] eqn:E; simpl.
    + rewrite IH; split; [intros H; constructor; assumption|].
      intros H; inversion H; assumption.
    + split; [discriminate | intros H; inversion H; congruence].
    + split; [discriminate | intros H; inversion H; congruence].
Qed.

Lemma is_rank_true (rank : ranks.Rank) (cards : list Card) :
  ranks.is_rank rank cards = Ok true <-> validators_hold rank cards.
Proof. apply run_validators_true. Qed.

Lemma run_validators_total (vs : list ranks.RankValidator) (cards : list Card) :
  Forall (fun v => exists b, v cards = Ok b) vs ->
  exists b, ranks.run_validators vs cards = Ok b.
Proof.
  induction 1 as [|v vs (b & Hb) _ IH]; simpl; [eauto|].
  rewrite Hb; simpl; destruct b; simpl; eauto.
Qed.

(** Every rank of the catalog checks the length first, so its later
    validators only ever see five cards. *)
Lemma length_gated_total (vs : list ranks.RankValidator) (cards : list Card) :
  (length cards = ranks.REQUIRED_LENGTH -> Forall (fun v => exists b, v cards = Ok b) vs) ->
  exists b, ranks.run_validators
              (ranks.create_length_validator ranks.REQUIRED_LENGTH :: vs) cards = Ok b.
Proof.
  intros H; cbn [ranks.run_validators]; unfold ranks.create_length_validator, bind.
  destruct (Nat.eqb (length cards) ranks.REQUIRED_LENGTH) eqn:E; cbn [negb]; [|eauto].
  apply run_validators_total, H, Nat.eqb_eq, E.
Qed.

Lemma default_is_rank_total (rank : ranks.Rank) (cards : list Card) :
  In rank ranks.DEFAULT_RANKS -> exists b, ranks.is_rank rank cards = Ok b.
Proof.
  intros Hin; unfold ranks.is_rank.
  assert (Hseq : length cards = ranks.REQUIRED_LENGTH ->
                 exists b, ranks.create_sequence_validator
                             (Some ranks.INVALID_STRAIGHT_STARTERS) cards = Ok b)
    by apply default_sequence_validator_total.
  simpl in Hin;
    repeat (destruct Hin as [<-|Hin]; [apply length_gated_total; intros Hlen|]);
    try contradiction;
    repeat (constructor; try (apply Hseq, Hlen); try (eexists; reflexivity)).
Qed.

Lemma first_rank_cases (rs : list ranks.Rank) (cards : list Card) :
  (forall r, In r rs -> exists b, ranks.is_rank r cards = Ok b) ->
  (exists pre r post,
     rs = pre ++ r :: post /\ ranks.first_rank rs cards = Ok r /\
     ranks.is_rank r cards = Ok true /\
     forall r', In r' pre -> ranks.is_rank r' cards = Ok false) \/
  (ranks.first_rank rs cards = Ok ranks.NULL_RANK /\
   forall r, In r rs -> ranks.is_rank r cards = Ok false).
Proof.
  induction rs as [|r rs IH]; intros Htot; simpl.
  - right; split; [reflexivity | tauto].
  - destruct (Htot r (or_introl eq_refl)) as [[|] Hb]; rewrite Hb; simpl.
    + left; exists [], r, rs; repeat split; auto; intros r' [].
    + destruct IH as [(pre & r0 & post & -> & Hr0 & Ht & Hpre)|[Hnull Hall]].
      * intros r' Hr'; apply Htot; right; exact Hr'.
      * left; exists (r :: pre), r0, post; repeat split; auto.
        intros r' [<-|Hr']; auto.
      * right; split; [exact Hnull|]; intros r' [<-|Hr']; auto.
Qed.

Lemma HIGH_accepts (cards : list Card) :
  length cards = ranks.REQUIRED_LENGTH -> ranks.is_rank ranks.HIGH cards = Ok true.
Proof.
  intros H; unfold ranks.is_rank; simpl; unfold ranks.create_length_validator.
  rewrite H; reflexivity.
Qed.

(** The shape of [get_rank] with the default catalog on a five-card hand. *)
Lemma get_rank_default_cases (cards : list Card) :
  length cards = ranks.REQUIRED_LENGTH ->
  exists pre r post,
    ranks.DEFAULT_RANKS = pre ++ r :: post /\
    ranks.get_rank cards None = Ok r /\
    ranks.is_rank r cards = Ok true /\
    forall r', In r' pre -> ranks.is_rank r' cards = Ok false.
Proof.
  intros Hlen.
  destruct (first_rank_cases ranks.DEFAULT_RANKS cards) as [H|[_ Hall]].
  - intros r Hr; apply default_is_rank_total, Hr.
  - exact H.
  - exfalso.
    assert (Hh : ranks.is_rank ranks.HIGH cards = Ok false).
    { apply Hall; unfold ranks.DEFAULT_RANKS; simpl; tauto. }
    rewrite (HIGH_accepts cards Hlen) in Hh; discriminate.
Qed.

Lemma default_rank_values (r : ranks.Rank) :
  In r ranks.DEFAULT_RANKS -> 1 <= ranks.value r <= 10.
Proof.
  simpl; intros H; repeat (destruct H as [<-|H]; [simpl; lia|]); contradiction.
Qed.

(** C1: on a five-card hand [get_rank] with the default catalog returns the
    first rank of the catalog, which lists the ranks by descending value,
    all of whose validators hold; this rank is never the null rank, because
    High Card closes the catalog and accepts every five-card hand. *)
Theorem get_rank_default_first_match :
  StronglySorted (fun a b => ranks.value a > ranks.value b) ranks.DEFAULT_RANKS /\
  forall cards : list Card,
    length cards = 5%nat ->
    validators_hold ranks.HIGH cards /\
    exists pre r post,
      ranks.DEFAULT_RANKS = pre ++ r :: post /\
      ranks.get_rank cards None = Ok r /\
      validators_hold r cards /\
      (forall r', In r' pre -> ~ validators_hold r' cards) /\
      ranks.Rank_eqb r ranks.NULL_RANK = false /\
      r <> ranks.NULL_RANK.
Proof.
  split.
  - unfold ranks.DEFAULT_RANKS;
      repeat (constructor; [|repeat (constructor; [simpl; lia|]); constructor]);
      constructor.
  - intros cards Hlen; split; [apply is_rank_true, HIGH_accepts, Hlen|].
    destruct (get_rank_default_cases cards Hlen) as (pre & r & post & E & Hr & Ht & Hpre).
    assert (Hv : 1 <= ranks.value r <= 10).
    { apply default_rank_values; rewrite E; apply in_elt. }
    exists pre, r, post; repeat split; auto.
    + apply is_rank_true, Ht.
    + intros r' Hr' Hhold; apply is_rank_true in Hhold.
      rewrite (Hpre r' Hr') in Hhold; discriminate.
    + unfold ranks.Rank_eqb; simpl; apply Z.eqb_neq; lia.
    + intros ->; simpl in Hv; lia.
Qed.

Lemma get_rank_default_first_match_witness :
  exists pre r post,
    ranks.DEFAULT_RANKS = pre ++ r :: post /\
    ranks.get_rank ace_low_mixed None = Ok r /\
    validators_hold r ace_low_mixed /\
    (forall r', In r' pre -> ~ validators_hold r' ace_low_mixed) /\
    ranks.Rank_eqb r ranks.NULL_RANK = false /\
    r <> ranks.NULL_RANK.
Proof.
  destruct get_rank_default_first_match as [_ H].
  destruct (H ace_low_mixed) as [_ H']; [reflexivity | exact H'].
Defined.

(** C9: a rank built without validators, such as [NULL_RANK] and
    [Rank.none()], accepts every collection of cards, the empty one
    included; placed in the list given to [get_rank] it is returned for
    every hand that the ranks before it reject. *)
Theorem rank_without_validators_accepts_all :
  (forall cards, ranks.is_rank ranks.NULL_RANK cards = Ok true) /\
  (forall cards, ranks.is_rank ranks.Rank_none cards = Ok true) /\
  (forall name value cards,
     ranks.is_rank (ranks.Rank_init name value None) cards = Ok true /\
     ranks.is_rank (ranks.Rank_init name value (Some [])) cards = Ok true) /\
  (forall rank cards, ranks.validators rank = [] -> ranks.is_rank rank cards = Ok true) /\
  (forall pre rank post cards,
     ranks.validators rank = [] ->
     (forall r', In r' pre -> ranks.is_rank r' cards = Ok false) ->
     ranks.get_rank cards (Some (pre ++ rank :: post)) = Ok rank).
Proof.
  repeat split; try reflexivity.
  - intros rank cards H; unfold ranks.is_rank; rewrite H; reflexivity.
  - intros pre rank post cards Hv Hpre.
    assert (E : ranks.get_rank cards (Some (pre ++ rank :: post))
                = ranks.first_rank (pre ++ rank :: post) cards).
    { destruct pre; reflexivity. }
    rewrite E; clear E.
    induction pre as [|r pre IH]; simpl.
    + unfold ranks.is_rank; rewrite Hv; reflexivity.
    + rewrite (Hpre r (or_introl eq_refl)); simpl.
      apply IH; intros r' Hr'; apply Hpre; right; exact Hr'.
Qed.

Lemma rank_without_validators_accepts_all_witness :
  ranks.is_rank ranks.NULL_RANK [] = Ok true /\
  ranks.get_rank [] (Some ([ranks.FLUSH; ranks.HIGH] ++ ranks.NULL_RANK :: [ranks.PAIR]))
  = Ok ranks.NULL_RANK.
Proof.
  destruct rank_without_validators_accepts_all as (_ & _ & _ & H1 & H2).
  split; [apply H1; reflexivity|].
  apply H2; [reflexivity|].
  intros r' [<-|[<-|[]]]; reflexivity.
Defined.

(** C6: a hand accepted by every validator of Straight Flush is accepted by
    every validator of Flush and by every validator of Straight; indeed the
    validators of each of the two are among those of Straight Flush. *)
Theorem straight_flush_implies_flush_and_straight :
  incl (ranks.validators ranks.FLUSH) (ranks.validators ranks.STRAIGHT_FLUSH) /\
  incl (ranks.validators ranks.STRAIGHT) (ranks.validators ranks.STRAIGHT_FLUSH) /\
  (forall cards : list Card,
     validators_hold ranks.STRAIGHT_FLUSH cards ->
     validators_hold ranks.FLUSH cards /\ validators_hold ranks.STRAIGHT cards) /\
  (forall cards : list Card,
     ranks.is_rank ranks.STRAIGHT_FLUSH cards = Ok true ->
     ranks.is_rank ranks.FLUSH cards = Ok true /\
     ranks.is_rank ranks.STRAIGHT cards = Ok true).
Proof.
  assert (Hf : incl (ranks.validators ranks.FLUSH) (ranks.validators ranks.STRAIGHT_FLUSH)).
  { intros v [<-|[<-|[]]]; simpl; auto. }
  assert (Hs : incl (ranks.validators ranks.STRAIGHT) (ranks.validators ranks.STRAIGHT_FLUSH)).
  { intros v [<-|[<-|[]]]; simpl; auto. }
  assert (Hh : forall cards : list Card,
            validators_hold ranks.STRAIGHT_FLUSH cards ->
            validators_hold ranks.FLUSH cards /\ validators_hold ranks.STRAIGHT cards).
  { intros cards H; unfold validators_hold in *; rewrite Forall_forall in H.
    split; apply Forall_forall; intros v Hv; apply H; [apply Hf | apply Hs]; exact Hv. }
  split; [exact Hf | split; [exact Hs | split; [exact Hh|]]].
  intros cards H; rewrite !is_rank_true in *; apply Hh, H.
Qed.

Lemma straight_flush_implies_flush_and_straight_witness :
  (validators_hold ranks.FLUSH hearts_9_to_K /\ validators_hold ranks.STRAIGHT hearts_9_to_K) /\
  (ranks.is_rank ranks.FLUSH hearts_9_to_K = Ok true /\
   ranks.is_rank ranks.STRAIGHT hearts_9_to_K = Ok true).
Proof.
  destruct straight_flush_implies_flush_and_straight as (_ & _ & H1 & H2).
  split; [apply H1 | apply H2].
  - repeat constructor; vm_compute; reflexivity.
  - vm_compute; reflexivity.
Defined.

(** ** Empty collections *)

Lemma get_max_face_frequency_total (cards : list Card) :
  cards <> [] -> exists n, cardUtils.get_max_face_frequency cards = Ok n.
Proof.
  intros Hne; unfold cardUtils.get_max_face_frequency, cardUtils.Hand.
  rewrite get_groups_by_face_eq; simpl.
  destruct (max_total (map (fun group : list Card => length group)
              (py.values (tabulate (group_of Face_eqb face cards)
                                   (py.set_of Face_eqb (cardUtils.get_faces cards))))))
    as (n & Hn & _); [|eauto].
  intros E; apply map_eq_nil in E; unfold py.values in E; apply map_eq_nil in E.
  unfold tabulate in E; apply map_eq_nil in E.
  apply (set_of_nonempty Face_eqb Face_eqb_eq (cardUtils.get_faces cards)); [|exact E].
  destruct cards; [congruence | discriminate].
Qed.

Lemma get_max_suit_frequency_total (cards : list Card) :
  cards <> [] -> exists n, cardUtils.get_max_suit_frequency cards = Ok n.
Proof.
  intros Hne; unfold cardUtils.get_max_suit_frequency, cardUtils.Hand.
  rewrite get_groups_by_suit_eq; simpl.
  destruct (max_total (map (fun group : list Card => length group)
              (py.values (tabulate (group_of Suit_eqb suit cards)
                                   (py.set_of Suit_eqb (cardUtils.get_suits cards))))))
    as (n & Hn & _); [|eauto].
  intros E; apply map_eq_nil in E; unfold py.values in E; apply map_eq_nil in E.
  unfold tabulate in E; apply map_eq_nil in E.
  apply (set_of_nonempty Suit_eqb Suit_eqb_eq (cardUtils.get_suits cards)); [|exact E].
  destruct cards; [congruence | discriminate].
Qed.

(** Counterexample to C7 as stated: on an empty collection the starter
    search and both maximal-frequency computations raise [ValueError]
    (the [max] of an empty sequence); none of them returns a value. *)
Lemma empty_collection_raises :
  cardUtils.get_most_frequent_starter_of_sequences_including_faces
    [] ranks.REQUIRED_LENGTH (Some ranks.INVALID_STRAIGHT_STARTERS) = Raise ValueError /\
  cardUtils.get_max_face_frequency [] = Raise ValueError /\
  cardUtils.get_max_suit_frequency [] = Raise ValueError /\
  ~ (exists f, cardUtils.get_most_frequent_starter_of_sequences_including_faces
                 [] ranks.REQUIRED_LENGTH (Some ranks.INVALID_STRAIGHT_STARTERS) = Ok f) /\
  ~ (exists n, cardUtils.get_max_face_frequency [] = Ok n) /\
  ~ (exists n, cardUtils.get_max_suit_frequency [] = Ok n).
Proof.
  repeat split; try reflexivity; intros (x & H); discriminate H.
Qed.

(** C7, amended: on an empty collection the three computations raise
    [ValueError] whatever the other arguments are; on every non-empty
    collection the two maximal-frequency computations return a count, and
    so does the starter search with the catalog's sequence length and
    invalid starters.  Classification and comparison themselves do return
    on empty hands: every rank of the catalog checks the length first, so
    an empty hand gets the null rank and two empty hands compare EQUAL. *)
Theorem empty_collection_behaviour :
  (forall sequence_length invalid,
     cardUtils.get_most_frequent_starter_of_sequences_including_faces
       [] sequence_length invalid = Raise ValueError) /\
  cardUtils.get_max_face_frequency [] = Raise ValueError /\
  cardUtils.get_max_suit_frequency [] = Raise ValueError /\
  (forall faces, faces <> [] ->
     exists f, cardUtils.get_most_frequent_starter_of_sequences_including_faces
                 faces ranks.REQUIRED_LENGTH (Some ranks.INVALID_STRAIGHT_STARTERS) = Ok f) /\
  (forall cards, cards <> [] -> exists n, cardUtils.get_max_face_frequency cards = Ok n) /\
  (forall cards, cards <> [] -> exists n, cardUtils.get_max_suit_frequency cards = Ok n) /\
  ranks.get_rank [] None = Ok ranks.NULL_RANK /\
  pokerLogic.compare_hands [] [] = Ok pokerLogic.EQUAL.
Proof.
  repeat split; try reflexivity.
  - apply default_most_frequent_starter_total.
  - apply get_max_face_frequency_total.
  - apply get_max_suit_frequency_total.
Qed.

Lemma empty_collection_behaviour_witness :
  (exists f, cardUtils.get_most_frequent_starter_of_sequences_including_faces
               [KING] ranks.REQUIRED_LENGTH (Some ranks.INVALID_STRAIGHT_STARTERS) = Ok f) /\
  (exists n, cardUtils.get_max_face_frequency [mkCard KING SPADES] = Ok n) /\
  (exists n, cardUtils.get_max_suit_frequency [mkCard KING SPADES] = Ok n).
Proof.
  destruct empty_collection_behaviour as (_ & _ & _ & Hs & Hf & Hu & _).
  split; [apply Hs | split; [apply Hf | apply Hu]]; discriminate.
Defined.

(** ** Enumerations *)

Lemma all_lists_complete {A : Type} (alphabet : list A) (l : list A) :
  (forall x, In x l -> In x alphabet) -> In l (all_lists alphabet (length l)).
Proof.
  induction l as [|x l IH]; intros H; simpl; [auto|].
  apply in_flat_map; exists x; split; [apply H; left; reflexivity|].
  apply in_map, IH; intros y Hy; apply H; right; exact Hy.
Qed.

Lemma insert_everywhere_complete {A : Type} (x : A) (l1 l2 : list A) :
  In (l1 ++ x :: l2) (insert_everywhere x (l1 ++ l2)).
Proof.
  induction l1 as [|y l1 IH]; simpl.
  - destruct l2; simpl; auto.
  - right; apply in_map, IH.
Qed.

Lemma permutations_complete {A : Type} (target l : list A) :
  Permutation l target -> In l (permutations target).
Proof.
  revert l; induction target as [|x target IH]; intros l H; simpl.
  - apply Permutation_sym, Permutation_nil in H; auto.
  - assert (Hx : In x l) by (apply (Permutation_in x (Permutation_sym H)); left; reflexivity).
    apply in_split in Hx; destruct Hx as (l1 & l2 & ->).
    apply in_flat_map; exists (l1 ++ l2); split; [|apply insert_everywhere_complete].
    apply IH; symmetry; apply (Permutation_cons_app_inv l1 l2 (a := x)); symmetry; exact H.
Qed.

Lemma forall_permutations {A : Type} (target : list A) (P : list A -> bool) :
  forallb P (permutations target) = true ->
  forall l, Permutation l target -> P l = true.
Proof.
  intros H l Hl; rewrite forallb_forall in H; apply H, permutations_complete, Hl.
Qed.

Lemma Suit_members_complete (s : Suit) : In s Suit_members.
Proof. destruct s; simpl; auto. Qed.


Lemma forall_suit_lists (n : nat) (P : list Suit -> bool) :
  forallb P (all_lists Suit_members n) = true ->
  forall suits, length suits = n -> P suits = true.
Proof.
  intros H suits <-; rewrite forallb_forall in H; apply H, all_lists_complete.
  intros s _; apply Suit_members_complete.
Qed.

Lemma all_equalb_same_suit (cards : list Card) :
  all_equalb (cardUtils.get_suits cards) = true -> same_suit cards.
Proof.
  destruct cards as [|card cards]; simpl.
  - intros _; exists SPADES; intros c [].
  - intros H; exists (suit card); intros c [<-|Hc]; [reflexivity|].
    rewrite forallb_forall in H; symmetry; apply Suit_eqb_eq, H.
    apply in_map, Hc.
Qed.

(** Five suits make one group of five only when they are all the same. *)
Lemma flush_group_same_suit (cards : list Card) :
  length cards = ranks.REQUIRED_LENGTH ->
  ranks.has_required_group Suit_eqb (cardUtils.get_suits cards) ranks.REQUIRED_LENGTH 1 = true ->
  same_suit cards.
Proof.
  intros Hlen H; apply all_equalb_same_suit.
  assert (Hall : forall suits, length suits = ranks.REQUIRED_LENGTH ->
            implb (ranks.has_required_group Suit_eqb suits ranks.REQUIRED_LENGTH 1)
                  (all_equalb suits) = true).
  { apply forall_suit_lists; vm_compute; reflexivity. }
  specialize (Hall (cardUtils.get_suits cards)).
  unfold cardUtils.get_suits in *; rewrite length_map in Hall.
  rewrite H in Hall; apply Hall, Hlen.
Qed.

Lemma sequence_validator_faces (cards : list Card) :
  ranks.create_sequence_validator (Some ranks.INVALID_STRAIGHT_STARTERS) cards
  = sequence_check (cardUtils.get_faces cards).
Proof.
  unfold ranks.create_sequence_validator, sequence_check, cardUtils.Hand, cardUtils.get_faces.
  rewrite length_map; reflexivity.
Qed.

Lemma first_rank_skip (r : ranks.Rank) (rs : list ranks.Rank) (cards : list Card) :
  ranks.is_rank r cards = Ok false ->
  ranks.first_rank (r :: rs) cards = ranks.first_rank rs cards.
Proof. intros H; simpl; rewrite H; reflexivity. Qed.

Lemma first_rank_hit (r : ranks.Rank) (rs : list ranks.Rank) (cards : list Card) :
  ranks.is_rank r cards = Ok true -> ranks.first_rank (r :: rs) cards = Ok r.
Proof. intros H; simpl; rewrite H; reflexivity. Qed.

Lemma run_validators_reject (v : ranks.RankValidator) (vs : list ranks.RankValidator)
    (cards : list Card) :
  v cards = Ok false -> ranks.run_validators (v :: vs) cards = Ok false.
Proof. intros H; simpl; rewrite H; reflexivity. Qed.

Lemma run_validators_accept (v : ranks.RankValidator) (vs : list ranks.RankValidator)
    (cards : list Card) :
  v cards = Ok true ->
  ranks.run_validators (v :: vs) cards = ranks.run_validators vs cards.
Proof. intros H; simpl; rewrite H; reflexivity. Qed.

(** Steps through the validators of a rank with the facts at hand. *)
Ltac run_validators :=
  unfold ranks.is_rank; cbn [ranks.validators];
  repeat (rewrite run_validators_accept by eassumption);
  first [ reflexivity | apply run_validators_reject; eassumption ].

Lemma suit_frequency_validator_mixed (cards : list Card) :
  length cards = ranks.REQUIRED_LENGTH -> ~ same_suit cards ->
  ranks.create_suit_frequency_validator [(ranks.REQUIRED_LENGTH, 1%nat)] cards = Ok false.
Proof.
  intros Hlen Hmix; unfold ranks.create_suit_frequency_validator, cardUtils.Hand; simpl.
  destruct (ranks.has_required_group Suit_eqb (cardUtils.get_suits cards)
              ranks.REQUIRED_LENGTH 1) eqn:E; [|reflexivity].
  exfalso; apply Hmix, flush_group_same_suit; assumption.
Qed.

Lemma length_validator_accepts (cards : list Card) :
  length cards = ranks.REQUIRED_LENGTH ->
  ranks.create_length_validator ranks.REQUIRED_LENGTH cards = Ok true.
Proof. intros H; unfold ranks.create_length_validator; rewrite H; reflexivity. Qed.

(** A straight of mixed suits classifies as Straight as soon as its faces
    form a sequence and no face occurs four or three times. *)
Lemma mixed_sequence_is_straight (cards : list Card) :
  length cards = ranks.REQUIRED_LENGTH -> ~ same_suit cards ->
  sequence_check (cardUtils.get_faces cards) = Ok true ->
  ranks.has_required_group Face_eqb (cardUtils.get_faces cards) 4 1 = false ->
  ranks.has_required_group Face_eqb (cardUtils.get_faces cards) 3 1 = false ->
  ranks.get_rank cards None = Ok ranks.STRAIGHT.
Proof.
  intros Hlen Hmix Hseq H4 H3.
  pose proof (length_validator_accepts cards Hlen) as Hl.
  pose proof (suit_frequency_validator_mixed cards Hlen Hmix) as Hs.
  rewrite <- sequence_validator_faces in Hseq.
  assert (Hf4 : ranks.create_face_frequency_validator [(4, 1)]%nat cards = Ok false).
  { unfold ranks.create_face_frequency_validator, cardUtils.Hand; simpl; rewrite H4; reflexivity. }
  assert (Hf3 : ranks.create_face_frequency_validator [(3, 1); (2, 1)]%nat cards = Ok false).
  { unfold ranks.create_face_frequency_validator, cardUtils.Hand; simpl; rewrite H3; reflexivity. }
  unfold ranks.get_rank, ranks.DEFAULT_RANKS.
  rewrite first_rank_skip by (unfold ranks.ROYAL_FLUSH, ranks.Rank_init; run_validators).
  rewrite first_rank_skip by (unfold ranks.STRAIGHT_FLUSH, ranks.Rank_init; run_validators).
  rewrite first_rank_skip by (unfold ranks.FOUR_OF_A_KIND, ranks.Rank_init; run_validators).
  rewrite first_rank_skip by (unfold ranks.FULL_HOUSE, ranks.Rank_init; run_validators).
  rewrite first_rank_skip by (unfold ranks.FLUSH, ranks.Rank_init; run_validators).
  apply first_rank_hit; unfold ranks.STRAIGHT, ranks.Rank_init; run_validators.
Qed.

Lemma is_Ok_true_eq (r : result bool) : is_Ok_true r = true -> r = Ok true.
Proof. destruct r as [[|]|]; simpl; congruence. Qed.

Lemma is_Ok_face_eq (f : Face) (r : result Face) : is_Ok_face f r = true -> r = Ok f.
Proof.
  destruct r as [g|]; simpl; [|discriminate].
  intros H; apply Face_eqb_eq in H; subst; reflexivity.
Qed.

(** The starter found for a five-face sequence, in whatever order its faces
    come. *)
Lemma sequence_starter (target : list Face) (starter : Face) :
  forallb (fun faces =>
             is_Ok_face starter
               (cardUtils.get_most_frequent_starter_of_sequences_including_faces
                  faces ranks.REQUIRED_LENGTH (Some ranks.INVALID_STRAIGHT_STARTERS)))
          (permutations target) = true ->
  forall faces, Permutation faces target ->
    cardUtils.get_most_frequent_starter_of_sequences_including_faces
      faces ranks.REQUIRED_LENGTH (Some ranks.INVALID_STRAIGHT_STARTERS) = Ok starter.
Proof.
  intros H faces Hp; apply is_Ok_face_eq.
  apply (forall_permutations target _ H faces Hp).
Qed.

(** C3: a hand with the faces A, 2, 3, 4, 5, in any order and not all of one
    suit, classifies as Straight; its starter is the Ace, which is strictly
    below Two, the starter of 2-3-4-5-6, which is strictly below Ten, the
    starter of 10-J-Q-K-A. *)
Theorem ace_low_straight :
  (forall cards : list Card,
     Permutation (cardUtils.get_faces cards) [ACE; TWO; THREE; FOUR; FIVE] ->
     ~ same_suit cards ->
     ranks.get_rank cards None = Ok ranks.STRAIGHT) /\
  (forall low mid high : list Face,
     Permutation low [ACE; TWO; THREE; FOUR; FIVE] ->
     Permutation mid [TWO; THREE; FOUR; FIVE; SIX] ->
     Permutation high [TEN; JACK; QUEEN; KING; ACE] ->
     exists s_low s_mid s_high,
       cardUtils.get_most_frequent_starter_of_sequences_including_faces
         low ranks.REQUIRED_LENGTH (Some ranks.INVALID_STRAIGHT_STARTERS) = Ok s_low /\
       cardUtils.get_most_frequent_starter_of_sequences_including_faces
         mid ranks.REQUIRED_LENGTH (Some ranks.INVALID_STRAIGHT_STARTERS) = Ok s_mid /\
       cardUtils.get_most_frequent_starter_of_sequences_including_faces
         high ranks.REQUIRED_LENGTH (Some ranks.INVALID_STRAIGHT_STARTERS) = Ok s_high /\
       s_low = ACE /\ s_mid = TWO /\ s_high = TEN /\
       cardUtils.is_straight_starter_lesser s_low s_mid = true /\
       cardUtils.is_straight_starter_lesser s_mid s_high = true /\
       cardUtils.is_straight_starter_greater s_mid s_low = true /\
       cardUtils.is_straight_starter_greater s_high s_mid = true).
Proof.
  split.
  - intros cards Hp Hmix.
    assert (Hlen : length cards = ranks.REQUIRED_LENGTH).
    { apply Permutation_length in Hp; unfold cardUtils.get_faces in Hp.
      rewrite length_map in Hp; exact Hp. }
    assert (Hall : forall faces, Permutation faces [ACE; TWO; THREE; FOUR; FIVE] ->
              (is_Ok_true (sequence_check faces)
               && negb (ranks.has_required_group Face_eqb faces 4 1)
               && negb (ranks.has_required_group Face_eqb faces 3 1)) = true).
    { apply forall_permutations; vm_compute; reflexivity. }
    specialize (Hall _ Hp); rewrite !andb_true_iff, !negb_true_iff in Hall.
    destruct Hall as ((Hseq & H4) & H3).
    apply mixed_sequence_is_straight; auto using is_Ok_true_eq.
  - intros low mid high Hlow Hmid Hhigh.
    exists ACE, TWO, TEN; repeat split.
    + revert low Hlow; apply sequence_starter; vm_compute; reflexivity.
    + revert mid Hmid; apply sequence_starter; vm_compute; reflexivity.
    + revert high Hhigh; apply sequence_starter; vm_compute; reflexivity.
Qed.

Lemma ace_low_straight_witness :
  ranks.get_rank ace_low_mixed None = Ok ranks.STRAIGHT /\
  exists s_low s_mid s_high,
    cardUtils.get_most_frequent_starter_of_sequences_including_faces
      [FIVE; FOUR; THREE; TWO; ACE]
      ranks.REQUIRED_LENGTH (Some ranks.INVALID_STRAIGHT_STARTERS) = Ok s_low /\
    cardUtils.get_most_frequent_starter_of_sequences_including_faces
      [SIX; FIVE; FOUR; THREE; TWO]
      ranks.REQUIRED_LENGTH (Some ranks.INVALID_STRAIGHT_STARTERS) = Ok s_mid /\
    cardUtils.get_most_frequent_starter_of_sequences_including_faces
      [ACE; KING; QUEEN; JACK; TEN]
      ranks.REQUIRED_LENGTH (Some ranks.INVALID_STRAIGHT_STARTERS) = Ok s_high /\
    s_low = ACE /\ s_mid = TWO /\ s_high = TEN /\
    cardUtils.is_straight_starter_lesser s_low s_mid = true /\
    cardUtils.is_straight_starter_lesser s_mid s_high = true /\
    cardUtils.is_straight_starter_greater s_mid s_low = true /\
    cardUtils.is_straight_starter_greater s_high s_mid = true.
Proof.
  destruct ace_low_straight as [H1 H2]; split.
  - apply H1.
    + reflexivity.
    + intros (s & Hs).
      pose proof (Hs (mkCard ACE SPADES) (or_introl eq_refl)) as Ha.
      pose proof (Hs (mkCard TWO HEARTS) (or_intror (or_introl eq_refl))) as Hb.
      simpl in Ha, Hb; congruence.
  - apply H2.
    + symmetry; apply (Permutation_rev [ACE; TWO; THREE; FOUR; FIVE]).
    + symmetry; apply (Permutation_rev [TWO; THREE; FOUR; FIVE; SIX]).
    + symmetry; apply (Permutation_rev [TEN; JACK; QUEEN; KING; ACE]).
Defined.

(** ** Comparing position by position *)

Section FirstDifference.
Import pokerLogic.
Context {X : Type} (cmp : X -> X -> Comparison).

Lemma first_difference_decides (xs ys : list X) (fallback : Comparison) :
  decided_by_first_difference cmp xs ys fallback
    (match first_difference cmp (py.zip xs ys) with
     | Some r => r
     | None => fallback
     end).
Proof.
  revert ys; induction xs as [|x xs IH]; intros ys.
  - right; split; [|reflexivity]; intros [|j] ? ? H; discriminate H.
  - destruct ys as [|y ys].
    + right; split; [|reflexivity]; intros [|j] ? ? _ H; discriminate H.
    + simpl.
      assert (Hne : cmp x y <> EQUAL ->
                decided_by_first_difference cmp (x :: xs) (y :: ys) fallback (cmp x y)).
      { intros Hd; left; exists 0%nat, x, y; repeat split; auto; intros; lia. }
      destruct (cmp x y) eqn:E; try (apply Hne; discriminate).
      destruct (IH ys) as [(i & a & b & Ha & Hb & Hd & Hr & Hlt)|[Hall Hr]].
      * left; exists (S i), a, b; repeat split; auto.
        intros [|j] x' y' Hj Hx Hy; simpl in Hx, Hy.
        -- inversion Hx; inversion Hy; subst; exact E.
        -- apply (Hlt j); auto; lia.
      * right; split; [|exact Hr].
        intros [|j] x' y' Hx Hy; simpl in Hx, Hy.
        -- inversion Hx; inversion Hy; subst; exact E.
        -- apply (Hall j); auto.
Qed.

Hypothesis cmp_flip : forall x y, cmp y x = flip (cmp x y).

Lemma first_difference_flip (xs ys : list X) :
  first_difference cmp (py.zip ys xs) = option_map flip (first_difference cmp (py.zip xs ys)).
Proof.
  revert ys; induction xs as [|x xs IH]; intros [|y ys]; simpl; try reflexivity.
  rewrite (cmp_flip x y); destruct (cmp x y); simpl; auto.
Qed.
End FirstDifference.

Lemma first_group_difference_eq (pairs : list ((Face * list Card) * (Face * list Card))) :
  pokerLogic.first_group_difference pairs = first_difference pokerLogic.compare_group_items pairs.
Proof.
  induction pairs as [|[x y] pairs IH]; simpl; [reflexivity|].
  rewrite IH; destruct (pokerLogic.compare_group_items x y); reflexivity.
Qed.

Lemma first_value_difference_eq (pairs : list (Card * Card)) :
  pokerLogic.first_value_difference pairs = first_difference compare_card_values pairs.
Proof.
  induction pairs as [|[x y] pairs IH]; simpl; [reflexivity|].
  rewrite IH; unfold compare_card_values, compare_values.
  destruct (Card_value x >? Card_value y); [reflexivity|].
  destruct (Card_value x <? Card_value y); reflexivity.
Qed.

Lemma compare_group_items_eq (x y : Face * list Card) :
  pokerLogic.compare_group_items x y = compare_groups x y.
Proof.
  destruct x as [f1 g1], y as [f2 g2].
  unfold pokerLogic.compare_group_items, compare_groups, compare_size_value,
    cardUtils.size_value_ltb, group_size_value; simpl.
  rewrite Z.gtb_ltb, (Nat.eqb_sym (length g2) (length g1)); reflexivity.
Qed.

Lemma compare_size_value_flip (a b : nat * Z) :
  compare_size_value b a = flip (compare_size_value a b).
Proof.
  destruct a as [n1 v1], b as [n2 v2]; unfold compare_size_value, cardUtils.size_value_ltb; simpl.
  destruct (Nat.ltb_spec n1 n2), (Nat.ltb_spec n2 n1), (Nat.eqb_spec n1 n2), (Nat.eqb_spec n2 n1),
    (Z.ltb_spec v1 v2), (Z.ltb_spec v2 v1); simpl; try reflexivity; lia.
Qed.

Lemma compare_group_items_flip (x y : Face * list Card) :
  pokerLogic.compare_group_items y x = flip (pokerLogic.compare_group_items x y).
Proof. rewrite !compare_group_items_eq; apply compare_size_value_flip. Qed.

Lemma compare_card_values_flip (a b : Card) :
  compare_card_values b a = flip (compare_card_values a b).
Proof.
  unfold compare_card_values, compare_values.
  destruct (Z.gtb_spec (Card_value a) (Card_value b)), (Z.ltb_spec (Card_value a) (Card_value b)),
    (Z.gtb_spec (Card_value b) (Card_value a)), (Z.ltb_spec (Card_value b) (Card_value a));
    simpl; try reflexivity; lia.
Qed.

Lemma compare_length_flip (n m : nat) :
  pokerLogic.compare_length m n = flip (pokerLogic.compare_length n m).
Proof.
  unfold pokerLogic.compare_length.
  destruct (Nat.ltb_spec n m), (Nat.ltb_spec m n); simpl; try reflexivity; lia.
Qed.

(** [compare_length] is the three-way comparison of the two lengths. *)
Lemma compare_length_counts (n m : nat) :
  pokerLogic.compare_length n m = compare_counts n m.
Proof.
  unfold pokerLogic.compare_length, compare_counts.
  destruct (Nat.compare_spec n m) as [E|E|E], (Nat.ltb_spec m n), (Nat.ltb_spec n m);
    try reflexivity; lia.
Qed.

Lemma compare_by_value_flip (A B : list Card) :
  pokerLogic.compare_by_value B A = flip (pokerLogic.compare_by_value A B).
Proof.
  unfold pokerLogic.compare_by_value.
  rewrite !first_value_difference_eq.
  rewrite (first_difference_flip compare_card_values compare_card_values_flip).
  destruct (first_difference compare_card_values _); simpl;
    [reflexivity | apply compare_length_flip].
Qed.

(** ** Face groups in comparison order *)

Lemma size_value_ltb_asym (a b : nat * Z) :
  cardUtils.size_value_ltb a b = true -> cardUtils.size_value_ltb b a = false.
Proof.
  destruct a as [n1 v1], b as [n2 v2]; unfold cardUtils.size_value_ltb; simpl.
  destruct (Nat.ltb_spec n1 n2), (Nat.ltb_spec n2 n1), (Nat.eqb_spec n1 n2), (Nat.eqb_spec n2 n1),
    (Z.ltb_spec v1 v2), (Z.ltb_spec v2 v1); simpl; try reflexivity; try discriminate; lia.
Qed.

Lemma size_value_nltb_trans (a b c : nat * Z) :
  cardUtils.size_value_ltb a b = false -> cardUtils.size_value_ltb b c = false ->
  cardUtils.size_value_ltb a c = false.
Proof.
  destruct a as [n1 v1], b as [n2 v2], c as [n3 v3]; unfold cardUtils.size_value_ltb; simpl.
  destruct (Nat.ltb_spec n1 n2), (Nat.ltb_spec n2 n3), (Nat.ltb_spec n1 n3),
    (Nat.eqb_spec n1 n2), (Nat.eqb_spec n2 n3), (Nat.eqb_spec n1 n3),
    (Z.ltb_spec v1 v2), (Z.ltb_spec v2 v3), (Z.ltb_spec v1 v3);
    simpl; try reflexivity; try discriminate; lia.
Qed.

Lemma Card_ltb_asym (a b : Card) : Card_ltb a b = true -> Card_ltb b a = false.
Proof. unfold Card_ltb; rewrite Z.ltb_lt, Z.ltb_ge; lia. Qed.

Lemma Card_nltb_trans (a b c : Card) :
  Card_ltb a b = false -> Card_ltb b c = false -> Card_ltb a c = false.
Proof. unfold Card_ltb; rewrite !Z.ltb_ge; lia. Qed.

Lemma tabulate_In {K V : Type} (F : K -> V) (ks : list K) (k : K) (v : V) :
  In (k, v) (tabulate F ks) <-> In k ks /\ v = F k.
Proof.
  unfold tabulate; rewrite in_map_iff; split.
  - intros (k' & E & H); inversion E; subst; auto.
  - intros (H & ->); exists k; auto.
Qed.

Lemma tabulate_keys {K V : Type} (F : K -> V) (ks : list K) : map fst (tabulate F ks) = ks.
Proof. unfold tabulate; rewrite map_map; simpl; apply map_id. Qed.

Lemma face_groups_In (cards : list Card) (f : Face) (g : list Card) :
  In (f, g) (face_groups cards) <->
  In f (cardUtils.get_faces cards) /\ g = group_of Face_eqb face cards f.
Proof.
  unfold face_groups; rewrite tabulate_In, (set_of_In Face_eqb Face_eqb_eq); reflexivity.
Qed.

(** The key computed by [get_group_items_by_size_and_value] for an item of
    a face-group dictionary: the group is not empty and all its cards have
    the value of the face, so no [IndexError] is raised. *)
Lemma group_item_key_face (cards : list Card) (item : Face * list Card) :
  In item (face_groups cards) ->
  cardUtils.group_item_key item = Ok (group_size_value item).
Proof.
  destruct item as [f g]; intros H; apply face_groups_In in H; destruct H as [Hf ->].
  unfold cardUtils.group_item_key, group_size_value; simpl.
  set (g := group_of Face_eqb face cards f).
  pose proof (sorted_Permutation Card_ltb (fun c => c) true g) as Hp.
  destruct (py.sorted Card_ltb (fun c => c) true g) as [|top rest] eqn:E.
  - apply Permutation_nil in Hp.
    exfalso; revert Hp; apply (group_of_nonempty Face_eqb Face_eqb_eq face), Hf.
  - simpl; do 2 f_equal.
    assert (Ht : In top g) by (apply (Permutation_in top Hp); left; reflexivity).
    apply (group_of_key Face_eqb Face_eqb_eq face) in Ht.
    unfold Card_value; rewrite Ht; reflexivity.
Qed.

Lemma get_group_items_eq (cards : list Card) :
  cardUtils.get_group_items_by_size_and_value (face_groups cards) true
  = Ok (sorted_groups cards).
Proof.
  unfold cardUtils.get_group_items_by_size_and_value, py.items.
  rewrite (mapM_total _ group_size_value) by (intros; eapply group_item_key_face; eassumption).
  simpl; rewrite sorted_decorated; reflexivity.
Qed.

Lemma sorted_groups_spec (cards : list Card) : sorted_face_groups cards (sorted_groups cards).
Proof.
  unfold sorted_face_groups, sorted_groups.
  pose proof (sorted_Permutation cardUtils.size_value_ltb group_size_value true
                (face_groups cards)) as Hp.
  split; [|split].
  - apply (Permutation_NoDup (Permutation_map fst (Permutation_sym Hp))).
    unfold face_groups; rewrite tabulate_keys.
    apply (set_of_NoDup Face_eqb Face_eqb_eq).
  - intros f g; rewrite sorted_In; apply face_groups_In.
  - apply (sorted_desc_StronglySorted cardUtils.size_value_ltb group_size_value
             size_value_ltb_asym size_value_nltb_trans).
Qed.

Lemma sorted_by_value_spec (cards : list Card) :
  sorted_by_value_desc cards (py.sorted Card_ltb (fun c => c) true cards).
Proof.
  split; [apply sorted_Permutation|].
  pose proof (sorted_desc_StronglySorted Card_ltb (fun c => c)
                Card_ltb_asym Card_nltb_trans cards) as H.
  eapply StronglySorted_ind with (P := fun l => StronglySorted _ l); [| |exact H].
  - constructor.
  - intros a l _ IH Ha; constructor; [exact IH|].
    rewrite Forall_forall in *; intros b Hb; specialize (Ha b Hb).
    unfold desc_ok, Card_ltb in Ha; apply Z.ltb_ge in Ha; lia.
Qed.

(** [compare_by_face_frequency] never raises; it walks the two sorted item
    lists and falls back on the numbers of groups. *)
Lemma compare_by_face_frequency_eq (A B : list Card) :
  pokerLogic.compare_by_face_frequency A B
  = Ok (match first_difference pokerLogic.compare_group_items
                (py.zip (sorted_groups A) (sorted_groups B)) with
        | Some r => r
        | None => pokerLogic.compare_length (length (sorted_groups A)) (length (sorted_groups B))
        end).
Proof.
  assert (Hlen : forall h, length (sorted_groups h) = length (face_groups h)).
  { intros h; apply sorted_length. }
  rewrite !Hlen.
  unfold pokerLogic.compare_by_face_frequency, cardUtils.Hand.
  rewrite !get_groups_by_face_eq; cbn [bind].
  fold (face_groups A); fold (face_groups B).
  rewrite !get_group_items_eq; cbn [bind].
  rewrite first_group_difference_eq.
  destruct (first_difference _ _); reflexivity.
Qed.

Lemma compare_by_face_frequency_flip (A B : list Card) :
  exists c, pokerLogic.compare_by_face_frequency A B = Ok c /\
            pokerLogic.compare_by_face_frequency B A = Ok (flip c).
Proof.
  rewrite !compare_by_face_frequency_eq.
  eexists; split; [reflexivity|]; f_equal.
  rewrite (first_difference_flip _ compare_group_items_flip).
  destruct (first_difference _ _); simpl; [reflexivity | apply compare_length_flip].
Qed.

(** ** Uniqueness of the sorted order *)

Lemma StronglySorted_unique {X : Type} (R : X -> X -> Prop) (l1 l2 : list X) :
  StronglySorted R l1 -> StronglySorted R l2 -> Permutation l1 l2 ->
  (forall x y, In x l1 -> In y l1 -> R x y -> R y x -> x = y) ->
  l1 = l2.
Proof.
  revert l2; induction l1 as [|a l1 IH]; intros l2 H1 H2 Hp Hanti.
  - apply Permutation_nil in Hp; auto.
  - destruct l2 as [|b l2]; [apply Permutation_sym, Permutation_nil in Hp; discriminate|].
    inversion H1 as [|? ? H1' Ha]; inversion H2 as [|? ? H2' Hb]; subst.
    rewrite Forall_forall in Ha, Hb.
    assert (E : a = b).
    { assert (Hbin : In b (a :: l1))
        by (apply (Permutation_in b (Permutation_sym Hp)); left; reflexivity).
      assert (Hain : In a (b :: l2)) by (apply (Permutation_in a Hp); left; reflexivity).
      destruct Hbin as [E|Hbin]; [exact E|].
      destruct Hain as [E|Hain]; [symmetry; exact E|].
      apply Hanti; [left; reflexivity | right; exact Hbin | apply Ha, Hbin | apply Hb, Hain]. }
    subst b; f_equal; apply IH; auto.
    + apply Permutation_cons_inv in Hp; exact Hp.
    + intros x y Hx Hy; apply Hanti; right; assumption.
Qed.

Lemma StronglySorted_map {X Y : Type} (f : X -> Y) (R : X -> X -> Prop) (S : Y -> Y -> Prop)
    (l : list X) :
  (forall a b, R a b -> S (f a) (f b)) -> StronglySorted R l -> StronglySorted S (map f l).
Proof.
  intros HRS; induction 1 as [|a l _ IH Ha]; simpl; constructor; [exact IH|].
  rewrite Forall_forall in *; intros y Hy; apply in_map_iff in Hy.
  destruct Hy as (b & <- & Hb); auto.
Qed.

(** Two descending arrangements of the same cards show the same values. *)
Lemma sorted_values_unique (cards s1 s2 : list Card) :
  sorted_by_value_desc cards s1 -> sorted_by_value_desc cards s2 ->
  map Card_value s1 = map Card_value s2.
Proof.
  intros [Hp1 Hs1] [Hp2 Hs2].
  apply (StronglySorted_unique (desc_ok Z.ltb (fun v => v))).
  - revert Hs1; apply StronglySorted_map.
    intros a b Hab; unfold desc_ok; apply Z.ltb_ge; lia.
  - revert Hs2; apply StronglySorted_map.
    intros a b Hab; unfold desc_ok; apply Z.ltb_ge; lia.
  - apply Permutation_map; rewrite Hp1, Hp2; reflexivity.
  - intros x y _ _ Hxy Hyx; unfold desc_ok in *; apply Z.ltb_ge in Hxy, Hyx; lia.
Qed.

(** The sorted face groups of a hand are determined by their description. *)
Lemma sorted_face_groups_unique (cards : list Card) (groups : list (Face * list Card)) :
  sorted_face_groups cards groups -> groups = sorted_groups cards.
Proof.
  intros (Hnd & Hin & Hs).
  destruct (sorted_groups_spec cards) as (Hnd' & Hin' & Hs').
  apply (StronglySorted_unique (desc_ok cardUtils.size_value_ltb group_size_value)); auto.
  - apply NoDup_Permutation.
    + apply NoDup_map_inv in Hnd; exact Hnd.
    + apply NoDup_map_inv in Hnd'; exact Hnd'.
    + intros [f g]; rewrite Hin, Hin'; reflexivity.
  - intros [f1 g1] [f2 g2] H1 H2 H12 H21.
    apply Hin in H1, H2; destruct H1 as [_ ->], H2 as [_ ->].
    unfold desc_ok, cardUtils.size_value_ltb, group_size_value in H12, H21; simpl in H12, H21.
    assert (E : Face_value f1 = Face_value f2).
    { destruct (Nat.ltb_spec (length (group_of Face_eqb face cards f1))
                             (length (group_of Face_eqb face cards f2))),
               (Nat.ltb_spec (length (group_of Face_eqb face cards f2))
                             (length (group_of Face_eqb face cards f1))),
               (Nat.eqb_spec (length (group_of Face_eqb face cards f1))
                             (length (group_of Face_eqb face cards f2))),
               (Nat.eqb_spec (length (group_of Face_eqb face cards f2))
                             (length (group_of Face_eqb face cards f1))),
               (Z.ltb_spec (Face_value f1) (Face_value f2)),
               (Z.ltb_spec (Face_value f2) (Face_value f1));
        simpl in *; try discriminate; lia. }
    apply Face_value_inj in E; subst; reflexivity.
Qed.

Lemma first_difference_values (xs ys : list Card) :
  first_difference compare_card_values (py.zip xs ys)
  = first_difference compare_values (py.zip (map Card_value xs) (map Card_value ys)).
Proof.
  revert ys; induction xs as [|x xs IH]; intros [|y ys]; simpl; try reflexivity.
  unfold compare_card_values at 1; destruct (compare_values _ _); auto.
Qed.

(** ** The iteration order of sets does not matter

    CPython iterates a [set] in hash order, which for enumeration members
    changes from run to run.  The starter search iterates [set(faces)] and,
    inside [Counter.update], each set of starters.  The lemmas below show
    that its result is the same for every such order. *)

Lemma Permutation_filter' {X : Type} (p : X -> bool) (l l' : list X) :
  Permutation l l' -> Permutation (filter p l) (filter p l').
Proof.
  induction 1 as [|x l l' _ IH|x y l|l l' l'' _ IH1 _ IH2]; simpl.
  - constructor.
  - destruct (p x); [constructor|]; exact IH.
  - destruct (p x), (p y); try reflexivity; apply perm_swap.
  - rewrite IH1; exact IH2.
Qed.

Lemma Permutation_concat' {X : Type} (ls ls' : list (list X)) :
  Permutation ls ls' -> Permutation (concat ls) (concat ls').
Proof.
  induction 1 as [|x l l' _ IH|x y l|l l' l'' _ IH1 _ IH2]; simpl.
  - constructor.
  - apply Permutation_app_head, IH.
  - rewrite !app_assoc; apply Permutation_app_tail, Permutation_app_comm.
  - rewrite IH1; exact IH2.
Qed.

Lemma reordering_concat (sets sets' : list (list Face)) :
  reordering sets sets' -> Permutation (concat sets) (concat sets').
Proof.
  intros (mid & Hp & Hf); rewrite (Permutation_concat' _ _ Hp); clear Hp.
  induction Hf as [|s s' mid sets' Hs _ IH]; simpl; [constructor|].
  apply Permutation_app; assumption.
Qed.

Lemma max_spec (xs : list nat) (m : nat) :
  py.max xs = Ok m -> In m xs /\ Forall (fun x => (x <= m)%nat) xs.
Proof.
  destruct xs as [|x xs]; [discriminate|]; simpl; intros H; inversion H; subst; clear H.
  revert x; induction xs as [|y xs IH]; intros x; simpl.
  - split; [left; reflexivity | constructor; [lia | constructor]].
  - destruct (IH (Nat.max x y)) as [Hin Hall].
    inversion Hall as [|? ? Hxy Hrest]; subst.
    split.
    + destruct Hin as [Hin|Hin]; [|right; right; exact Hin].
      destruct (Nat.max_dec x y) as [E|E]; rewrite E in *; [left | right; left]; exact Hin.
    + constructor; [lia | constructor; [lia | exact Hrest]].
Qed.

Lemma max_Permutation (xs ys : list nat) : Permutation xs ys -> py.max xs = py.max ys.
Proof.
  intros Hp.
  destruct xs as [|x xs].
  { apply Permutation_nil in Hp; subst; reflexivity. }
  destruct ys as [|y ys].
  { apply Permutation_sym, Permutation_nil in Hp; discriminate. }
  destruct (max_total (x :: xs)) as (m & Hm & _); [discriminate|].
  destruct (max_total (y :: ys)) as (m' & Hm' & _); [discriminate|].
  rewrite Hm, Hm'; f_equal.
  apply max_spec in Hm, Hm'; destruct Hm as [Hin Hall], Hm' as [Hin' Hall'].
  rewrite Forall_forall in Hall, Hall'.
  apply (Permutation_in _ Hp) in Hin.
  apply (Permutation_in _ (Permutation_sym Hp)) in Hin'.
  specialize (Hall _ Hin'); specialize (Hall' _ Hin); lia.
Qed.

Lemma counter_get_incr (c : list (Face * nat)) (x k : Face) :
  py.counter_get Face_eqb (py.counter_incr Face_eqb c x) k
  = (py.counter_get Face_eqb c k + if Face_eqb x k then 1 else 0)%nat.
Proof.
  induction c as [|[k' n] c IH]; simpl.
  - destruct (Face_eqb x k); reflexivity.
  - destruct (Face_eqb k' x) eqn:E; simpl.
    + apply Face_eqb_eq in E; subst k'.
      destruct (Face_eqb x k); lia.
    + destruct (Face_eqb k' k) eqn:E'; [|exact IH].
      apply Face_eqb_eq in E'; subst k'; rewrite Face_eqb_sym, E; lia.
Qed.

Lemma counter_fold_get (l : list Face) (c : list (Face * nat)) (k : Face) :
  py.counter_get Face_eqb (fold_left (py.counter_incr Face_eqb) l c) k
  = (py.counter_get Face_eqb c k + occurrences k l)%nat.
Proof.
  unfold occurrences; revert c; induction l as [|x l IH]; intros c; simpl; [lia|].
  rewrite IH, counter_get_incr; destruct (Face_eqb x k); simpl; lia.
Qed.

Lemma counter_fold_keys (l : list Face) (c : list (Face * nat)) :
  py.keys (fold_left (py.counter_incr Face_eqb) l c)
  = fold_left (py.set_add Face_eqb) l (py.keys c).
Proof.
  revert c; induction l as [|x l IH]; intros c; simpl; [reflexivity|].
  rewrite IH, (counter_incr_keys Face_eqb Face_eqb_eq); reflexivity.
Qed.

Lemma Counter_keys (l : list Face) : py.keys (py.Counter Face_eqb l) = py.set_of Face_eqb l.
Proof. apply counter_fold_keys. Qed.

Lemma Counter_get (l : list Face) (k : Face) :
  py.counter_get Face_eqb (py.Counter Face_eqb l) k = occurrences k l.
Proof. unfold py.Counter, py.counter_update; rewrite counter_fold_get; reflexivity. Qed.

Lemma counter_values_get (c : list (Face * nat)) :
  NoDup (py.keys c) -> py.values c = map (py.counter_get Face_eqb c) (py.keys c).
Proof.
  intros Hnd; unfold py.values, py.keys; rewrite map_map.
  apply map_ext_in; intros [k n] H; simpl.
  symmetry; apply (counter_get_In Face_eqb Face_eqb_eq); assumption.
Qed.

Lemma occurrences_Permutation (k : Face) (l l' : list Face) :
  Permutation l l' -> occurrences k l = occurrences k l'.
Proof. intros H; apply Permutation_length, Permutation_filter', H. Qed.

Lemma get_max_straight_starter_Permutation (l l' : list Face) :
  Permutation l l' ->
  cardUtils.get_max_straight_starter l = cardUtils.get_max_straight_starter l'.
Proof.
  intros Hp; unfold cardUtils.get_max_straight_starter, cardUtils.sorted_starters.
  f_equal.
  apply (StronglySorted_unique (asc_ok Z.ltb cardUtils.starter_key)).
  - apply sorted_asc_StronglySorted;
      [intros a b; rewrite Z.ltb_lt, Z.ltb_ge | intros a b c; rewrite !Z.ltb_ge]; lia.
  - apply sorted_asc_StronglySorted;
      [intros a b; rewrite Z.ltb_lt, Z.ltb_ge | intros a b c; rewrite !Z.ltb_ge]; lia.
  - rewrite !sorted_Permutation; exact Hp.
  - intros x y _ _ Hxy Hyx; unfold asc_ok in *; apply Z.ltb_ge in Hxy, Hyx.
    apply starter_key_inj; lia.
Qed.

(** The starter picked from [Counter(l)] only depends on [l] as a multiset. *)
Lemma pick_starter_Permutation (l l' : list Face) :
  Permutation l l' ->
  pick_starter (py.Counter Face_eqb l) = pick_starter (py.Counter Face_eqb l').
Proof.
  intros Hp; unfold pick_starter.
  assert (Hk : Permutation (py.keys (py.Counter Face_eqb l)) (py.keys (py.Counter Face_eqb l'))).
  { rewrite !Counter_keys; apply NoDup_Permutation;
      try apply (set_of_NoDup Face_eqb Face_eqb_eq).
    intros k; rewrite !(set_of_In Face_eqb Face_eqb_eq); split; apply Permutation_in;
      [exact Hp | symmetry; exact Hp]. }
  assert (Hg : forall k, py.counter_get Face_eqb (py.Counter Face_eqb l) k
                         = py.counter_get Face_eqb (py.Counter Face_eqb l') k).
  { intros k; rewrite !Counter_get; apply occurrences_Permutation, Hp. }
  assert (Hm : py.max (py.values (py.Counter Face_eqb l))
               = py.max (py.values (py.Counter Face_eqb l'))).
  { apply max_Permutation.
    rewrite !counter_values_get
      by (rewrite Counter_keys; apply (set_of_NoDup Face_eqb Face_eqb_eq)).
    rewrite (map_ext _ _ Hg); apply Permutation_map, Hk. }
  rewrite Hm; destruct (py.max (py.values (py.Counter Face_eqb l'))) as [m|e];
    [|reflexivity]; cbn [bind].
  apply get_max_straight_starter_Permutation.
  rewrite (filter_ext _ (fun face => Nat.eqb (py.counter_get Face_eqb (py.Counter Face_eqb l') face) m))
    by (intros k; rewrite Hg; reflexivity).
  apply Permutation_filter', Hk.
Qed.

Lemma count_sets_concat (sets : list (list Face)) :
  count_sets sets = py.Counter Face_eqb (concat sets).
Proof.
  unfold count_sets, py.Counter, py.counter_update.
  generalize (@nil (Face * nat)) as c.
  induction sets as [|s sets IH]; intros c; simpl; [reflexivity|].
  rewrite fold_left_app; apply IH.
Qed.

(** The search first collects the starter sets of the distinct faces, then
    counts and picks. *)
Lemma most_frequent_starter_unfold (faces : list Face) (n : nat) (invalid : option (list Face)) :
  cardUtils.get_most_frequent_starter_of_sequences_including_faces faces n invalid
  = (sets <- mapM (fun face =>
                     cardUtils.get_starters_of_sequences_including_face face n invalid)
                  (py.set_of Face_eqb faces) ;;
     pick_starter (count_sets sets)).
Proof.
  unfold cardUtils.get_most_frequent_starter_of_sequences_including_faces,
    cardUtils.get_starters_of_sequences_including_faces, count_sets.
  generalize (py.set_of Face_eqb faces) as l.
  generalize (@nil (Face * nat)) as c.
  intros c l; revert c; induction l as [|f l IH]; intros c; simpl; [reflexivity|].
  destruct (cardUtils.get_starters_of_sequences_including_face f n invalid) as [s|e];
    simpl; [|reflexivity].
  rewrite IH.
  destruct (mapM _ l); reflexivity.
Qed.

(** Whatever the order in which the set of faces and each set of starters
    are iterated, the search returns what the embedding computes. *)
Lemma starter_search_order_irrelevant (faces : list Face) (n : nat)
    (invalid : option (list Face)) (sets sets' : list (list Face)) :
  mapM (fun face => cardUtils.get_starters_of_sequences_including_face face n invalid)
       (py.set_of Face_eqb faces) = Ok sets ->
  reordering sets sets' ->
  pick_starter (count_sets sets')
  = cardUtils.get_most_frequent_starter_of_sequences_including_faces faces n invalid.
Proof.
  intros Hsets Hre; rewrite most_frequent_starter_unfold, Hsets; cbn [bind].
  rewrite !count_sets_concat; symmetry.
  apply pick_starter_Permutation, reordering_concat, Hre.
Qed.

(** ** Dispatch of [compare_hands] *)

Lemma compare_hands_same_rank (A B : list Card) (r : ranks.Rank) :
  ranks.get_rank A None = Ok r -> ranks.get_rank B None = Ok r ->
  pokerLogic.compare_hands A B =
    if py.contains ranks.Rank_eqb r pokerLogic.FACE_FREQUENCY_RANKS
    then pokerLogic.compare_by_face_frequency A B
    else if py.contains ranks.Rank_eqb r pokerLogic.SEQUENTIAL_RANKS
    then pokerLogic.compare_by_straight_starter A B
    else Ok (pokerLogic.compare_by_value A B).
Proof.
  intros HA HB; unfold pokerLogic.compare_hands; rewrite HA, HB; cbn [bind].
  unfold ranks.Rank_gtb, ranks.Rank_ltb; rewrite Z.gtb_ltb, Z.ltb_irrefl; reflexivity.
Qed.

(** ** Hands given up to the order of their cards *)

Lemma default_rank_by_value (r r0 : ranks.Rank) :
  In r ranks.DEFAULT_RANKS -> In r0 ranks.DEFAULT_RANKS ->
  ranks.value r = ranks.value r0 -> r = r0.
Proof.
  simpl; intros H H0 E.
  repeat (destruct H as [<-|H]; [|]); try contradiction;
    repeat (destruct H0 as [<-|H0]; [|]); try contradiction;
    solve [reflexivity | discriminate E].
Qed.

Lemma get_rank_by_value (cards : list Card) (r0 : ranks.Rank) :
  length cards = ranks.REQUIRED_LENGTH -> In r0 ranks.DEFAULT_RANKS ->
  rank_value_is (ranks.value r0) (ranks.get_rank cards None) = true ->
  ranks.get_rank cards None = Ok r0.
Proof.
  intros Hlen H0 Hv.
  destruct (get_rank_default_cases cards Hlen) as (pre & r & post & E & Hr & _).
  rewrite Hr in *; simpl in Hv; f_equal.
  apply default_rank_by_value; [rewrite E; apply in_elt | exact H0 | apply Z.eqb_eq, Hv].
Qed.

Lemma get_rank_any_order (target : list Card) (r0 : ranks.Rank) :
  length target = ranks.REQUIRED_LENGTH -> In r0 ranks.DEFAULT_RANKS ->
  forallb (fun cards => rank_value_is (ranks.value r0) (ranks.get_rank cards None))
          (permutations target) = true ->
  forall cards, Permutation cards target -> ranks.get_rank cards None = Ok r0.
Proof.
  intros Hlen H0 Hall cards Hp; apply get_rank_by_value; auto.
  - rewrite (Permutation_length Hp); exact Hlen.
  - apply (forall_permutations target _ Hall cards Hp).
Qed.

Lemma compare_by_value_Permutation (A A' B B' : list Card) :
  Permutation A A' -> Permutation B B' ->
  pokerLogic.compare_by_value A B = pokerLogic.compare_by_value A' B'.
Proof.
  intros HA HB; unfold pokerLogic.compare_by_value.
  rewrite !first_value_difference_eq, !first_difference_values.
  rewrite (sorted_values_unique A' (py.sorted Card_ltb (fun c => c) true A)
             (py.sorted Card_ltb (fun c => c) true A')).
  - rewrite (sorted_values_unique B' (py.sorted Card_ltb (fun c => c) true B)
               (py.sorted Card_ltb (fun c => c) true B')).
    + rewrite (Permutation_length HA), (Permutation_length HB); reflexivity.
    + destruct (sorted_by_value_spec B) as [Hp Hs]; split; [rewrite Hp; exact HB | exact Hs].
    + apply sorted_by_value_spec.
  - destruct (sorted_by_value_spec A) as [Hp Hs]; split; [rewrite Hp; exact HA | exact Hs].
  - apply sorted_by_value_spec.
Qed.

Lemma group_of_length (cards : list Card) (f : Face) :
  length (group_of Face_eqb face cards f) = occurrences f (cardUtils.get_faces cards).
Proof.
  unfold group_of, occurrences, cardUtils.get_faces.
  induction cards as [|card cards IH]; simpl; [reflexivity|].
  destruct (Face_eqb (face card) f); simpl; rewrite IH; reflexivity.
Qed.

(** The sorted face groups of a hand that shows exactly two faces. *)
Lemma two_face_groups (cards : list Card) (f1 f2 : Face) :
  (forall f, In f (cardUtils.get_faces cards) <-> f = f1 \/ f = f2) -> f1 <> f2 ->
  cardUtils.size_value_ltb
    (occurrences f1 (cardUtils.get_faces cards), Face_value f1)
    (occurrences f2 (cardUtils.get_faces cards), Face_value f2) = false ->
  sorted_groups cards
  = [(f1, group_of Face_eqb face cards f1); (f2, group_of Face_eqb face cards f2)].
Proof.
  intros Hin Hne Hlt; symmetry; apply sorted_face_groups_unique.
  split; [|split].
  - simpl; constructor; [intros [E|[]]; congruence|]; constructor; [intros []|constructor].
  - intros f g; rewrite Hin; simpl; split.
    + intros [E|[E|[]]]; inversion E; subst; auto.
    + intros [[->| ->] ->]; auto.
  - apply SSorted_cons;
      [apply SSorted_cons; [apply SSorted_nil | apply Forall_nil]|].
    apply Forall_cons; [|apply Forall_nil].
    unfold group_size_value; simpl; rewrite !group_of_length; exact Hlt.
Qed.

(** A hand with a triple and a pair classifies as Full House whatever its
    suits are: the ranks above Full House fail on the faces alone. *)
Lemma full_house_by_faces (cards : list Card) :
  length cards = ranks.REQUIRED_LENGTH ->
  sequence_check (cardUtils.get_faces cards) = Ok false ->
  ranks.has_required_group Face_eqb (cardUtils.get_faces cards) 4 1 = false ->
  ranks.has_required_group Face_eqb (cardUtils.get_faces cards) 3 1 = true ->
  ranks.has_required_group Face_eqb (cardUtils.get_faces cards) 2 1 = true ->
  ranks.get_rank cards None = Ok ranks.FULL_HOUSE.
Proof.
  intros Hlen Hseq H4 H3 H2.
  pose proof (length_validator_accepts cards Hlen) as Hl.
  rewrite <- sequence_validator_faces in Hseq.
  assert (Hf4 : ranks.create_face_frequency_validator [(4, 1)]%nat cards = Ok false).
  { unfold ranks.create_face_frequency_validator, cardUtils.Hand; simpl; rewrite H4; reflexivity. }
  assert (Hf3 : ranks.create_face_frequency_validator [(3, 1); (2, 1)]%nat cards = Ok true).
  { unfold ranks.create_face_frequency_validator, cardUtils.Hand; simpl.
    rewrite H3, H2; reflexivity. }
  unfold ranks.get_rank, ranks.DEFAULT_RANKS.
  rewrite first_rank_skip by (unfold ranks.ROYAL_FLUSH, ranks.Rank_init; run_validators).
  rewrite first_rank_skip by (unfold ranks.STRAIGHT_FLUSH, ranks.Rank_init; run_validators).
  rewrite first_rank_skip by (unfold ranks.FOUR_OF_A_KIND, ranks.Rank_init; run_validators).
  apply first_rank_hit; unfold ranks.FULL_HOUSE, ranks.Rank_init; run_validators.
Qed.

Lemma full_house_any_order (target : list Face) :
  length target = ranks.REQUIRED_LENGTH ->
  forallb (fun faces =>
             is_Ok_false (sequence_check faces)
             && negb (ranks.has_required_group Face_eqb faces 4 1)
             && ranks.has_required_group Face_eqb faces 3 1
             && ranks.has_required_group Face_eqb faces 2 1)
          (permutations target) = true ->
  forall cards, Permutation (cardUtils.get_faces cards) target ->
                ranks.get_rank cards None = Ok ranks.FULL_HOUSE.
Proof.
  intros Hlen Hall cards Hp.
  pose proof (forall_permutations target _ Hall _ Hp) as H.
  rewrite !andb_true_iff, negb_true_iff in H; destruct H as (((Hs & H4) & H3) & H2).
  apply full_house_by_faces; auto.
  - apply Permutation_length in Hp; unfold cardUtils.get_faces in Hp.
    rewrite length_map in Hp; rewrite Hp; exact Hlen.
  - destruct (sequence_check (cardUtils.get_faces cards)) as [[|]|]; simpl in Hs;
      congruence.
Qed.

(** C5: two five-card hands that both classify as Flush are compared card
    by card after sorting each hand by descending raw value; the first
    position where the values differ decides, and without such a position
    the result is EQUAL.  The 2-5-7-9-K of spades, in any order, loses to
    the 3-5-7-9-K of hearts, in any order. *)
Theorem flush_compared_by_value :
  (forall A B : list Card,
     length A = 5%nat -> length B = 5%nat ->
     ranks.get_rank A None = Ok ranks.FLUSH -> ranks.get_rank B None = Ok ranks.FLUSH ->
     forall SA SB,
       sorted_by_value_desc A SA -> sorted_by_value_desc B SB ->
       exists res,
         pokerLogic.compare_hands A B = Ok res /\
         decided_by_first_difference compare_values
           (map Card_value SA) (map Card_value SB) pokerLogic.EQUAL res) /\
  (forall A B : list Card,
     Permutation A spades_2_5_7_9_K -> Permutation B hearts_3_5_7_9_K ->
     pokerLogic.compare_hands A B = Ok pokerLogic.LESSER).
Proof.
  assert (Hflush : forall A B,
            ranks.get_rank A None = Ok ranks.FLUSH -> ranks.get_rank B None = Ok ranks.FLUSH ->
            pokerLogic.compare_hands A B = Ok (pokerLogic.compare_by_value A B)).
  { intros A B HA HB; rewrite (compare_hands_same_rank A B _ HA HB); reflexivity. }
  split.
  - intros A B HlA HlB HA HB SA SB HSA HSB.
    rewrite (Hflush A B HA HB).
    eexists; split; [reflexivity|].
    unfold pokerLogic.compare_by_value.
    rewrite first_value_difference_eq, first_difference_values.
    rewrite (sorted_values_unique A _ SA (sorted_by_value_spec A) HSA).
    rewrite (sorted_values_unique B _ SB (sorted_by_value_spec B) HSB).
    rewrite HlA, HlB.
    change (pokerLogic.compare_length 5 5) with pokerLogic.EQUAL.
    apply first_difference_decides.
  - intros A B HA HB.
    assert (Hin : In ranks.FLUSH ranks.DEFAULT_RANKS) by (simpl; tauto).
    rewrite Hflush.
    + rewrite (compare_by_value_Permutation A _ B _ HA HB); reflexivity.
    + revert A HA; apply get_rank_any_order; [reflexivity | exact Hin|].
      vm_compute; reflexivity.
    + revert B HB; apply get_rank_any_order; [reflexivity | exact Hin|].
      vm_compute; reflexivity.
Qed.

Lemma flush_compared_by_value_witness :
  (exists res,
     pokerLogic.compare_hands spades_2_5_7_9_K hearts_3_5_7_9_K = Ok res /\
     decided_by_first_difference compare_values
       (map Card_value (rev spades_2_5_7_9_K)) (map Card_value (rev hearts_3_5_7_9_K))
       pokerLogic.EQUAL res) /\
  pokerLogic.compare_hands (rev spades_2_5_7_9_K) hearts_3_5_7_9_K = Ok pokerLogic.LESSER.
Proof.
  destruct flush_compared_by_value as [H1 H2].
  split; [|apply H2; [symmetry; apply Permutation_rev | reflexivity]].
  apply (H1 spades_2_5_7_9_K hearts_3_5_7_9_K eq_refl eq_refl).
  - vm_compute; reflexivity.
  - vm_compute; reflexivity.
  - split.
    + symmetry; apply Permutation_rev.
    + repeat (constructor;
              [|repeat (constructor; [vm_compute; discriminate|]); constructor]);
        constructor.
  - split.
    + symmetry; apply Permutation_rev.
    + repeat (constructor;
              [|repeat (constructor; [vm_compute; discriminate|]); constructor]);
        constructor.
Defined.

Lemma first_difference_ext {X : Type} (cmp cmp' : X -> X -> pokerLogic.Comparison)
    (pairs : list (X * X)) :
  (forall x y, cmp x y = cmp' x y) -> first_difference cmp pairs = first_difference cmp' pairs.
Proof.
  intros H; induction pairs as [|[x y] pairs IH]; simpl; [reflexivity|].
  rewrite H, IH; reflexivity.
Qed.

Lemma In_faces_Permutation (faces target : list Face) (f1 f2 : Face) :
  Permutation faces target -> (forall f, In f target <-> f = f1 \/ f = f2) ->
  forall f, In f faces <-> f = f1 \/ f = f2.
Proof.
  intros Hp Ht f; rewrite <- Ht; split; apply Permutation_in;
    [exact Hp | symmetry; exact Hp].
Qed.

(** C4: two five-card hands that classify as the same frequency-category
    rank are compared through their face groups, listed by descending
    (group size, face value): the first pair of groups that differs decides,
    and when no compared pair differs the result is the three-way
    comparison of the numbers of groups: GREATER when the first hand has
    more groups, LESSER when it has fewer, EQUAL otherwise.
    K-K-K-2-2 beats Q-Q-Q-A-A, whatever the suits and the order of the
    cards. *)
Theorem face_frequency_compared_by_groups :
  (forall (A B : list Card) (r : ranks.Rank),
     length A = 5%nat -> length B = 5%nat ->
     In r pokerLogic.FACE_FREQUENCY_RANKS ->
     ranks.get_rank A None = Ok r -> ranks.get_rank B None = Ok r ->
     forall GA GB,
       sorted_face_groups A GA -> sorted_face_groups B GB ->
       exists res,
         pokerLogic.compare_hands A B = Ok res /\
         decided_by_first_difference compare_groups GA GB
           (compare_counts (length GA) (length GB)) res) /\
  (forall A B : list Card,
     Permutation (cardUtils.get_faces A) [KING; KING; KING; TWO; TWO] ->
     Permutation (cardUtils.get_faces B) [QUEEN; QUEEN; QUEEN; ACE; ACE] ->
     pokerLogic.compare_hands A B = Ok pokerLogic.GREATER).
Proof.
  split.
  - intros A B r _ _ Hr HA HB GA GB HGA HGB.
    rewrite (compare_hands_same_rank A B r HA HB).
    assert (Hc : py.contains ranks.Rank_eqb r pokerLogic.FACE_FREQUENCY_RANKS = true).
    { unfold pokerLogic.FACE_FREQUENCY_RANKS in Hr; simpl in Hr.
      repeat (destruct Hr as [<-|Hr]; [reflexivity|]); contradiction. }
    rewrite Hc, compare_by_face_frequency_eq.
    apply sorted_face_groups_unique in HGA, HGB; subst GA GB.
    eexists; split; [reflexivity|].
    rewrite (first_difference_ext _ compare_groups _ compare_group_items_eq).
    rewrite compare_length_counts.
    apply first_difference_decides.
  - intros A B HA HB.
    assert (HrA : ranks.get_rank A None = Ok ranks.FULL_HOUSE).
    { revert A HA; apply full_house_any_order; vm_compute; reflexivity. }
    assert (HrB : ranks.get_rank B None = Ok ranks.FULL_HOUSE).
    { revert B HB; apply full_house_any_order; vm_compute; reflexivity. }
    rewrite (compare_hands_same_rank A B _ HrA HrB).
    change (py.contains ranks.Rank_eqb ranks.FULL_HOUSE pokerLogic.FACE_FREQUENCY_RANKS)
      with true; cbv iota.
    rewrite compare_by_face_frequency_eq.
    rewrite (two_face_groups A KING TWO), (two_face_groups B QUEEN ACE).
    + unfold py.zip; simpl combine; cbn [first_difference].
      rewrite compare_group_items_eq; unfold compare_groups, group_size_value; simpl fst; simpl snd.
      rewrite !group_of_length.
      rewrite (occurrences_Permutation KING _ _ HA), (occurrences_Permutation QUEEN _ _ HB).
      reflexivity.
    + apply (In_faces_Permutation _ _ QUEEN ACE HB); simpl; intuition.
    + discriminate.
    + rewrite (occurrences_Permutation QUEEN _ _ HB), (occurrences_Permutation ACE _ _ HB).
      reflexivity.
    + apply (In_faces_Permutation _ _ KING TWO HA); simpl; intuition.
    + discriminate.
    + rewrite (occurrences_Permutation KING _ _ HA), (occurrences_Permutation TWO _ _ HA).
      reflexivity.
Qed.

Lemma face_frequency_compared_by_groups_witness :
  (exists res,
     pokerLogic.compare_hands kings_full_of_twos queens_full_of_aces = Ok res /\
     decided_by_first_difference compare_groups
       [(KING, [mkCard KING SPADES; mkCard KING HEARTS; mkCard KING CLOVERS]);
        (TWO, [mkCard TWO SPADES; mkCard TWO HEARTS])]
       [(QUEEN, [mkCard QUEEN SPADES; mkCard QUEEN HEARTS; mkCard QUEEN CLOVERS]);
        (ACE, [mkCard ACE SPADES; mkCard ACE HEARTS])]
       (compare_counts 2 2) res) /\
  pokerLogic.compare_hands kings_full_of_twos queens_full_of_aces = Ok pokerLogic.GREATER.
Proof.
  destruct face_frequency_compared_by_groups as [H1 H2].
  split; [|apply H2; reflexivity].
  apply (H1 kings_full_of_twos queens_full_of_aces ranks.FULL_HOUSE eq_refl eq_refl).
  - simpl; tauto.
  - vm_compute; reflexivity.
  - vm_compute; reflexivity.
  - split; [|split].
    + repeat constructor; simpl; intuition discriminate.
    + intros f g; simpl; split.
      * intros [E|[E|[]]]; inversion E; subst; split; auto 10.
      * intros [[<-|[<-|[<-|[<-|[<-|[]]]]]] ->]; vm_compute; auto.
    + repeat constructor.
  - split; [|split].
    + repeat constructor; simpl; intuition discriminate.
    + intros f g; simpl; split.
      * intros [E|[E|[]]]; inversion E; subst; split; auto 10.
      * intros [[<-|[<-|[<-|[<-|[<-|[]]]]]] ->]; vm_compute; auto.
    + repeat constructor.
Defined.

(** ** Antisymmetry *)

Lemma compare_by_straight_starter_flip (A B : list Card) :
  A <> [] -> B <> [] ->
  exists c, pokerLogic.compare_by_straight_starter A B = Ok c /\
            pokerLogic.compare_by_straight_starter B A = Ok (flip c).
Proof.
  intros HA HB; unfold pokerLogic.compare_by_straight_starter, cardUtils.Hand.
  destruct (default_most_frequent_starter_total (cardUtils.get_faces A)) as [sA ->].
  { destruct A; [congruence | discriminate]. }
  destruct (default_most_frequent_starter_total (cardUtils.get_faces B)) as [sB ->].
  { destruct B; [congruence | discriminate]. }
  cbn [bind].
  rewrite (Face_eqb_sym sB sA), (starter_greater_lesser_swap sB sA).
  destruct (Face_eqb sA sB) eqn:E; [eexists; split; reflexivity|].
  apply Face_eqb_neq in E.
  destruct starter_precedence_cases with (a := sA) (b := sB) as [[H _]|[(_ & -> & ->)|(_ & -> & ->)]];
    [contradiction | |]; eexists; split; reflexivity.
Qed.

Lemma contains_rank_value (a b : ranks.Rank) (rs : list ranks.Rank) :
  ranks.value a = ranks.value b ->
  py.contains ranks.Rank_eqb a rs = py.contains ranks.Rank_eqb b rs.
Proof. intros H; unfold py.contains, ranks.Rank_eqb; rewrite H; reflexivity. Qed.

Lemma compare_hands_flip (A B : list Card) :
  length A = ranks.REQUIRED_LENGTH -> length B = ranks.REQUIRED_LENGTH ->
  exists c, pokerLogic.compare_hands A B = Ok c /\ pokerLogic.compare_hands B A = Ok (flip c).
Proof.
  intros HlA HlB.
  destruct (get_rank_default_cases A HlA) as (_ & rA & _ & _ & HA & _).
  destruct (get_rank_default_cases B HlB) as (_ & rB & _ & _ & HB & _).
  unfold pokerLogic.compare_hands; rewrite HA, HB; cbn [bind].
  unfold ranks.Rank_gtb, ranks.Rank_ltb; rewrite !Z.gtb_ltb.
  destruct (Z.lt_total (ranks.value rA) (ranks.value rB)) as [H|[H|H]].
  - assert (E1 : (ranks.value rA <? ranks.value rB) = true) by (apply Z.ltb_lt; lia).
    assert (E2 : (ranks.value rB <? ranks.value rA) = false) by (apply Z.ltb_ge; lia).
    rewrite ?E1, ?E2; eexists; split; reflexivity.
  - rewrite H, Z.ltb_irrefl.
    rewrite !(contains_rank_value rA rB _ H).
    destruct (py.contains ranks.Rank_eqb rB pokerLogic.FACE_FREQUENCY_RANKS);
      [apply compare_by_face_frequency_flip|].
    destruct (py.contains ranks.Rank_eqb rB pokerLogic.SEQUENTIAL_RANKS).
    + apply compare_by_straight_starter_flip; intros ->; discriminate.
    + eexists; split; [reflexivity|]; f_equal; apply compare_by_value_flip.
  - assert (E1 : (ranks.value rA <? ranks.value rB) = false) by (apply Z.ltb_ge; lia).
    assert (E2 : (ranks.value rB <? ranks.value rA) = true) by (apply Z.ltb_lt; lia).
    rewrite ?E1, ?E2; eexists; split; reflexivity.
Qed.

(** C2: on five-card hands [compare_hands] never raises and is
    antisymmetric: swapping the hands inverts the result, GREATER with
    LESSER and EQUAL with EQUAL. *)
Theorem compare_hands_antisymmetric (A B : list Card) :
  length A = 5%nat -> length B = 5%nat ->
  (exists c, pokerLogic.compare_hands A B = Ok c /\
             pokerLogic.compare_hands B A = Ok (flip c)) /\
  (pokerLogic.compare_hands A B = Ok pokerLogic.GREATER <->
   pokerLogic.compare_hands B A = Ok pokerLogic.LESSER) /\
  (pokerLogic.compare_hands A B = Ok pokerLogic.EQUAL <->
   pokerLogic.compare_hands B A = Ok pokerLogic.EQUAL) /\
  (pokerLogic.compare_hands A B = Ok pokerLogic.LESSER <->
   pokerLogic.compare_hands B A = Ok pokerLogic.GREATER).
Proof.
  intros HlA HlB.
  destruct (compare_hands_flip A B HlA HlB) as (c & HAB & HBA).
  split; [exists c; auto|].
  rewrite HAB, HBA.
  repeat split; intros H; destruct c; simpl in *; solve [reflexivity | discriminate H].
Qed.

Lemma compare_hands_antisymmetric_witness :
  pokerLogic.compare_hands kings_full_of_twos queens_full_of_aces = Ok pokerLogic.GREATER <->
  pokerLogic.compare_hands queens_full_of_aces kings_full_of_twos = Ok pokerLogic.LESSER.
Proof.
  destruct (compare_hands_antisymmetric kings_full_of_twos queens_full_of_aces
              eq_refl eq_refl) as (_ & H & _).
  exact H.
Defined.

(** * Further properties of the code *)

(** ** Counting with [Counter] and [has_required_group] *)

Section CountingFacts.
Context {K : Type} (eqb : K -> K -> bool).
Hypothesis eqb_spec : forall a b, eqb a b = true <-> a = b.

Lemma eqb_sym_gen (a b : K) : eqb a b = eqb b a.
Proof.
  destruct (eqb a b) eqn:E, (eqb b a) eqn:E'; try reflexivity.
  - apply eqb_spec in E; subst; rewrite (eqb_refl' eqb eqb_spec) in E'; discriminate.
  - apply eqb_spec in E'; subst; rewrite (eqb_refl' eqb eqb_spec) in E; discriminate.
Qed.

Lemma counter_get_incr_gen (c : list (K * nat)) (x k : K) :
  py.counter_get eqb (py.counter_incr eqb c x) k
  = (py.counter_get eqb c k + if eqb x k then 1 else 0)%nat.
Proof.
  induction c as [|[k' n] c IH]; simpl.
  - destruct (eqb x k); reflexivity.
  - destruct (eqb k' x) eqn:E; simpl.
    + apply eqb_spec in E; subst k'.
      destruct (eqb x k); lia.
    + destruct (eqb k' k) eqn:E'; [|exact IH].
      apply eqb_spec in E'; subst k'; rewrite eqb_sym_gen, E; lia.
Qed.

Lemma Counter_get_gen (l : list K) (k : K) :
  py.counter_get eqb (py.Counter eqb l) k = py.count eqb k l.
Proof.
  unfold py.Counter, py.counter_update, py.count.
  change (py.counter_get eqb (fold_left (py.counter_incr eqb) l []) k)
    with (py.counter_get eqb (fold_left (py.counter_incr eqb) l []) k).
  assert (H : forall c, py.counter_get eqb (fold_left (py.counter_incr eqb) l c) k
                        = (py.counter_get eqb c k
                           + length (filter (fun y => eqb y k) l))%nat).
  { induction l as [|x l IH]; intros c; simpl; [lia|].
    rewrite IH, counter_get_incr_gen; destruct (eqb x k); simpl; lia. }
  rewrite H; reflexivity.
Qed.

Lemma Counter_keys_gen (l : list K) : py.keys (py.Counter eqb l) = py.set_of eqb l.
Proof.
  unfold py.Counter, py.counter_update, py.set_of.
  change (@nil K) with (py.keys (@nil (K * nat))).
  generalize (@nil (K * nat)) as c.
  induction l as [|x l IH]; intros c; simpl; [reflexivity|].
  rewrite IH, (counter_incr_keys eqb eqb_spec); reflexivity.
Qed.

Lemma Counter_values_gen (l : list K) :
  py.values (py.Counter eqb l) = map (fun k => py.count eqb k l) (py.set_of eqb l).
Proof.
  rewrite <- Counter_keys_gen.
  unfold py.values, py.keys; rewrite map_map.
  apply map_ext_in; intros [k n] H; simpl.
  rewrite <- Counter_get_gen; symmetry.
  apply (counter_get_In eqb eqb_spec); [|exact H].
  rewrite Counter_keys_gen; apply (set_of_NoDup eqb eqb_spec).
Qed.

Lemma count_Permutation (k : K) (l l' : list K) :
  Permutation l l' -> py.count eqb k l = py.count eqb k l'.
Proof. intros H; apply Permutation_length, Permutation_filter', H. Qed.

Lemma count_pos_In (k : K) (l : list K) : (0 < py.count eqb k l)%nat <-> In k l.
Proof.
  unfold py.count; split.
  - intros H; destruct (filter (fun y => eqb y k) l) as [|y r] eqn:E; [simpl in H; lia|].
    assert (Hy : In y (filter (fun y => eqb y k) l)) by (rewrite E; left; reflexivity).
    apply filter_In in Hy; destruct Hy as [Hy Hk]; apply eqb_spec in Hk; subst; exact Hy.
  - intros H.
    assert (Hk : In k (filter (fun y => eqb y k) l)).
    { apply filter_In; split; [exact H | apply (eqb_refl' eqb eqb_spec)]. }
    destruct (filter (fun y => eqb y k) l); [contradiction | simpl; lia].
Qed.

Lemma set_of_Permutation (l l' : list K) :
  Permutation l l' -> Permutation (py.set_of eqb l) (py.set_of eqb l').
Proof.
  intros H; apply NoDup_Permutation; try apply (set_of_NoDup eqb eqb_spec).
  intros k; rewrite !(set_of_In eqb eqb_spec); split; apply Permutation_in;
    [exact H | symmetry; exact H].
Qed.

Lemma count_valid_groups (values : list nat) (size : nat) :
  fold_left (fun n frequency => if Nat.eqb frequency size then S n else n) values 0%nat
  = length (filter (fun frequency => Nat.eqb frequency size) values).
Proof.
  assert (H : forall acc,
             fold_left (fun n frequency => if Nat.eqb frequency size then S n else n) values acc
             = (acc + length (filter (fun frequency => Nat.eqb frequency size) values))%nat).
  { induction values as [|v values IH]; intros acc; simpl; [lia|].
    rewrite IH; destruct (Nat.eqb v size); simpl; lia. }
  apply H.
Qed.

(** What [has_required_group] counts: the distinct attributes that occur
    exactly [group_size] times. *)
Lemma has_required_group_eq (attributes : list K) (group_size num_of_groups : nat) :
  ranks.has_required_group eqb attributes group_size num_of_groups
  = Nat.eqb (length (filter (fun k => Nat.eqb (py.count eqb k attributes) group_size)
                            (py.set_of eqb attributes)))
            num_of_groups.
Proof.
  unfold ranks.has_required_group.
  rewrite count_valid_groups, Counter_values_gen.
  f_equal.
  induction (py.set_of eqb attributes) as [|k ks IH]; simpl; [reflexivity|].
  destruct (Nat.eqb (py.count eqb k attributes) group_size); simpl; rewrite IH; reflexivity.
Qed.

Lemma has_required_group_spec (attributes : list K) (group_size num_of_groups : nat) :
  ranks.has_required_group eqb attributes group_size num_of_groups = true <->
  exists ks, NoDup ks /\
             (forall k, In k ks <-> In k attributes /\ py.count eqb k attributes = group_size) /\
             length ks = num_of_groups.
Proof.
  rewrite has_required_group_eq, Nat.eqb_eq.
  set (fs := filter (fun k => Nat.eqb (py.count eqb k attributes) group_size)
                    (py.set_of eqb attributes)).
  assert (Hnd : NoDup fs) by (apply NoDup_filter, (set_of_NoDup eqb eqb_spec)).
  assert (Hin : forall k, In k fs <-> In k attributes /\ py.count eqb k attributes = group_size).
  { intros k; unfold fs; rewrite filter_In, (set_of_In eqb eqb_spec), Nat.eqb_eq; reflexivity. }
  split.
  - intros H; exists fs; auto.
  - intros (ks & Hks & Hk & <-).
    apply Permutation_length, NoDup_Permutation; auto.
    intros k; rewrite Hin, Hk; reflexivity.
Qed.

Lemma has_required_group_Permutation (l l' : list K) (group_size num_of_groups : nat) :
  Permutation l l' ->
  ranks.has_required_group eqb l group_size num_of_groups
  = ranks.has_required_group eqb l' group_size num_of_groups.
Proof.
  intros H; rewrite !has_required_group_eq; f_equal.
  apply Permutation_length.
  rewrite (filter_ext _ (fun k => Nat.eqb (py.count eqb k l') group_size))
    by (intros k; rewrite (count_Permutation k l l' H); reflexivity).
  apply Permutation_filter', set_of_Permutation, H.
Qed.
End CountingFacts.

(** ** Scores *)

Lemma compare_size_value_EQUAL (a b : nat * Z) :
  compare_size_value a b = pokerLogic.EQUAL <-> a = b.
Proof.
  destruct a as [n1 v1], b as [n2 v2]; unfold compare_size_value, cardUtils.size_value_ltb; simpl.
  destruct (Nat.ltb_spec n1 n2), (Nat.ltb_spec n2 n1), (Nat.eqb_spec n1 n2), (Nat.eqb_spec n2 n1),
    (Z.ltb_spec v1 v2), (Z.ltb_spec v2 v1); simpl; split; intros Heq;
    try discriminate Heq; try reflexivity; try (inversion Heq; lia); try (f_equal; lia).
Qed.

Lemma compare_size_value_GREATER_trans (a b c : nat * Z) :
  compare_size_value a b = pokerLogic.GREATER -> compare_size_value b c = pokerLogic.GREATER ->
  compare_size_value a c = pokerLogic.GREATER.
Proof.
  destruct a as [n1 v1], b as [n2 v2], c as [n3 v3];
    unfold compare_size_value, cardUtils.size_value_ltb; simpl.
  destruct (Nat.ltb_spec n1 n2), (Nat.ltb_spec n2 n1), (Nat.eqb_spec n1 n2), (Nat.eqb_spec n2 n1),
    (Z.ltb_spec v1 v2), (Z.ltb_spec v2 v1); simpl; intros G1; try discriminate G1; try lia;
    destruct (Nat.ltb_spec n2 n3), (Nat.ltb_spec n3 n2), (Nat.eqb_spec n2 n3), (Nat.eqb_spec n3 n2),
      (Z.ltb_spec v2 v3), (Z.ltb_spec v3 v2); simpl; intros G2; try discriminate G2; try lia;
    destruct (Nat.ltb_spec n1 n3), (Nat.ltb_spec n3 n1), (Nat.eqb_spec n1 n3), (Nat.eqb_spec n3 n1),
      (Z.ltb_spec v1 v3), (Z.ltb_spec v3 v1); simpl; try reflexivity; lia.
Qed.

Lemma lex_compare_cons (x y : nat * Z) (xs ys : list (nat * Z)) :
  lex_compare (x :: xs) (y :: ys)
  = match compare_size_value x y with
    | pokerLogic.EQUAL => lex_compare xs ys
    | r => r
    end.
Proof.
  unfold lex_compare; simpl.
  destruct (compare_size_value x y); reflexivity.
Qed.

Lemma lex_compare_flip (xs ys : list (nat * Z)) :
  lex_compare ys xs = flip (lex_compare xs ys).
Proof.
  unfold lex_compare.
  rewrite (first_difference_flip compare_size_value compare_size_value_flip).
  destruct (first_difference compare_size_value (py.zip xs ys)); simpl;
    [reflexivity | apply compare_length_flip].
Qed.

Lemma lex_compare_EQUAL (xs ys : list (nat * Z)) :
  lex_compare xs ys = pokerLogic.EQUAL <-> xs = ys.
Proof.
  revert ys; induction xs as [|x xs IH]; intros [|y ys].
  - split; reflexivity.
  - split; discriminate.
  - split; discriminate.
  - rewrite lex_compare_cons.
    destruct (compare_size_value x y) eqn:E.
    + split; [discriminate|]; intros H; inversion H; subst.
      rewrite (proj2 (compare_size_value_EQUAL y y) eq_refl) in E; discriminate.
    + apply compare_size_value_EQUAL in E; subst y.
      rewrite IH; split; [intros ->; reflexivity | intros H; inversion H; reflexivity].
    + split; [discriminate|]; intros H; inversion H; subst.
      rewrite (proj2 (compare_size_value_EQUAL y y) eq_refl) in E; discriminate.
Qed.

Lemma lex_compare_GREATER_trans (xs ys zs : list (nat * Z)) :
  lex_compare xs ys = pokerLogic.GREATER -> lex_compare ys zs = pokerLogic.GREATER ->
  lex_compare xs zs = pokerLogic.GREATER.
Proof.
  revert ys zs; induction xs as [|x xs IH]; intros [|y ys] [|z zs];
    try discriminate; try reflexivity.
  rewrite !lex_compare_cons.
  destruct (compare_size_value x y) eqn:Exy; try discriminate;
    destruct (compare_size_value y z) eqn:Eyz; try discriminate; intros H1 H2.
  - rewrite (compare_size_value_GREATER_trans x y z Exy Eyz); reflexivity.
  - apply compare_size_value_EQUAL in Eyz; subst z; rewrite Exy; reflexivity.
  - apply compare_size_value_EQUAL in Exy; subst y; rewrite Eyz; reflexivity.
  - apply compare_size_value_EQUAL in Exy, Eyz; subst y z.
    rewrite (proj2 (compare_size_value_EQUAL x x) eq_refl); eauto.
Qed.

Lemma compare_scores_flip (a b : Z * list (nat * Z)) :
  compare_scores b a = flip (compare_scores a b).
Proof.
  unfold compare_scores; rewrite !Z.gtb_ltb.
  destruct (Z.ltb_spec (fst a) (fst b)), (Z.ltb_spec (fst b) (fst a));
    simpl; try reflexivity; try lia.
  apply lex_compare_flip.
Qed.

Lemma compare_scores_EQUAL (a b : Z * list (nat * Z)) :
  compare_scores a b = pokerLogic.EQUAL <-> a = b.
Proof.
  destruct a as [va ka], b as [vb kb]; unfold compare_scores; simpl; rewrite Z.gtb_ltb.
  destruct (Z.ltb_spec vb va), (Z.ltb_spec va vb).
  - lia.
  - split; [discriminate | intros Heq; inversion Heq; lia].
  - split; [discriminate | intros Heq; inversion Heq; lia].
  - rewrite lex_compare_EQUAL; split;
      [intros ->; f_equal; lia | intros Heq; inversion Heq; reflexivity].
Qed.

Lemma compare_scores_GREATER_trans (a b c : Z * list (nat * Z)) :
  compare_scores a b = pokerLogic.GREATER -> compare_scores b c = pokerLogic.GREATER ->
  compare_scores a c = pokerLogic.GREATER.
Proof.
  destruct a as [va ka], b as [vb kb], c as [vc kc]; unfold compare_scores; simpl.
  rewrite !Z.gtb_ltb.
  destruct (Z.ltb_spec vb va), (Z.ltb_spec va vb); try lia; try discriminate;
    destruct (Z.ltb_spec vc vb), (Z.ltb_spec vb vc); try lia; try discriminate;
    destruct (Z.ltb_spec vc va), (Z.ltb_spec va vc); try lia; try reflexivity.
  apply lex_compare_GREATER_trans.
Qed.

(** The comparison of scores is the comparison of a total order. *)
Lemma compare_scores_compose (a b c : Z * list (nat * Z)) :
  compare_scores a b <> pokerLogic.LESSER -> compare_scores b c <> pokerLogic.LESSER ->
  compare_scores a c <> pokerLogic.LESSER /\
  (compare_scores a c = pokerLogic.EQUAL ->
   compare_scores a b = pokerLogic.EQUAL /\ compare_scores b c = pokerLogic.EQUAL).
Proof.
  intros Hab Hbc.
  destruct (compare_scores a b) eqn:Eab; try congruence;
    destruct (compare_scores b c) eqn:Ebc; try congruence.
  - rewrite (compare_scores_GREATER_trans a b c Eab Ebc); split; discriminate.
  - apply compare_scores_EQUAL in Ebc; subst c; rewrite Eab; split; discriminate.
  - apply compare_scores_EQUAL in Eab; subst b; rewrite Ebc; split; discriminate.
  - apply compare_scores_EQUAL in Eab, Ebc; subst b c.
    rewrite (proj2 (compare_scores_EQUAL a a) eq_refl); split; [discriminate | auto].
Qed.

Lemma default_rank_length (r : ranks.Rank) (cards : list Card) :
  In r ranks.DEFAULT_RANKS -> ranks.is_rank r cards = Ok true ->
  length cards = ranks.REQUIRED_LENGTH.
Proof.
  intros Hin H; apply is_rank_true in H; unfold validators_hold in H.
  assert (Hl : ranks.create_length_validator ranks.REQUIRED_LENGTH cards = Ok true).
  { simpl in Hin;
      repeat (destruct Hin as [<-|Hin];
              [simpl ranks.validators in H; inversion H; assumption|]);
      contradiction. }
  unfold ranks.create_length_validator in Hl; inversion Hl as [E]; apply Nat.eqb_eq, E.
Qed.

(** [get_rank] with the default catalog returns on every collection of
    cards, of any length. *)
Lemma get_rank_any (cards : list Card) :
  exists r, ranks.get_rank cards None = Ok r /\
            ((In r ranks.DEFAULT_RANKS /\ ranks.is_rank r cards = Ok true /\
              length cards = ranks.REQUIRED_LENGTH) \/
             (r = ranks.NULL_RANK /\ length cards <> ranks.REQUIRED_LENGTH)).
Proof.
  destruct (first_rank_cases ranks.DEFAULT_RANKS cards)
    as [(pre & r & post & E & Hr & Ht & _)|[Hnull Hall]].
  - intros r Hr; apply default_is_rank_total, Hr.
  - exists r; split; [exact Hr|]; left.
    assert (Hin : In r ranks.DEFAULT_RANKS) by (rewrite E; apply in_elt).
    split; [exact Hin | split; [exact Ht | apply (default_rank_length r cards Hin Ht)]].
  - exists ranks.NULL_RANK; split; [exact Hnull|]; right; split; [reflexivity|].
    intros Hlen.
    assert (Hh : ranks.is_rank ranks.HIGH cards = Ok false).
    { apply Hall; unfold ranks.DEFAULT_RANKS; simpl; tauto. }
    rewrite (HIGH_accepts cards Hlen) in Hh; discriminate.
Qed.

Lemma first_difference_map {X Y : Type} (cmp : Y -> Y -> pokerLogic.Comparison)
    (f : X -> Y) (xs ys : list X) :
  first_difference cmp (py.zip (map f xs) (map f ys))
  = first_difference (fun x y => cmp (f x) (f y)) (py.zip xs ys).
Proof.
  revert ys; induction xs as [|x xs IH]; intros [|y ys]; simpl; try reflexivity.
  destruct (cmp (f x) (f y)); auto.
Qed.

Lemma compare_size_value_zero (a b : Z) :
  compare_size_value (0%nat, a) (0%nat, b) = compare_values a b.
Proof.
  unfold compare_size_value, compare_values, cardUtils.size_value_ltb; simpl.
  rewrite Z.gtb_ltb; reflexivity.
Qed.

Lemma compare_by_face_frequency_lex (A B : list Card) :
  pokerLogic.compare_by_face_frequency A B
  = Ok (lex_compare (map group_size_value (sorted_groups A))
                    (map group_size_value (sorted_groups B))).
Proof.
  rewrite compare_by_face_frequency_eq; unfold lex_compare.
  rewrite first_difference_map, !length_map.
  rewrite (first_difference_ext _ compare_groups _ compare_group_items_eq).
  reflexivity.
Qed.

Lemma compare_by_value_lex (A B : list Card) :
  pokerLogic.compare_by_value A B
  = lex_compare (map (fun card => (0%nat, Card_value card))
                     (py.sorted Card_ltb (fun c => c) true A))
                (map (fun card => (0%nat, Card_value card))
                     (py.sorted Card_ltb (fun c => c) true B)).
Proof.
  unfold pokerLogic.compare_by_value, lex_compare.
  rewrite first_value_difference_eq.
  rewrite (first_difference_map compare_size_value (fun card => (0%nat, Card_value card))).
  rewrite !length_map, !sorted_length.
  rewrite (first_difference_ext
             (fun x y => compare_size_value (0%nat, Card_value x) (0%nat, Card_value y))
             compare_card_values)
    by (intros x y; apply compare_size_value_zero).
  reflexivity.
Qed.

Lemma compare_starters_lex (sA sB : Face) :
  (if Face_eqb sA sB then pokerLogic.EQUAL
   else if cardUtils.is_straight_starter_greater sA sB then pokerLogic.GREATER
   else pokerLogic.LESSER)
  = lex_compare [(0%nat, cardUtils.starter_key sA)] [(0%nat, cardUtils.starter_key sB)].
Proof. destruct sA, sB; reflexivity. Qed.

Lemma tie_break_key_total (cards : list Card) (r : ranks.Rank) :
  ranks.get_rank cards None = Ok r -> exists key, tie_break_key r cards = Ok key.
Proof.
  intros Hr; unfold tie_break_key.
  destruct (py.contains ranks.Rank_eqb r pokerLogic.FACE_FREQUENCY_RANKS); [eauto|].
  destruct (py.contains ranks.Rank_eqb r pokerLogic.SEQUENTIAL_RANKS) eqn:Hs; [|eauto].
  destruct (get_rank_any cards) as (r' & Hr' & Hcase).
  assert (E : r' = r) by congruence; subst r'.
  destruct Hcase as [(_ & _ & Hlen)|[-> _]].
  - destruct (default_most_frequent_starter_total (cardUtils.get_faces cards)) as [s ->];
      [|simpl; eauto].
    destruct cards; [discriminate Hlen | discriminate].
  - discriminate Hs.
Qed.

Lemma hand_score_total (cards : list Card) : exists s, hand_score cards = Ok s.
Proof.
  unfold hand_score.
  destruct (get_rank_any cards) as (r & Hr & _); rewrite Hr; cbn [bind].
  destruct (tie_break_key_total cards r Hr) as [key ->]; simpl; eauto.
Qed.

(** [compare_hands] is the comparison of the scores of the two hands. *)
Lemma compare_hands_scores (A B : list Card) :
  exists sA sB, hand_score A = Ok sA /\ hand_score B = Ok sB /\
                pokerLogic.compare_hands A B = Ok (compare_scores sA sB).
Proof.
  destruct (hand_score_total A) as [sA HsA], (hand_score_total B) as [sB HsB].
  exists sA, sB; split; [exact HsA | split; [exact HsB|]].
  unfold hand_score in HsA, HsB; unfold pokerLogic.compare_hands.
  destruct (get_rank_any A) as (rA & HA & _), (get_rank_any B) as (rB & HB & _).
  rewrite HA in *; rewrite HB in *; cbn [bind] in *.
  destruct (tie_break_key rA A) as [kA|] eqn:EA; [|discriminate].
  destruct (tie_break_key rB B) as [kB|] eqn:EB; [|discriminate].
  simpl in HsA, HsB; inversion HsA; inversion HsB; subst sA sB; clear HsA HsB.
  unfold compare_scores, ranks.Rank_gtb, ranks.Rank_ltb; simpl fst; simpl snd.
  destruct (ranks.value rA >? ranks.value rB) eqn:Egt; [reflexivity|].
  destruct (ranks.value rA <? ranks.value rB) eqn:Elt; [reflexivity|].
  assert (Ev : ranks.value rA = ranks.value rB).
  { rewrite Z.gtb_ltb in Egt; apply Z.ltb_ge in Egt, Elt; lia. }
  unfold tie_break_key in EA, EB.
  rewrite <- !(contains_rank_value rA rB _ Ev) in EB.
  destruct (py.contains ranks.Rank_eqb rA pokerLogic.FACE_FREQUENCY_RANKS).
  - inversion EA; inversion EB; apply compare_by_face_frequency_lex.
  - destruct (py.contains ranks.Rank_eqb rA pokerLogic.SEQUENTIAL_RANKS).
    + unfold pokerLogic.compare_by_straight_starter, cardUtils.Hand.
      destruct (cardUtils.get_most_frequent_starter_of_sequences_including_faces
                  (cardUtils.get_faces A) _ _) as [sA|]; [|discriminate].
      destruct (cardUtils.get_most_frequent_starter_of_sequences_including_faces
                  (cardUtils.get_faces B) _ _) as [sB|]; [|discriminate].
      simpl in EA, EB; inversion EA; inversion EB; cbn [bind].
      rewrite <- compare_starters_lex.
      destruct (Face_eqb sA sB); [reflexivity|].
      destruct (cardUtils.is_straight_starter_greater sA sB); reflexivity.
    + inversion EA; inversion EB; f_equal; apply compare_by_value_lex.
Qed.

(** X1: [compare_hands] returns on every pair of hands, whatever their
    lengths; a hand compares EQUAL with itself, and swapping the two hands
    inverts the result. *)
Theorem compare_hands_total_reflexive_antisymmetric :
  forall A B : list Card,
    pokerLogic.compare_hands A A = Ok pokerLogic.EQUAL /\
    exists c, pokerLogic.compare_hands A B = Ok c /\
              pokerLogic.compare_hands B A = Ok (flip c).
Proof.
  intros A B; split.
  - destruct (compare_hands_scores A A) as (s & s' & Hs & Hs' & ->).
    f_equal; apply compare_scores_EQUAL; congruence.
  - destruct (compare_hands_scores A B) as (sA & sB & HA & HB & ->).
    destruct (compare_hands_scores B A) as (sB' & sA' & HB' & HA' & ->).
    assert (sA' = sA) by congruence; assert (sB' = sB) by congruence; subst.
    eexists; split; [reflexivity|]; f_equal; apply compare_scores_flip.
Qed.

(** X2: [compare_hands] is transitive: when A is not below B and B is not
    below C, A is not below C; A and C then compare EQUAL exactly when both
    pairs do, so A is GREATER than C as soon as one of the two steps is
    strict. *)
Theorem compare_hands_transitive (A B C : list Card) (x y : pokerLogic.Comparison) :
  pokerLogic.compare_hands A B = Ok x -> pokerLogic.compare_hands B C = Ok y ->
  x <> pokerLogic.LESSER -> y <> pokerLogic.LESSER ->
  exists z, pokerLogic.compare_hands A C = Ok z /\ z <> pokerLogic.LESSER /\
            (z = pokerLogic.EQUAL <-> x = pokerLogic.EQUAL /\ y = pokerLogic.EQUAL).
Proof.
  intros HAB HBC Hx Hy.
  destruct (compare_hands_scores A B) as (sA & sB & HA & HB & EAB).
  destruct (compare_hands_scores B C) as (sB' & sC & HB' & HC & EBC).
  destruct (compare_hands_scores A C) as (sA' & sC' & HA' & HC' & EAC).
  assert (sA' = sA) by congruence; assert (sB' = sB) by congruence;
    assert (sC' = sC) by congruence; subst sA' sB' sC'.
  assert (Ex : x = compare_scores sA sB) by congruence.
  assert (Ey : y = compare_scores sB sC) by congruence.
  subst x y.
  destruct (compare_scores_compose sA sB sC Hx Hy) as [Hz Heq].
  exists (compare_scores sA sC); split; [exact EAC | split; [exact Hz|]].
  split; [exact Heq|].
  intros [E1 E2]; apply compare_scores_EQUAL in E1, E2; subst.
  apply compare_scores_EQUAL; reflexivity.
Qed.

Lemma compare_hands_transitive_witness :
  exists z, pokerLogic.compare_hands kings_full_of_twos spades_2_5_7_9_K = Ok z /\
            z <> pokerLogic.LESSER /\
            (z = pokerLogic.EQUAL <->
             pokerLogic.GREATER = pokerLogic.EQUAL /\ pokerLogic.GREATER = pokerLogic.EQUAL).
Proof.
  apply (compare_hands_transitive kings_full_of_twos queens_full_of_aces spades_2_5_7_9_K);
    try (vm_compute; reflexivity); discriminate.
Defined.

(** ** Winners *)

Lemma compare_hands_score_of (A B : list Card) :
  pokerLogic.compare_hands A B = Ok (compare_scores (score_of A) (score_of B)).
Proof.
  destruct (compare_hands_scores A B) as (sA & sB & HA & HB & ->).
  unfold score_of; rewrite HA, HB; reflexivity.
Qed.

Lemma beats_or_ties_score (p q : game.Player) :
  beats_or_ties p q = true <->
  compare_scores (score_of (game.hand p)) (score_of (game.hand q)) <> pokerLogic.LESSER.
Proof.
  unfold beats_or_ties; rewrite compare_hands_score_of.
  destruct (compare_scores _ _); split; congruence.
Qed.

Lemma compare_scores_refl (a : Z * list (nat * Z)) : compare_scores a a = pokerLogic.EQUAL.
Proof. apply compare_scores_EQUAL; reflexivity. Qed.

Lemma ties_with_score (key p : game.Player) :
  ties_with key p = true <-> score_of (game.hand p) = score_of (game.hand key).
Proof.
  unfold ties_with; rewrite <- compare_scores_EQUAL.
  destruct (compare_scores _ _); split; intros H; solve [reflexivity | discriminate H].
Qed.

Lemma filter_none {X : Type} (f : X -> bool) (l : list X) :
  (forall x, In x l -> f x = false) -> filter f l = [].
Proof.
  induction l as [|x l IH]; intros H; simpl; [reflexivity|].
  rewrite (H x (or_introl eq_refl)); apply IH; intros y Hy; apply H; right; exact Hy.
Qed.

(** The invariant of the loop of [find_winners] after the players [seen]:
    the key incumbent is one of them and is maximal among them, and the
    incumbents are those of them that tie with it, in order. *)
Lemma find_winners_loop (rest seen : list game.Player) (key : game.Player) :
  In key seen ->
  (forall q, In q seen -> beats_or_ties key q = true) ->
  exists key',
    foldM game.find_winners_step rest (key, filter (ties_with key) seen)
    = Ok (key', filter (ties_with key') (seen ++ rest)) /\
    In key' (seen ++ rest) /\
    (forall q, In q (seen ++ rest) -> beats_or_ties key' q = true).
Proof.
  revert seen key; induction rest as [|ch rest IH]; intros seen key Hk Hmax.
  - exists key; rewrite app_nil_r; simpl; auto.
  - simpl foldM; unfold game.find_winners_step at 1.
    rewrite compare_hands_score_of; cbn [bind].
    replace (seen ++ ch :: rest) with ((seen ++ [ch]) ++ rest)
      by (rewrite <- app_assoc; reflexivity).
    assert (Hflip : compare_scores (score_of (game.hand ch)) (score_of (game.hand key))
                    = flip (compare_scores (score_of (game.hand key)) (score_of (game.hand ch))))
      by apply compare_scores_flip.
    destruct (compare_scores (score_of (game.hand key)) (score_of (game.hand ch))) eqn:E;
      simpl pokerLogic.Comparison_eqb; cbv iota; simpl in Hflip.
    + (* the key incumbent stays *)
      replace (filter (ties_with key) seen) with (filter (ties_with key) (seen ++ [ch])).
      * apply IH.
        -- apply in_or_app; left; exact Hk.
        -- intros q Hq; apply in_app_or in Hq; destruct Hq as [Hq|[<-|[]]]; [auto|].
           apply beats_or_ties_score; rewrite E; discriminate.
      * rewrite filter_app; simpl; unfold ties_with at 2; rewrite Hflip; simpl.
        apply app_nil_r.
    + (* a tie: the challenger joins the incumbents *)
      replace (filter (ties_with key) seen ++ [ch])
        with (filter (ties_with key) (seen ++ [ch])).
      * apply IH.
        -- apply in_or_app; left; exact Hk.
        -- intros q Hq; apply in_app_or in Hq; destruct Hq as [Hq|[<-|[]]]; [auto|].
           apply beats_or_ties_score; rewrite E; discriminate.
      * rewrite filter_app; simpl; unfold ties_with at 2; rewrite Hflip; reflexivity.
    + (* the challenger takes over *)
      assert (Hf : filter (ties_with ch) (seen ++ [ch]) = [ch]).
      { rewrite filter_app; simpl.
        rewrite (proj2 (ties_with_score ch ch) eq_refl).
        rewrite filter_none; [reflexivity|].
        intros q Hq; destruct (ties_with ch q) eqn:Eq; [|reflexivity].
        apply ties_with_score in Eq.
        specialize (Hmax q Hq); apply beats_or_ties_score in Hmax.
        rewrite Eq, E in Hmax; congruence. }
      destruct (IH (seen ++ [ch]) ch) as (key' & Hloop & Hrest).
      * apply in_or_app; right; left; reflexivity.
      * intros q Hq; apply in_app_or in Hq; destruct Hq as [Hq|[<-|[]]].
        -- apply beats_or_ties_score.
           assert (H1 : compare_scores (score_of (game.hand ch)) (score_of (game.hand key))
                        <> pokerLogic.LESSER) by (rewrite Hflip; discriminate).
           apply (compare_scores_compose _ _ _ H1), beats_or_ties_score, Hmax, Hq.
        -- apply beats_or_ties_score; rewrite compare_scores_refl; discriminate.
      * rewrite Hf in Hloop; exists key'; split; [exact Hloop | exact Hrest].
Qed.

Lemma find_winners_maximal (players : list game.Player) :
  players <> [] ->
  game.find_winners players
  = Ok (filter (fun p => forallb (beats_or_ties p) players) players) /\
  exists key, In key players /\ forallb (beats_or_ties key) players = true.
Proof.
  destruct players as [|first rest]; [congruence|]; intros _.
  split; [|destruct (find_winners_loop rest [first] first) as (key & _ & Hkey & Hmax);
           [left; reflexivity
           |intros q [<-|[]]; apply beats_or_ties_score; rewrite compare_scores_refl;
            discriminate
           |exists key; split; [exact Hkey | apply forallb_forall; exact Hmax]]].
  unfold game.find_winners; cbn [py.first bind py.slice_from_1 tl].
  destruct (find_winners_loop rest [first] first) as (key & Hloop & Hkey & Hmax).
  { left; reflexivity. }
  { intros q [<-|[]]; apply beats_or_ties_score; rewrite compare_scores_refl; discriminate. }
  assert (E1 : filter (ties_with first) [first] = [first]).
  { simpl; rewrite (proj2 (ties_with_score first first) eq_refl); reflexivity. }
  rewrite E1 in Hloop; change ([first] ++ rest) with (first :: rest) in *.
  rewrite Hloop; cbn [bind snd]; f_equal.
  apply filter_ext_in; intros p Hp.
  destruct (ties_with key p) eqn:Et; symmetry.
  - apply ties_with_score in Et.
    apply forallb_forall; intros q Hq; apply beats_or_ties_score; rewrite Et.
    apply beats_or_ties_score, Hmax, Hq.
  - destruct (forallb (beats_or_ties p) (first :: rest)) eqn:Ef; [|reflexivity].
    rewrite forallb_forall in Ef.
    assert (Hpk : beats_or_ties p key = true) by (apply Ef, Hkey).
    assert (Hkp : beats_or_ties key p = true) by (apply Hmax, Hp).
    apply beats_or_ties_score in Hpk, Hkp.
    assert (E : score_of (game.hand p) = score_of (game.hand key)).
    { apply compare_scores_EQUAL.
      rewrite (compare_scores_flip (score_of (game.hand p))) in Hkp.
      destruct (compare_scores (score_of (game.hand p)) (score_of (game.hand key)));
        simpl in *; congruence. }
    apply ties_with_score in E; congruence.
Qed.

(** X3: [find_winners] raises [IndexError] without players; otherwise it
    returns, in their order, exactly the players whose hand is below no
    other player's hand, and there is at least one of them. *)
Theorem find_winners_returns_the_maximal_players :
  game.find_winners [] = Raise IndexError /\
  forall players : list game.Player,
    players <> [] ->
    exists winners,
      game.find_winners players = Ok winners /\
      winners <> [] /\
      winners = filter (fun p => forallb (beats_or_ties p) players) players /\
      (forall w, In w winners <->
                 In w players /\
                 forall q, In q players ->
                   exists c, pokerLogic.compare_hands (game.hand w) (game.hand q) = Ok c /\
                             c <> pokerLogic.LESSER).
Proof.
  split; [reflexivity|].
  intros players Hne.
  destruct (find_winners_maximal players Hne) as (Hw & key & Hkey & Hmax).
  eexists; split; [exact Hw | split; [|split; [reflexivity|]]].
  - intros Hnil.
    assert (Hin : In key (filter (fun p => forallb (beats_or_ties p) players) players))
      by (apply filter_In; auto).
    rewrite Hnil in Hin; exact Hin.
  - intros w; rewrite filter_In, forallb_forall.
    split; intros [Hin Hall]; (split; [exact Hin|]); intros q Hq.
    + specialize (Hall q Hq); unfold beats_or_ties in Hall.
      destruct (pokerLogic.compare_hands (game.hand w) (game.hand q)) as [[| |]|];
        try discriminate Hall; eexists; split; try reflexivity; discriminate.
    + destruct (Hall q Hq) as (c & Hc & Hnl); unfold beats_or_ties; rewrite Hc.
      destruct c; congruence.
Qed.

Lemma find_winners_returns_the_maximal_players_witness :
  let weak := game.mkPlayer "weak"%string game.FLUSH_DISCARDER queens_full_of_aces in
  let strong := game.mkPlayer "strong"%string game.FREQUENCY_DISCARDER kings_full_of_twos in
  exists winners,
    game.find_winners [weak; strong; weak] = Ok winners /\
    winners <> [] /\
    winners = filter (fun p => forallb (beats_or_ties p) [weak; strong; weak])
                     [weak; strong; weak] /\
    (forall w, In w winners <->
               In w [weak; strong; weak] /\
               forall q, In q [weak; strong; weak] ->
                 exists c, pokerLogic.compare_hands (game.hand w) (game.hand q) = Ok c /\
                           c <> pokerLogic.LESSER).
Proof.
  intros weak strong.
  destruct find_winners_returns_the_maximal_players as [_ H].
  apply H; discriminate.
Defined.

(** ** The order of the cards in a hand does not matter *)

Lemma mapM_Ok_total {X Y : Type} (g : X -> result Y) (l : list X) :
  (forall x, exists y, g x = Ok y) -> exists ys, mapM g l = Ok ys.
Proof.
  intros Hg; induction l as [|x l [ys IH]]; simpl; [eauto|].
  destruct (Hg x) as [y ->]; rewrite IH; simpl; eauto.
Qed.

Lemma mapM_Permutation {X Y : Type} (g : X -> result Y) (l l' : list X) :
  (forall x, exists y, g x = Ok y) -> Permutation l l' ->
  exists ys ys', mapM g l = Ok ys /\ mapM g l' = Ok ys' /\ Permutation ys ys'.
Proof.
  intros Hg; induction 1 as [|x l l' _ (ys & ys' & H1 & H2 & Hp)|x y l
                             |l l' l'' _ (ys & ys' & H1 & H2 & Hp) _ (zs & zs' & H3 & H4 & Hq)].
  - exists [], []; simpl; auto.
  - destruct (Hg x) as [a Ha].
    exists (a :: ys), (a :: ys'); simpl; rewrite Ha, H1, H2; simpl; auto.
  - destruct (Hg x) as [a Ha], (Hg y) as [b Hb], (mapM_Ok_total g l Hg) as [zs Hz].
    exists (b :: a :: zs), (a :: b :: zs); simpl; rewrite Ha, Hb, Hz; simpl.
    repeat split; apply perm_swap.
  - exists ys, zs'; repeat split; auto.
    assert (ys' = zs) by congruence; subst zs.
    rewrite Hp; exact Hq.
Qed.

Lemma most_frequent_starter_Permutation (faces faces' : list Face) (n : nat)
    (invalid : option (list Face)) :
  Permutation faces faces' ->
  cardUtils.get_most_frequent_starter_of_sequences_including_faces faces n invalid
  = cardUtils.get_most_frequent_starter_of_sequences_including_faces faces' n invalid.
Proof.
  intros Hp; rewrite !most_frequent_starter_unfold.
  destruct (mapM_Permutation
              (fun face => cardUtils.get_starters_of_sequences_including_face face n invalid)
              (py.set_of Face_eqb faces) (py.set_of Face_eqb faces'))
    as (ys & ys' & -> & -> & Hys).
  - intros f; apply starters_loop_total.
  - apply (set_of_Permutation Face_eqb Face_eqb_eq), Hp.
  - cbn [bind]; rewrite !count_sets_concat.
    apply pick_starter_Permutation, Permutation_concat', Hys.
Qed.

Lemma contains_Permutation (x : Face) (l l' : list Face) :
  Permutation l l' -> py.contains Face_eqb x l = py.contains Face_eqb x l'.
Proof.
  intros Hp.
  destruct (py.contains Face_eqb x l) eqn:E, (py.contains Face_eqb x l') eqn:E';
    try reflexivity.
  - apply (contains_In Face_eqb Face_eqb_eq) in E.
    apply (Permutation_in _ Hp), (contains_In Face_eqb Face_eqb_eq) in E; congruence.
  - apply (contains_In Face_eqb Face_eqb_eq) in E'.
    apply (Permutation_in _ (Permutation_sym Hp)), (contains_In Face_eqb Face_eqb_eq) in E';
      congruence.
Qed.

Lemma sequence_loop_Permutation (faces faces' : list Face) (n : nat) (starter : Face) :
  Permutation faces faces' ->
  ranks.sequence_loop faces n starter = ranks.sequence_loop faces' n starter.
Proof.
  intros Hp; revert starter; induction n as [|n IH]; intros starter; simpl; [reflexivity|].
  rewrite (contains_Permutation starter faces faces' Hp).
  destruct (py.contains Face_eqb starter faces'); simpl; [|reflexivity].
  destruct (get_next_face starter); simpl; auto.
Qed.

Lemma sequence_check_Permutation (faces faces' : list Face) :
  Permutation faces faces' -> sequence_check faces = sequence_check faces'.
Proof.
  intros Hp; unfold sequence_check.
  rewrite (Permutation_length Hp), (most_frequent_starter_Permutation _ _ _ _ Hp).
  destruct (cardUtils.get_most_frequent_starter_of_sequences_including_faces faces' _ _);
    simpl; [apply sequence_loop_Permutation, Hp | reflexivity].
Qed.

Lemma forallb_pointwise {X : Type} (f g : X -> bool) (l : list X) :
  (forall x, f x = g x) -> forallb f l = forallb g l.
Proof.
  intros H; induction l as [|x l IH]; simpl; [reflexivity|].
  rewrite H, IH; reflexivity.
Qed.

Lemma default_validators_Permutation (r : ranks.Rank) (A A' : list Card) :
  In r ranks.DEFAULT_RANKS -> Permutation A A' ->
  Forall (fun v : ranks.RankValidator => v A = v A') (ranks.validators r).
Proof.
  intros Hin Hp.
  assert (Hf : Permutation (cardUtils.get_faces A) (cardUtils.get_faces A'))
    by (apply Permutation_map, Hp).
  assert (Hs : Permutation (cardUtils.get_suits A) (cardUtils.get_suits A'))
    by (apply Permutation_map, Hp).
  assert (Hlen : ranks.create_length_validator ranks.REQUIRED_LENGTH A
                 = ranks.create_length_validator ranks.REQUIRED_LENGTH A').
  { unfold ranks.create_length_validator; rewrite (Permutation_length Hp); reflexivity. }
  assert (Hseq : ranks.create_sequence_validator (Some ranks.INVALID_STRAIGHT_STARTERS) A
                 = ranks.create_sequence_validator (Some ranks.INVALID_STRAIGHT_STARTERS) A').
  { rewrite !sequence_validator_faces; apply sequence_check_Permutation, Hf. }
  assert (Hff : forall req, ranks.create_face_frequency_validator req A
                            = ranks.create_face_frequency_validator req A').
  { intros req; unfold ranks.create_face_frequency_validator, cardUtils.Hand; f_equal.
    apply forallb_pointwise; intros [gs k].
    apply (has_required_group_Permutation Face_eqb Face_eqb_eq), Hf. }
  assert (Hsf : forall req, ranks.create_suit_frequency_validator req A
                            = ranks.create_suit_frequency_validator req A').
  { intros req; unfold ranks.create_suit_frequency_validator, cardUtils.Hand; f_equal.
    apply forallb_pointwise; intros [gs k].
    apply (has_required_group_Permutation Suit_eqb Suit_eqb_eq), Hs. }
  assert (Hfv : ranks.create_face_validator ranks.ROYAL_FACES A
                = ranks.create_face_validator ranks.ROYAL_FACES A').
  { unfold ranks.create_face_validator, cardUtils.Hand; f_equal.
    apply forallb_pointwise; intros f; apply contains_Permutation, Hf. }
  simpl in Hin;
    repeat (destruct Hin as [<-|Hin]; [simpl ranks.validators; repeat constructor; auto|]);
    contradiction.
Qed.

Lemma run_validators_ext (vs : list ranks.RankValidator) (A A' : list Card) :
  Forall (fun v : ranks.RankValidator => v A = v A') vs ->
  ranks.run_validators vs A = ranks.run_validators vs A'.
Proof.
  induction 1 as [|v vs Hv _ IH]; simpl; [reflexivity|].
  rewrite Hv, IH; reflexivity.
Qed.

Lemma first_rank_ext (rs : list ranks.Rank) (A A' : list Card) :
  (forall r, In r rs -> ranks.is_rank r A = ranks.is_rank r A') ->
  ranks.first_rank rs A = ranks.first_rank rs A'.
Proof.
  induction rs as [|r rs IH]; intros H; simpl; [reflexivity|].
  rewrite (H r (or_introl eq_refl)), IH; [reflexivity|].
  intros r' Hr'; apply H; right; exact Hr'.
Qed.

Lemma get_rank_Permutation (A A' : list Card) :
  Permutation A A' -> ranks.get_rank A None = ranks.get_rank A' None.
Proof.
  intros Hp; unfold ranks.get_rank; apply first_rank_ext.
  intros r Hr; unfold ranks.is_rank.
  apply run_validators_ext, default_validators_Permutation; assumption.
Qed.

Lemma size_value_ltb_antisym (a b : nat * Z) :
  cardUtils.size_value_ltb a b = false -> cardUtils.size_value_ltb b a = false -> a = b.
Proof.
  intros H1 H2; apply compare_size_value_EQUAL; unfold compare_size_value.
  rewrite H1, H2; reflexivity.
Qed.

Lemma group_profile_Permutation (A A' : list Card) :
  Permutation A A' ->
  map group_size_value (sorted_groups A) = map group_size_value (sorted_groups A').
Proof.
  intros Hp.
  assert (Hsorted : forall h, StronglySorted (desc_ok cardUtils.size_value_ltb (fun x => x))
                                (map group_size_value (sorted_groups h))).
  { intros h; destruct (sorted_groups_spec h) as (_ & _ & Hs).
    revert Hs; apply StronglySorted_map; auto. }
  assert (Hprofile : forall h,
            Permutation (map group_size_value (sorted_groups h))
                        (map (fun f => (py.count Face_eqb f (cardUtils.get_faces h), Face_value f))
                             (py.set_of Face_eqb (cardUtils.get_faces h)))).
  { intros h; unfold sorted_groups; rewrite sorted_Permutation.
    unfold face_groups, tabulate; rewrite map_map.
    erewrite map_ext; [reflexivity|].
    intros f; unfold group_size_value; simpl; rewrite group_of_length; reflexivity. }
  apply (StronglySorted_unique (desc_ok cardUtils.size_value_ltb (fun x => x))); auto.
  - rewrite !Hprofile.
    assert (Hf : Permutation (cardUtils.get_faces A) (cardUtils.get_faces A'))
      by (apply Permutation_map, Hp).
    rewrite (map_ext _ (fun f => (py.count Face_eqb f (cardUtils.get_faces A'), Face_value f)))
      by (intros f; rewrite (count_Permutation Face_eqb f _ _ Hf); reflexivity).
    apply Permutation_map, (set_of_Permutation Face_eqb Face_eqb_eq), Hf.
  - intros x y _ _; apply size_value_ltb_antisym.
Qed.

Lemma tie_break_key_Permutation (r : ranks.Rank) (A A' : list Card) :
  Permutation A A' -> tie_break_key r A = tie_break_key r A'.
Proof.
  intros Hp; unfold tie_break_key.
  destruct (py.contains ranks.Rank_eqb r pokerLogic.FACE_FREQUENCY_RANKS).
  - f_equal; apply group_profile_Permutation, Hp.
  - destruct (py.contains ranks.Rank_eqb r pokerLogic.SEQUENTIAL_RANKS).
    + rewrite (most_frequent_starter_Permutation (cardUtils.get_faces A) (cardUtils.get_faces A'));
        [reflexivity | apply Permutation_map, Hp].
    + f_equal.
      rewrite <- !(map_map Card_value (fun v => (0%nat, v))); f_equal.
      apply (sorted_values_unique A'); [|apply sorted_by_value_spec].
      destruct (sorted_by_value_spec A) as [Hq Hs]; split; [rewrite Hq; exact Hp | exact Hs].
Qed.

Lemma hand_score_Permutation (A A' : list Card) :
  Permutation A A' -> hand_score A = hand_score A'.
Proof.
  intros Hp; unfold hand_score; rewrite (get_rank_Permutation A A' Hp).
  destruct (ranks.get_rank A' None) as [r|]; [|reflexivity]; cbn [bind].
  rewrite (tie_break_key_Permutation r A A' Hp); reflexivity.
Qed.

Lemma compare_hands_Permutation (A A' B B' : list Card) :
  Permutation A A' -> Permutation B B' ->
  pokerLogic.compare_hands A B = pokerLogic.compare_hands A' B'.
Proof.
  intros HA HB; rewrite !compare_hands_score_of; unfold score_of.
  rewrite (hand_score_Permutation A A' HA), (hand_score_Permutation B B' HB); reflexivity.
Qed.

(** X4: the rank of a hand does not depend on the order of its cards. *)
Theorem get_rank_order_irrelevant (A A' : list Card) :
  Permutation A A' -> ranks.get_rank A None = ranks.get_rank A' None.
Proof. apply get_rank_Permutation. Qed.

Lemma get_rank_order_irrelevant_witness :
  ranks.get_rank ace_low_mixed None = ranks.get_rank (rev ace_low_mixed) None.
Proof. apply get_rank_order_irrelevant, Permutation_rev. Defined.

(** X5: the result of [compare_hands] does not depend on the order of the
    cards in either hand. *)
Theorem compare_hands_order_irrelevant (A A' B B' : list Card) :
  Permutation A A' -> Permutation B B' ->
  pokerLogic.compare_hands A B = pokerLogic.compare_hands A' B'.
Proof. apply compare_hands_Permutation. Qed.

Lemma compare_hands_order_irrelevant_witness :
  pokerLogic.compare_hands kings_full_of_twos hearts_9_to_K
  = pokerLogic.compare_hands (rev kings_full_of_twos) (rev hearts_9_to_K).
Proof. apply compare_hands_order_irrelevant; apply Permutation_rev. Defined.

(** ** Sequences and their starters *)

Lemma get_next_face_eq (f : Face) : get_next_face f = Ok (next_face f).
Proof. destruct f; reflexivity. Qed.

Lemma get_previous_face_eq (f : Face) : get_previous_face f = Ok (previous_face f).
Proof. destruct f; reflexivity. Qed.

Lemma next_previous (f : Face) : next_face (previous_face f) = f.
Proof. destruct f; reflexivity. Qed.

Lemma previous_next (f : Face) : previous_face (next_face f) = f.
Proof. destruct f; reflexivity. Qed.

Lemma walk_length (step : Face -> Face) (n : nat) (f : Face) : length (walk step n f) = n.
Proof. revert f; induction n as [|n IH]; intros f; simpl; [|rewrite IH]; reflexivity. Qed.

Lemma walk_map (step : Face -> Face) (n : nat) (f : Face) :
  walk step n (step f) = map step (walk step n f).
Proof. revert f; induction n as [|n IH]; intros f; simpl; [|rewrite IH]; reflexivity. Qed.

Lemma walk_firstn (step : Face -> Face) (n k : nat) (f : Face) :
  walk step n f = firstn n (walk step (n + k) f).
Proof. revert f; induction n as [|n IH]; intros f; simpl; [|rewrite <- IH]; reflexivity. Qed.

Lemma NoDup_firstn' {X : Type} (n : nat) (l : list X) : NoDup l -> NoDup (firstn n l).
Proof.
  intros H; rewrite <- (firstn_skipn n l) in H; apply NoDup_app_remove_r in H; exact H.
Qed.

Lemma distinctb_NoDup (l : list Face) : distinctb l = true -> NoDup l.
Proof.
  induction l as [|f l IH]; simpl; [constructor|].
  rewrite andb_true_iff, negb_true_iff, (contains_not_In Face_eqb Face_eqb_eq).
  intros [Hf Hl]; constructor; auto.
Qed.

Lemma walk_NoDup (n : nat) (f : Face) :
  (n <= NUM_FACES)%nat -> NoDup (walk next_face n f) /\ NoDup (walk previous_face n f).
Proof.
  intros Hn.
  assert (H13 : NoDup (walk next_face NUM_FACES f) /\ NoDup (walk previous_face NUM_FACES f)).
  { split; apply distinctb_NoDup; destruct f; vm_compute; reflexivity. }
  replace NUM_FACES with (n + (NUM_FACES - n))%nat in H13 by lia.
  rewrite (walk_firstn next_face n (NUM_FACES - n)).
  rewrite (walk_firstn previous_face n (NUM_FACES - n)).
  destruct H13; split; apply NoDup_firstn'; assumption.
Qed.

(** [s] starts a sequence that contains [f] exactly when walking back from
    [f] meets [s]. *)
Lemma walk_back_forth (n : nat) (f s : Face) :
  In s (walk previous_face n f) <-> In f (walk next_face n s).
Proof.
  revert f s; induction n as [|n IH]; intros f s; simpl; [reflexivity|].
  rewrite IH, (walk_map next_face n s), in_map_iff.
  split; intros [E|H]; auto.
  - right; exists (previous_face f); split; [apply next_previous | exact H].
  - destruct H as (x & <- & Hx); right; rewrite previous_next; exact Hx.
Qed.

Lemma sequence_of_starter_loop_eq (n : nat) (sequence : list Face) (cur : Face) :
  cardUtils.sequence_of_starter_loop n sequence cur = Ok (sequence ++ walk next_face n cur).
Proof.
  revert sequence cur; induction n as [|n IH]; intros sequence cur; simpl.
  - rewrite app_nil_r; reflexivity.
  - rewrite get_next_face_eq; cbn [bind]; rewrite IH, <- app_assoc; reflexivity.
Qed.

Lemma get_sequence_of_starter_eq (starter : Face) (n : nat) :
  cardUtils.get_sequence_of_starter starter n = Ok (walk next_face n starter).
Proof. apply sequence_of_starter_loop_eq. Qed.

(** The loop of [get_starters_of_sequences_including_face] while no face is
    met twice: the valid faces met are appended in order. *)
Lemma starters_loop_eq (invalid : list Face) (n : nat) (acc : list Face) (x : Face) :
  NoDup (walk previous_face n x) ->
  (forall y, In y (walk previous_face n x) -> ~ In y acc) ->
  cardUtils.starters_loop invalid n acc x
  = Ok (acc ++ filter (fun y => negb (py.contains Face_eqb y invalid))
                      (walk previous_face n x)).
Proof.
  revert acc x; induction n as [|n IH]; intros acc x Hnd Hdis; simpl.
  - rewrite app_nil_r; reflexivity.
  - inversion Hnd as [|? ? Hx Hnd']; subst.
    assert (Hxa : py.contains Face_eqb x acc = false).
    { apply (contains_not_In Face_eqb Face_eqb_eq), Hdis; left; reflexivity. }
    rewrite Hxa, get_previous_face_eq; cbn [bind].
    destruct (py.contains Face_eqb x invalid); simpl negb; cbv iota.
    + apply IH; [exact Hnd'|]; intros y Hy; apply Hdis; right; exact Hy.
    + unfold py.set_add; rewrite Hxa.
      rewrite IH; [rewrite <- app_assoc; reflexivity | exact Hnd'|].
      intros y Hy Hin; apply in_app_or in Hin; destruct Hin as [Hin|[<-|[]]].
      * revert Hin; apply Hdis; right; exact Hy.
      * apply Hx, Hy.
Qed.

Lemma get_starters_eq (face : Face) (n : nat) (invalid : option (list Face)) :
  (n <= NUM_FACES)%nat ->
  cardUtils.get_starters_of_sequences_including_face face n invalid
  = Ok (filter (fun y => negb (py.contains Face_eqb y (cardUtils.or_empty invalid)))
               (walk previous_face n face)).
Proof.
  intros Hn; unfold cardUtils.get_starters_of_sequences_including_face.
  rewrite starters_loop_eq; [reflexivity | apply walk_NoDup, Hn | intros y _ []].
Qed.

(** X6: for a sequence length of at most 13,
    [get_starters_of_sequences_including_face] returns, without
    repetition, exactly the starters outside [invalid] whose sequence, as
    built by [get_sequence_of_starter], contains the face; that sequence
    has the required length and no repeated face. *)
Theorem starters_are_the_starters_of_sequences_with_the_face
    (face : Face) (n : nat) (invalid : option (list Face)) :
  (n <= 13)%nat ->
  exists starters,
    cardUtils.get_starters_of_sequences_including_face face n invalid = Ok starters /\
    NoDup starters /\
    forall s, exists sequence,
      cardUtils.get_sequence_of_starter s n = Ok sequence /\
      length sequence = n /\ NoDup sequence /\
      (In s starters <-> ~ In s (cardUtils.or_empty invalid) /\ In face sequence).
Proof.
  intros Hn; change 13%nat with NUM_FACES in Hn.
  eexists; split; [apply get_starters_eq, Hn | split].
  - apply NoDup_filter, walk_NoDup, Hn.
  - intros s; exists (walk next_face n s).
    split; [apply get_sequence_of_starter_eq | split; [apply walk_length | split]].
    + apply walk_NoDup, Hn.
    + rewrite filter_In, negb_true_iff, (contains_not_In Face_eqb Face_eqb_eq), walk_back_forth.
      tauto.
Qed.

Lemma starters_are_the_starters_of_sequences_with_the_face_witness :
  exists starters,
    cardUtils.get_starters_of_sequences_including_face
      KING 5 (Some ranks.INVALID_STRAIGHT_STARTERS) = Ok starters /\
    NoDup starters /\
    forall s, exists sequence,
      cardUtils.get_sequence_of_starter s 5 = Ok sequence /\
      length sequence = 5%nat /\ NoDup sequence /\
      (In s starters <->
       ~ In s (cardUtils.or_empty (Some ranks.INVALID_STRAIGHT_STARTERS)) /\ In KING sequence).
Proof.
  apply starters_are_the_starters_of_sequences_with_the_face; lia.
Defined.

(** ** The most frequent starter *)

Lemma last_sorted {X : Type} (R : X -> X -> Prop) (l : list X) (r : X) :
  StronglySorted R l -> py.last l = Ok r ->
  In r l /\ forall x, In x l -> x = r \/ R x r.
Proof.
  induction 1 as [|a l Hs IH Ha]; [discriminate|].
  destruct l as [|b l].
  - simpl; intros E; inversion E; subst; split; [auto|]; intros x [<-|[]]; auto.
  - intros E; change (py.last (b :: l) = Ok r) in E.
    destruct (IH E) as [Hin Hall]; split; [right; exact Hin|].
    intros x [<-|Hx]; [|auto].
    right; rewrite Forall_forall in Ha; apply Ha, Hin.
Qed.

Lemma starter_key_ltb_facts :
  (forall a b : Z, Z.ltb a b = true -> Z.ltb b a = false) /\
  (forall a b c : Z, Z.ltb a b = false -> Z.ltb b c = false -> Z.ltb a c = false).
Proof.
  split; [intros a b; rewrite Z.ltb_lt, Z.ltb_ge | intros a b c; rewrite !Z.ltb_ge]; lia.
Qed.

Lemma get_max_straight_starter_spec (l : list Face) (r : Face) :
  cardUtils.get_max_straight_starter l = Ok r ->
  In r l /\ forall x, In x l -> cardUtils.starter_key x <= cardUtils.starter_key r.
Proof.
  unfold cardUtils.get_max_straight_starter, cardUtils.sorted_starters; intros H.
  destruct starter_key_ltb_facts as [Ha Ht].
  destruct (last_sorted _ _ r (sorted_asc_StronglySorted Z.ltb cardUtils.starter_key Ha Ht l) H)
    as [Hin Hall].
  split; [apply (sorted_In Z.ltb cardUtils.starter_key false), Hin|].
  intros x Hx; apply (sorted_In Z.ltb cardUtils.starter_key false) in Hx.
  destruct (Hall x Hx) as [->|Hr]; [lia|].
  unfold asc_ok in Hr; apply Z.ltb_ge in Hr; exact Hr.
Qed.

Lemma counter_get_notin (c : list (Face * nat)) (k : Face) :
  ~ In k (py.keys c) -> py.counter_get Face_eqb c k = 0%nat.
Proof.
  unfold py.keys; induction c as [|[k' n] c IH]; simpl; [reflexivity|]; intros H.
  destruct (Face_eqb k' k) eqn:E; [apply Face_eqb_eq in E; subst; tauto|].
  apply IH; tauto.
Qed.

(** What [pick_starter] picks from a counter: a key of maximal count and,
    among those, of greatest precedence. *)
Lemma pick_starter_spec (c : list (Face * nat)) (r : Face) :
  NoDup (py.keys c) -> pick_starter c = Ok r ->
  In r (py.keys c) /\
  (forall k, (py.counter_get Face_eqb c k <= py.counter_get Face_eqb c r)%nat) /\
  (forall k, In k (py.keys c) ->
             py.counter_get Face_eqb c k = py.counter_get Face_eqb c r ->
             cardUtils.starter_key k <= cardUtils.starter_key r).
Proof.
  intros Hnd H; unfold pick_starter in H.
  destruct (py.max (py.values c)) as [m|] eqn:Em; [|discriminate]; cbn [bind] in H.
  apply get_max_straight_starter_spec in H; destruct H as [Hin Hbest].
  apply filter_In in Hin; destruct Hin as [Hr Hm]; apply Nat.eqb_eq in Hm.
  apply max_spec in Em; destruct Em as [_ Hall].
  rewrite (counter_values_get c Hnd), Forall_forall in Hall.
  split; [exact Hr | split].
  - intros k; rewrite Hm.
    destruct (in_dec (fun a b => match Face_eqb a b as e
                                   return (Face_eqb a b = e -> {a = b} + {a <> b}) with
                                 | true => fun E => left (proj1 (Face_eqb_eq a b) E)
                                 | false => fun E => right (proj1 (Face_eqb_neq a b) E)
                                 end eq_refl) k (py.keys c)) as [Hk|Hk].
    + apply Hall, in_map, Hk.
    + rewrite (counter_get_notin c k Hk); lia.
  - intros k Hk Ek; apply Hbest, filter_In; split; [exact Hk|].
    apply Nat.eqb_eq; congruence.
Qed.

Lemma pick_starter_raises (c : list (Face * nat)) (e : exn) :
  NoDup (py.keys c) -> pick_starter c = Raise e -> c = [] /\ e = ValueError.
Proof.
  intros Hnd H; destruct c as [|p c]; [inversion H; auto|].
  exfalso.
  destruct (counter_max_candidates Face_eqb Face_eqb_eq (p :: c)) as (m & Hm & Hcand);
    [discriminate | exact Hnd|].
  unfold pick_starter in H; rewrite Hm in H; cbn [bind] in H.
  destruct (get_max_straight_starter_total _ Hcand) as (f & Hf & _); congruence.
Qed.

Lemma occurrences_NoDup (k : Face) (l : list Face) :
  NoDup l -> occurrences k l = if py.contains Face_eqb k l then 1%nat else 0%nat.
Proof.
  unfold occurrences; induction 1 as [|x l Hx Hl IH]; simpl; [reflexivity|].
  rewrite (Face_eqb_sym k x).
  destruct (Face_eqb x k) eqn:E; simpl.
  - apply Face_eqb_eq in E; subst x.
    rewrite IH, (proj2 (contains_not_In Face_eqb Face_eqb_eq k l) Hx); reflexivity.
  - exact IH.
Qed.

Lemma occurrences_concat (k : Face) (sets : list (list Face)) :
  Forall (@NoDup Face) sets ->
  occurrences k (concat sets) = length (filter (fun s => py.contains Face_eqb k s) sets).
Proof.
  induction 1 as [|s sets Hs _ IH]; simpl; [reflexivity|].
  unfold occurrences in *; rewrite filter_app, length_app, IH.
  fold (occurrences k s); rewrite (occurrences_NoDup k s Hs).
  destruct (py.contains Face_eqb k s); reflexivity.
Qed.

(** The counter of the starter search, for a sequence length of at most 13:
    a valid starter counts the distinct faces that its sequence covers, an
    invalid one counts nothing. *)
Lemma starters_counter (faces : list Face) (n : nat) (invalid : option (list Face)) :
  (n <= NUM_FACES)%nat ->
  exists c,
    cardUtils.get_starters_of_sequences_including_faces faces n invalid = Ok c /\
    NoDup (py.keys c) /\
    cardUtils.get_most_frequent_starter_of_sequences_including_faces faces n invalid
    = pick_starter c /\
    (forall k, In k (py.keys c) <-> (0 < py.counter_get Face_eqb c k)%nat) /\
    forall k, py.counter_get Face_eqb c k
              = if py.contains Face_eqb k (cardUtils.or_empty invalid) then 0%nat
                else covered faces (walk next_face n k).
Proof.
  intros Hn.
  destruct (get_starters_of_faces_total faces n invalid) as (c & Hc & Hnd).
  exists c; split; [exact Hc | split; [exact Hnd | split]].
  - unfold cardUtils.get_most_frequent_starter_of_sequences_including_faces.
    rewrite Hc; reflexivity.
  - set (S := fun f => filter (fun y => negb (py.contains Face_eqb y (cardUtils.or_empty invalid)))
                              (walk previous_face n f)).
    assert (Hsplit : forall P Q : Face -> Prop,
              (forall k, P k) -> (forall k, Q k) -> (forall k, P k) /\ (forall k, Q k))
      by auto.
    apply Hsplit; intros k.
    2: {
    assert (Hsets : mapM (fun face =>
                            cardUtils.get_starters_of_sequences_including_face face n invalid)
                         (py.set_of Face_eqb faces) = Ok (map S (py.set_of Face_eqb faces))).
    { apply mapM_total; intros f _; apply get_starters_eq, Hn. }
    assert (Ec : c = count_sets (map S (py.set_of Face_eqb faces))).
    { unfold cardUtils.get_starters_of_sequences_including_faces in Hc.
      revert Hc Hsets; unfold count_sets.
      generalize (@nil (Face * nat)) as c0.
      generalize (py.set_of Face_eqb faces) as l.
      induction l as [|f l IH]; intros c0 Hc _; simpl in *; [congruence|].
      rewrite (get_starters_eq f n invalid Hn) in Hc; cbn [bind] in Hc.
      apply IH; [exact Hc|].
      apply mapM_total; intros f' _; apply get_starters_eq, Hn. }
    rewrite Ec, count_sets_concat, Counter_get, occurrences_concat.
    + rewrite filter_map_swap, length_map; unfold covered.
      destruct (py.contains Face_eqb k (cardUtils.or_empty invalid)) eqn:Ek.
      * rewrite filter_none; [reflexivity|].
        intros f _; apply (contains_not_In Face_eqb Face_eqb_eq); unfold S.
        rewrite filter_In, Ek; intros [_ H]; discriminate H.
      * f_equal; apply filter_ext; intros f.
        destruct (py.contains Face_eqb k (S f)) eqn:E1,
                 (py.contains Face_eqb f (walk next_face n k)) eqn:E2; try reflexivity.
        -- apply (contains_In Face_eqb Face_eqb_eq) in E1; unfold S in E1.
           apply filter_In in E1; destruct E1 as [E1 _].
           apply walk_back_forth, (contains_In Face_eqb Face_eqb_eq) in E1; congruence.
        -- apply (contains_In Face_eqb Face_eqb_eq), walk_back_forth in E2.
           assert (H : In k (S f)) by (apply filter_In; rewrite Ek; auto).
           apply (contains_In Face_eqb Face_eqb_eq) in H; congruence.
    + apply Forall_forall; intros s Hs; apply in_map_iff in Hs.
      destruct Hs as (f & <- & _); apply NoDup_filter, walk_NoDup, Hn. }
    assert (Ec : c = count_sets (map S (py.set_of Face_eqb faces))).
    { unfold cardUtils.get_starters_of_sequences_including_faces in Hc.
      revert Hc; unfold count_sets.
      generalize (@nil (Face * nat)) as c0.
      generalize (py.set_of Face_eqb faces) as l.
      induction l as [|f l IH]; intros c0 Hc; simpl in *; [congruence|].
      rewrite (get_starters_eq f n invalid Hn) in Hc; cbn [bind] in Hc.
      apply IH; exact Hc. }
    rewrite Ec, count_sets_concat, Counter_keys, Counter_get.
    rewrite (set_of_In Face_eqb Face_eqb_eq); symmetry.
    apply (count_pos_In Face_eqb Face_eqb_eq).
Qed.

(** X7: for a sequence length of at most 13 the starter returned by
    [get_most_frequent_starter_of_sequences_including_faces] is outside
    [invalid], its sequence covers at least one of the faces, no valid
    starter's sequence covers more distinct faces, and no valid starter
    that covers as many has greater precedence.  The search raises
    ([ValueError]) only when no valid starter covers any of the faces. *)
Theorem most_frequent_starter_covers_most
    (faces : list Face) (n : nat) (invalid : option (list Face)) :
  (n <= 13)%nat ->
  (forall r,
     cardUtils.get_most_frequent_starter_of_sequences_including_faces faces n invalid = Ok r ->
     ~ In r (cardUtils.or_empty invalid) /\
     exists sequence_r,
       cardUtils.get_sequence_of_starter r n = Ok sequence_r /\
       (1 <= covered faces sequence_r)%nat /\
       forall s sequence_s,
         ~ In s (cardUtils.or_empty invalid) ->
         cardUtils.get_sequence_of_starter s n = Ok sequence_s ->
         (covered faces sequence_s <= covered faces sequence_r)%nat /\
         (covered faces sequence_s = covered faces sequence_r ->
          cardUtils.is_straight_starter_greater s r = false)) /\
  (forall e,
     cardUtils.get_most_frequent_starter_of_sequences_including_faces faces n invalid = Raise e ->
     e = ValueError /\
     forall s sequence_s,
       ~ In s (cardUtils.or_empty invalid) ->
       cardUtils.get_sequence_of_starter s n = Ok sequence_s ->
       covered faces sequence_s = 0%nat).
Proof.
  intros Hn; change 13%nat with NUM_FACES in Hn.
  destruct (starters_counter faces n invalid Hn) as (c & _ & Hnd & Hpick & Hkey & Hget).
  rewrite Hpick.
  assert (Hvalid : forall s, ~ In s (cardUtils.or_empty invalid) ->
            py.counter_get Face_eqb c s = covered faces (walk next_face n s)).
  { intros s Hs; rewrite Hget.
    rewrite (proj2 (contains_not_In Face_eqb Face_eqb_eq s _) Hs); reflexivity. }
  split.
  - intros r Hr.
    destruct (pick_starter_spec c r Hnd Hr) as (Hin & Hmax & Hbest).
    assert (Hrv : ~ In r (cardUtils.or_empty invalid)).
    { intros Hbad; apply Hkey in Hin; rewrite Hget in Hin.
      rewrite (proj2 (contains_In Face_eqb Face_eqb_eq r _) Hbad) in Hin; lia. }
    split; [exact Hrv|].
    exists (walk next_face n r); split; [apply get_sequence_of_starter_eq | split].
    + rewrite <- (Hvalid r Hrv); apply Hkey, Hin.
    + intros s sequence_s Hs Hseq.
      rewrite get_sequence_of_starter_eq in Hseq; inversion Hseq; subst sequence_s.
      rewrite <- (Hvalid s Hs), <- (Hvalid r Hrv); split; [apply Hmax|].
      intros E; rewrite starter_greater_key; apply Z.ltb_ge, Hbest; [|exact E].
      apply Hkey; rewrite E; apply Hkey, Hin.
  - intros e He; destruct (pick_starter_raises c e Hnd He) as [-> ->].
    split; [reflexivity|].
    intros s sequence_s Hs Hseq.
    rewrite get_sequence_of_starter_eq in Hseq; inversion Hseq; subst sequence_s.
    rewrite <- (Hvalid s Hs); reflexivity.
Qed.

Lemma most_frequent_starter_covers_most_witness :
  ~ In TEN (cardUtils.or_empty (Some ranks.INVALID_STRAIGHT_STARTERS)) /\
  exists sequence_r,
    cardUtils.get_sequence_of_starter TEN 5 = Ok sequence_r /\
    (1 <= covered [KING; ACE; KING; TWO] sequence_r)%nat /\
    forall s sequence_s,
      ~ In s (cardUtils.or_empty (Some ranks.INVALID_STRAIGHT_STARTERS)) ->
      cardUtils.get_sequence_of_starter s 5 = Ok sequence_s ->
      (covered [KING; ACE; KING; TWO] sequence_s
       <= covered [KING; ACE; KING; TWO] sequence_r)%nat /\
      (covered [KING; ACE; KING; TWO] sequence_s = covered [KING; ACE; KING; TWO] sequence_r ->
       cardUtils.is_straight_starter_greater s TEN = false).
Proof.
  destruct (most_frequent_starter_covers_most [KING; ACE; KING; TWO] 5
              (Some ranks.INVALID_STRAIGHT_STARTERS)) as [H _]; [lia|].
  apply H; vm_compute; reflexivity.
Defined.

(** ** Straights *)

Lemma most_frequent_starter_valid (faces : list Face) (n : nat) (invalid : option (list Face))
    (r : Face) :
  (n <= NUM_FACES)%nat ->
  cardUtils.get_most_frequent_starter_of_sequences_including_faces faces n invalid = Ok r ->
  ~ In r (cardUtils.or_empty invalid).
Proof.
  intros Hn Hr.
  destruct (starters_counter faces n invalid Hn) as (c & _ & Hnd & Hpick & Hkey & Hget).
  rewrite Hpick in Hr.
  destruct (pick_starter_spec c r Hnd Hr) as (Hin & _).
  intros Hbad; apply Hkey in Hin; rewrite Hget in Hin.
  rewrite (proj2 (contains_In Face_eqb Face_eqb_eq r _) Hbad) in Hin; lia.
Qed.

Lemma sequence_loop_eq (faces : list Face) (n : nat) (starter : Face) :
  ranks.sequence_loop faces n starter
  = Ok (forallb (fun f => py.contains Face_eqb f faces) (walk next_face n starter)).
Proof.
  revert starter; induction n as [|n IH]; intros starter; simpl; [reflexivity|].
  destruct (py.contains Face_eqb starter faces); simpl; [|reflexivity].
  rewrite get_next_face_eq; cbn [bind]; apply IH.
Qed.

Lemma straight_is_recognised (faces : list Face) (s : Face) :
  ~ In s ranks.INVALID_STRAIGHT_STARTERS ->
  Permutation faces (walk next_face ranks.REQUIRED_LENGTH s) ->
  sequence_check faces = Ok true.
Proof.
  intros Hs Hp; rewrite (sequence_check_Permutation _ _ Hp).
  destruct s; try (vm_compute; reflexivity); exfalso; apply Hs; simpl; tauto.
Qed.

Lemma recognised_is_straight (faces : list Face) :
  length faces = ranks.REQUIRED_LENGTH -> sequence_check faces = Ok true ->
  exists s, ~ In s ranks.INVALID_STRAIGHT_STARTERS /\
            Permutation faces (walk next_face ranks.REQUIRED_LENGTH s).
Proof.
  intros Hlen H; unfold sequence_check in H; rewrite Hlen in H.
  destruct (cardUtils.get_most_frequent_starter_of_sequences_including_faces
              faces ranks.REQUIRED_LENGTH (Some ranks.INVALID_STRAIGHT_STARTERS))
    as [r|] eqn:Er; [|discriminate].
  cbn [bind] in H; rewrite sequence_loop_eq in H.
  assert (Hall : forallb (fun f => py.contains Face_eqb f faces)
                         (walk next_face ranks.REQUIRED_LENGTH r) = true) by congruence.
  exists r; split.
  - apply (most_frequent_starter_valid faces ranks.REQUIRED_LENGTH
             (Some ranks.INVALID_STRAIGHT_STARTERS) r); [vm_compute; lia | exact Er].
  - symmetry; apply NoDup_Permutation_bis.
    + apply walk_NoDup; vm_compute; lia.
    + rewrite walk_length, Hlen; lia.
    + intros f Hf; rewrite forallb_forall in Hall.
      apply (contains_In Face_eqb Face_eqb_eq), Hall, Hf.
Qed.

(** X8: on five cards the sequence validator of the catalog never raises,
    and it accepts exactly the hands whose faces are, in some order, the
    five consecutive faces that [get_sequence_of_starter] lists from a
    starter other than Jack, Queen and King (Ace to Ten: A-2-3-4-5 up to
    10-J-Q-K-A). *)
Theorem sequence_validator_accepts_exactly_the_straights (cards : list Card) :
  length cards = 5%nat ->
  exists accepted,
    ranks.create_sequence_validator (Some ranks.INVALID_STRAIGHT_STARTERS) cards = Ok accepted /\
    (accepted = true <->
     exists starter sequence,
       ~ In starter ranks.INVALID_STRAIGHT_STARTERS /\
       cardUtils.get_sequence_of_starter starter 5 = Ok sequence /\
       Permutation (cardUtils.get_faces cards) sequence).
Proof.
  intros Hlen.
  destruct (default_sequence_validator_total cards Hlen) as [b Hb].
  exists b; split; [exact Hb|].
  rewrite sequence_validator_faces in Hb.
  assert (Hflen : length (cardUtils.get_faces cards) = ranks.REQUIRED_LENGTH).
  { unfold cardUtils.get_faces; rewrite length_map; exact Hlen. }
  split.
  - intros ->; destruct (recognised_is_straight _ Hflen Hb) as (s & Hs & Hp).
    exists s, (walk next_face 5 s); split; [exact Hs | split; [|exact Hp]].
    apply get_sequence_of_starter_eq.
  - intros (s & sequence & Hs & Hseq & Hp).
    rewrite get_sequence_of_starter_eq in Hseq; inversion Hseq; subst sequence.
    rewrite (straight_is_recognised _ s Hs Hp) in Hb; congruence.
Qed.

Lemma sequence_validator_accepts_exactly_the_straights_witness :
  exists accepted,
    ranks.create_sequence_validator (Some ranks.INVALID_STRAIGHT_STARTERS) ace_low_mixed
    = Ok accepted /\
    (accepted = true <->
     exists starter sequence,
       ~ In starter ranks.INVALID_STRAIGHT_STARTERS /\
       cardUtils.get_sequence_of_starter starter 5 = Ok sequence /\
       Permutation (cardUtils.get_faces ace_low_mixed) sequence).
Proof.
  apply sequence_validator_accepts_exactly_the_straights; reflexivity.
Defined.

(** ** Groups and frequencies *)

Lemma filter_or_disjoint {X : Type} (p q : X -> bool) (l : list X) :
  (forall x, p x = true -> q x = true -> False) ->
  Permutation (filter p l ++ filter q l) (filter (fun x => p x || q x) l).
Proof.
  intros Hd; induction l as [|x l IH]; simpl; [constructor|].
  destruct (p x) eqn:Ep, (q x) eqn:Eq; simpl.
  - destruct (Hd x Ep Eq).
  - constructor; exact IH.
  - rewrite <- IH; symmetry; apply Permutation_middle.
  - exact IH.
Qed.

Lemma filter_all {X : Type} (p : X -> bool) (l : list X) :
  (forall x, In x l -> p x = true) -> filter p l = l.
Proof.
  induction l as [|x l IH]; intros H; simpl; [reflexivity|].
  rewrite (H x (or_introl eq_refl)), IH; [reflexivity|].
  intros y Hy; apply H; right; exact Hy.
Qed.

Section GroupPartition.
Context {K : Type} (eqb : K -> K -> bool).
Hypothesis eqb_spec : forall a b, eqb a b = true <-> a = b.
Context (key : Card -> K).

Lemma dict_get_tabulate_missing {V : Type} (F : K -> V) (ks : list K) (k : K) :
  ~ In k ks -> py.dict_get eqb (tabulate F ks) k = Raise KeyError.
Proof.
  induction ks as [|k' ks IH]; simpl; [reflexivity|]; intros H.
  destruct (eqb k' k) eqn:E; [apply eqb_spec in E; subst; tauto | apply IH; tauto].
Qed.

Lemma concat_groups_Permutation (cards : list Card) (ks : list K) :
  NoDup ks ->
  Permutation (concat (map (group_of eqb key cards) ks))
              (filter (fun card => py.contains eqb (key card) ks) cards).
Proof.
  induction 1 as [|k ks Hk Hnd IH]; simpl.
  - rewrite filter_none; [constructor | reflexivity].
  - rewrite IH; unfold group_of.
    rewrite filter_or_disjoint.
    + erewrite filter_ext; [reflexivity|].
      intros card; simpl; rewrite (eqb_sym_gen eqb eqb_spec); reflexivity.
    + intros card E1 E2; apply eqb_spec in E1; subst k.
      apply Hk, (contains_In eqb eqb_spec), E2.
Qed.

(** The dictionary built by [get_groups_by_face] / [get_groups_by_suit]. *)
Lemma groups_partition (cards : list Card) :
  let groups := tabulate (group_of eqb key cards) (py.set_of eqb (map key cards)) in
  NoDup (py.keys groups) /\
  (forall k, In k (py.keys groups) <-> In k (map key cards)) /\
  (forall k, In k (map key cards) ->
             py.dict_get eqb groups k = Ok (filter (fun card => eqb (key card) k) cards)) /\
  (forall k, ~ In k (map key cards) -> py.dict_get eqb groups k = Raise KeyError) /\
  Forall (fun group => group <> []) (py.values groups) /\
  Permutation (concat (py.values groups)) cards.
Proof.
  intros groups; unfold groups, py.keys, py.values.
  rewrite tabulate_keys.
  split; [apply (set_of_NoDup eqb eqb_spec)|].
  split; [intros k; apply (set_of_In eqb eqb_spec)|].
  split; [|split; [|split]].
  - intros k Hk.
    apply (dict_get_tabulate eqb eqb_spec (group_of eqb key cards)), (set_of_In eqb eqb_spec), Hk.
  - intros k Hk; apply dict_get_tabulate_missing.
    rewrite (set_of_In eqb eqb_spec); exact Hk.
  - unfold tabulate; rewrite map_map; simpl.
    apply Forall_forall; intros g Hg; apply in_map_iff in Hg; destruct Hg as (k & <- & Hk).
    apply (group_of_nonempty eqb eqb_spec), (set_of_In eqb eqb_spec), Hk.
  - unfold tabulate; rewrite map_map; simpl.
    rewrite concat_groups_Permutation by apply (set_of_NoDup eqb eqb_spec).
    rewrite filter_all; [reflexivity|].
    intros card Hc; apply (contains_In eqb eqb_spec), (set_of_In eqb eqb_spec), in_map, Hc.
Qed.

Lemma keys_with_frequency_eq (groups : list (K * list Card)) (frequency : Z) :
  cardUtils.keys_with_frequency groups frequency
  = map fst (filter (fun item => Z.of_nat (length (snd item)) =? frequency) groups).
Proof.
  unfold cardUtils.keys_with_frequency, py.items.
  assert (H : forall acc,
             fold_left (fun found '(k, group) =>
                          if Z.of_nat (length group) =? frequency then found ++ [k] else found)
                       groups acc
             = acc ++ map fst (filter (fun item => Z.of_nat (length (snd item)) =? frequency)
                                      groups)).
  { induction groups as [|[k g] groups IH]; intros acc; simpl; [rewrite app_nil_r; reflexivity|].
    rewrite IH; destruct (Z.of_nat (length g) =? frequency); simpl;
      [rewrite <- app_assoc|]; reflexivity. }
  apply H.
Qed.

Lemma group_of_count (cards : list Card) (k : K) :
  length (group_of eqb key cards k) = py.count eqb k (map key cards).
Proof.
  unfold group_of, py.count; induction cards as [|card cards IH]; simpl; [reflexivity|].
  destruct (eqb (key card) k); simpl; rewrite IH; reflexivity.
Qed.

(** The keys that [get_faces_with_frequency] / [get_suits_with_frequency]
    collect from the group dictionary. *)
Lemma keys_with_frequency_spec (cards : list Card) (frequency : Z) :
  let found := cardUtils.keys_with_frequency
                 (tabulate (group_of eqb key cards) (py.set_of eqb (map key cards)))
                 frequency in
  found = filter (fun k => Z.of_nat (py.count eqb k (map key cards)) =? frequency)
                 (py.set_of eqb (map key cards)) /\
  NoDup found /\
  forall k, In k found <->
            In k (map key cards) /\ Z.of_nat (py.count eqb k (map key cards)) = frequency.
Proof.
  intros found.
  assert (E : found = filter (fun k => Z.of_nat (py.count eqb k (map key cards)) =? frequency)
                             (py.set_of eqb (map key cards))).
  { unfold found; rewrite keys_with_frequency_eq; unfold tabulate.
    rewrite filter_map_swap, map_map; simpl; rewrite map_id.
    apply filter_ext; intros k; simpl; rewrite group_of_count; reflexivity. }
  split; [exact E|]; rewrite E; split.
  - apply NoDup_filter, (set_of_NoDup eqb eqb_spec).
  - intros k; rewrite filter_In, (set_of_In eqb eqb_spec), Z.eqb_eq; reflexivity.
Qed.
End GroupPartition.

(** X9: [get_groups_by_face] and [get_groups_by_suit] never raise and
    partition the hand: the keys are the distinct faces (suits) of the hand,
    each once; looking a key up gives the cards that
    [get_cards_with_face] ([get_cards_with_suit]) selects, in hand order,
    and a key that is not in the hand raises [KeyError]; no group is empty
    and the groups together hold exactly the cards of the hand. *)
Theorem groups_partition_the_hand (cards : list Card) :
  (exists groups,
     cardUtils.get_groups_by_face cards = Ok groups /\
     NoDup (py.keys groups) /\
     (forall f, In f (py.keys groups) <-> In f (cardUtils.get_faces cards)) /\
     (forall f, In f (cardUtils.get_faces cards) ->
        py.dict_get Face_eqb groups f = Ok (cardUtils.get_cards_with_face cards f)) /\
     (forall f, ~ In f (cardUtils.get_faces cards) ->
        py.dict_get Face_eqb groups f = Raise KeyError) /\
     Forall (fun group => group <> []) (py.values groups) /\
     Permutation (concat (py.values groups)) cards) /\
  (exists groups,
     cardUtils.get_groups_by_suit cards = Ok groups /\
     NoDup (py.keys groups) /\
     (forall s, In s (py.keys groups) <-> In s (cardUtils.get_suits cards)) /\
     (forall s, In s (cardUtils.get_suits cards) ->
        py.dict_get Suit_eqb groups s = Ok (cardUtils.get_cards_with_suit cards s)) /\
     (forall s, ~ In s (cardUtils.get_suits cards) ->
        py.dict_get Suit_eqb groups s = Raise KeyError) /\
     Forall (fun group => group <> []) (py.values groups) /\
     Permutation (concat (py.values groups)) cards).
Proof.
  split; eexists.
  - split; [apply get_groups_by_face_eq|].
    apply (groups_partition Face_eqb Face_eqb_eq face cards).
  - split; [apply get_groups_by_suit_eq|].
    apply (groups_partition Suit_eqb Suit_eqb_eq suit cards).
Qed.

Lemma groups_partition_the_hand_witness :
  exists groups,
    cardUtils.get_groups_by_face kings_full_of_twos = Ok groups /\
    py.dict_get Face_eqb groups KING
    = Ok [mkCard KING SPADES; mkCard KING HEARTS; mkCard KING CLOVERS] /\
    py.dict_get Face_eqb groups ACE = Raise KeyError.
Proof.
  destruct (groups_partition_the_hand kings_full_of_twos)
    as [(groups & Hg & _ & _ & Hin & Hout & _) _].
  exists groups; split; [exact Hg | split].
  - apply (Hin KING); simpl; tauto.
  - apply (Hout ACE); simpl; intuition discriminate.
Defined.

(** X10: [get_faces_with_frequency] and [get_suits_with_frequency] never
    raise and return, each once, exactly the faces (suits) that occur in the
    hand the given number of times; [has_required_group] holds exactly
    when that list has the required number of elements. *)
Theorem keys_with_frequency_are_those_occurring_that_often (cards : list Card) :
  (forall frequency : Z,
     exists faces,
       cardUtils.get_faces_with_frequency cards frequency = Ok faces /\
       NoDup faces /\
       forall f, In f faces <->
                 In f (cardUtils.get_faces cards) /\
                 Z.of_nat (py.count Face_eqb f (cardUtils.get_faces cards)) = frequency) /\
  (forall frequency : Z,
     exists suits,
       cardUtils.get_suits_with_frequency cards frequency = Ok suits /\
       NoDup suits /\
       forall s, In s suits <->
                 In s (cardUtils.get_suits cards) /\
                 Z.of_nat (py.count Suit_eqb s (cardUtils.get_suits cards)) = frequency) /\
  (forall group_size num_of_groups : nat,
     exists faces suits,
       cardUtils.get_faces_with_frequency cards (Z.of_nat group_size) = Ok faces /\
       cardUtils.get_suits_with_frequency cards (Z.of_nat group_size) = Ok suits /\
       ranks.has_required_group Face_eqb (cardUtils.get_faces cards) group_size num_of_groups
       = Nat.eqb (length faces) num_of_groups /\
       ranks.has_required_group Suit_eqb (cardUtils.get_suits cards) group_size num_of_groups
       = Nat.eqb (length suits) num_of_groups).
Proof.
  split; [|split].
  - intros frequency; unfold cardUtils.get_faces_with_frequency.
    rewrite get_groups_by_face_eq; cbn [bind]; eexists; split; [reflexivity|].
    apply (keys_with_frequency_spec Face_eqb Face_eqb_eq face cards frequency).
  - intros frequency; unfold cardUtils.get_suits_with_frequency.
    rewrite get_groups_by_suit_eq; cbn [bind]; eexists; split; [reflexivity|].
    apply (keys_with_frequency_spec Suit_eqb Suit_eqb_eq suit cards frequency).
  - intros group_size num_of_groups.
    unfold cardUtils.get_faces_with_frequency, cardUtils.get_suits_with_frequency.
    rewrite get_groups_by_face_eq, get_groups_by_suit_eq; cbn [bind].
    do 2 eexists; split; [reflexivity | split; [reflexivity|]].
    destruct (keys_with_frequency_spec Face_eqb Face_eqb_eq face cards (Z.of_nat group_size))
      as [E1 _].
    destruct (keys_with_frequency_spec Suit_eqb Suit_eqb_eq suit cards (Z.of_nat group_size))
      as [E2 _].
    cbv zeta in E1, E2; unfold cardUtils.get_faces, cardUtils.get_suits; rewrite E1, E2.
    rewrite (has_required_group_eq Face_eqb Face_eqb_eq),
            (has_required_group_eq Suit_eqb Suit_eqb_eq).
    split; do 2 f_equal; apply filter_ext; intros k;
      match goal with |- (?a =? ?b)%nat = _ => destruct (Nat.eqb_spec a b) as [E|E] end;
      symmetry; [apply Z.eqb_eq | apply Z.eqb_neq | apply Z.eqb_eq | apply Z.eqb_neq]; lia.
Qed.

Lemma min_total (xs : list nat) : xs <> [] -> exists m, py.min xs = Ok m /\ In m xs.
Proof.
  destruct xs as [|x xs]; [congruence|]; intros _; simpl.
  eexists; split; [reflexivity|].
  revert x; induction xs as [|y xs IH]; intros x; simpl; [auto|].
  destruct (IH (Nat.min x y)) as [H|H]; [|right; right; exact H].
  destruct (Nat.min_dec x y) as [E|E]; rewrite E in *; [left | right; left]; exact H.
Qed.

Lemma min_spec (xs : list nat) (m : nat) :
  py.min xs = Ok m -> In m xs /\ Forall (fun x => (m <= x)%nat) xs.
Proof.
  destruct xs as [|x xs]; [discriminate|]; simpl; intros H.
  assert (E : fold_left Nat.min xs x = m) by congruence; clear H; subst m.
  revert x; induction xs as [|y xs IH]; intros x; simpl.
  - split; [left; reflexivity | constructor; [lia | constructor]].
  - destruct (IH (Nat.min x y)) as [Hin Hall].
    inversion Hall as [|? ? Hle Hall']; subst.
    split.
    + destruct Hin as [Hin|Hin]; [|right; right; exact Hin].
      destruct (Nat.min_dec x y) as [E|E]; rewrite E in *; [left | right; left]; exact Hin.
    + constructor; [lia | constructor; [lia | exact Hall']].
Qed.

Section Frequencies.
Context {K : Type} (eqb : K -> K -> bool).
Hypothesis eqb_spec : forall a b, eqb a b = true <-> a = b.
Context (key : Card -> K).

Lemma group_sizes (cards : list Card) :
  map (fun group : list Card => length group)
      (py.values (tabulate (group_of eqb key cards) (py.set_of eqb (map key cards))))
  = map (fun k => py.count eqb k (map key cards)) (py.set_of eqb (map key cards)).
Proof.
  unfold py.values, tabulate; rewrite !map_map; simpl.
  apply map_ext; intros k; apply group_of_count.
Qed.

Lemma count_le_length (k : K) (l : list K) : (py.count eqb k l <= length l)%nat.
Proof. apply filter_length_le. Qed.

(** The largest and the smallest group size of a non-empty hand. *)
Lemma extreme_frequencies (cards : list Card) :
  cards <> [] ->
  let attributes := map key cards in
  let sizes := map (fun group : list Card => length group)
                   (py.values (tabulate (group_of eqb key cards) (py.set_of eqb attributes))) in
  exists highest lowest,
    py.max sizes = Ok highest /\ py.min sizes = Ok lowest /\
    (exists k, In k attributes /\ py.count eqb k attributes = highest) /\
    (forall k, (py.count eqb k attributes <= highest)%nat) /\
    (exists k, In k attributes /\ py.count eqb k attributes = lowest) /\
    (forall k, In k attributes -> (lowest <= py.count eqb k attributes)%nat) /\
    (1 <= lowest <= highest)%nat /\ (highest <= length cards)%nat.
Proof.
  intros Hne attributes sizes.
  assert (Hs : sizes = map (fun k => py.count eqb k attributes) (py.set_of eqb attributes))
    by apply group_sizes.
  assert (Hsne : sizes <> []).
  { rewrite Hs; intros E; apply map_eq_nil in E.
    revert E; apply (set_of_nonempty eqb eqb_spec).
    unfold attributes; destruct cards; [congruence | discriminate]. }
  destruct (max_total sizes Hsne) as (highest & Hmax & _).
  destruct (min_total sizes Hsne) as (lowest & Hmin & _).
  destruct (max_spec _ _ Hmax) as [Hin_max Hall_max].
  destruct (min_spec _ _ Hmin) as [Hin_min Hall_min].
  rewrite Hs in Hin_max, Hin_min, Hall_max, Hall_min.
  apply in_map_iff in Hin_max; destruct Hin_max as (kmax & Ekmax & Hkmax).
  apply in_map_iff in Hin_min; destruct Hin_min as (kmin & Ekmin & Hkmin).
  apply (proj1 (set_of_In eqb eqb_spec _ _)) in Hkmax.
  apply (proj1 (set_of_In eqb eqb_spec _ _)) in Hkmin.
  rewrite Forall_map, Forall_forall in Hall_max, Hall_min.
  assert (Hle : forall k, In k attributes
                          -> (lowest <= py.count eqb k attributes <= highest)%nat).
  { intros k Hk; apply (proj2 (set_of_In eqb eqb_spec _ _)) in Hk.
    split; [apply Hall_min | apply Hall_max]; exact Hk. }
  exists highest, lowest; split; [exact Hmax | split; [exact Hmin|]].
  split; [exists kmax; split; [exact Hkmax | exact Ekmax]|].
  split.
  { intros k; destruct (Nat.eq_dec (py.count eqb k attributes) 0) as [E|E]; [lia|].
    apply Hle, (count_pos_In eqb eqb_spec); lia. }
  split; [exists kmin; split; [exact Hkmin | exact Ekmin]|].
  split; [intros k Hk; apply Hle, Hk|].
  pose proof (proj2 (count_pos_In eqb eqb_spec kmin attributes) Hkmin) as Hpos.
  pose proof (Hle kmin Hkmin) as Hb.
  pose proof (count_le_length kmax attributes) as Hlen.
  unfold attributes in Hlen at 2; rewrite length_map in Hlen.
  lia.
Qed.
End Frequencies.

(** X11: on a non-empty hand the four frequency functions return a value:
    [get_max_face_frequency] is the number of occurrences of a face of the
    hand and no face occurs more often, [get_min_face_frequency] is the
    number of occurrences of a face of the hand and no face of the hand
    occurs less often, and [1 <= min <= max <= len(cards)]; the same holds
    for suits.  On the empty hand all four raise [ValueError]. *)
Theorem frequencies_are_extreme_group_sizes (cards : list Card) :
  (cards = [] ->
   cardUtils.get_max_face_frequency cards = Raise ValueError /\
   cardUtils.get_min_face_frequency cards = Raise ValueError /\
   cardUtils.get_max_suit_frequency cards = Raise ValueError /\
   cardUtils.get_min_suit_frequency cards = Raise ValueError) /\
  (cards <> [] ->
   (exists highest lowest,
      cardUtils.get_max_face_frequency cards = Ok highest /\
      cardUtils.get_min_face_frequency cards = Ok lowest /\
      (exists f, In f (cardUtils.get_faces cards) /\
                 py.count Face_eqb f (cardUtils.get_faces cards) = highest) /\
      (forall f, (py.count Face_eqb f (cardUtils.get_faces cards) <= highest)%nat) /\
      (exists f, In f (cardUtils.get_faces cards) /\
                 py.count Face_eqb f (cardUtils.get_faces cards) = lowest) /\
      (forall f, In f (cardUtils.get_faces cards) ->
                 (lowest <= py.count Face_eqb f (cardUtils.get_faces cards))%nat) /\
      (1 <= lowest <= highest)%nat /\ (highest <= length cards)%nat) /\
   (exists highest lowest,
      cardUtils.get_max_suit_frequency cards = Ok highest /\
      cardUtils.get_min_suit_frequency cards = Ok lowest /\
      (exists s, In s (cardUtils.get_suits cards) /\
                 py.count Suit_eqb s (cardUtils.get_suits cards) = highest) /\
      (forall s, (py.count Suit_eqb s (cardUtils.get_suits cards) <= highest)%nat) /\
      (exists s, In s (cardUtils.get_suits cards) /\
                 py.count Suit_eqb s (cardUtils.get_suits cards) = lowest) /\
      (forall s, In s (cardUtils.get_suits cards) ->
                 (lowest <= py.count Suit_eqb s (cardUtils.get_suits cards))%nat) /\
      (1 <= lowest <= highest)%nat /\ (highest <= length cards)%nat)).
Proof.
  split.
  - intros ->; repeat split; reflexivity.
  - intros Hne; split.
    + unfold cardUtils.get_max_face_frequency, cardUtils.get_min_face_frequency, cardUtils.Hand.
      rewrite get_groups_by_face_eq; cbn [bind].
      apply (extreme_frequencies Face_eqb Face_eqb_eq face cards Hne).
    + unfold cardUtils.get_max_suit_frequency, cardUtils.get_min_suit_frequency, cardUtils.Hand.
      rewrite get_groups_by_suit_eq; cbn [bind].
      apply (extreme_frequencies Suit_eqb Suit_eqb_eq suit cards Hne).
Qed.

Lemma frequencies_are_extreme_group_sizes_witness :
  kings_full_of_twos <> [] /\
  exists highest lowest,
    cardUtils.get_max_face_frequency kings_full_of_twos = Ok highest /\
    cardUtils.get_min_face_frequency kings_full_of_twos = Ok lowest /\
    (1 <= lowest <= highest)%nat /\ (highest <= length kings_full_of_twos)%nat.
Proof.
  assert (Hne : kings_full_of_twos <> []) by discriminate.
  split; [exact Hne|].
  destruct (proj1 (proj2 (frequencies_are_extreme_group_sizes kings_full_of_twos) Hne))
    as (highest & lowest & H1 & H2 & _ & _ & _ & _ & H3 & H4).
  exists highest, lowest; auto.
Defined.

(** ** The game *)

Lemma Card_eqb_eq (a b : Card) : Card_eqb a b = true <-> a = b.
Proof.
  destruct a as [fa sa], b as [fb sb]; unfold Card_eqb; simpl.
  rewrite andb_true_iff, Face_eqb_eq, Suit_eqb_eq; split.
  - intros [-> ->]; reflexivity.
  - intros H; inversion H; auto.
Qed.



(** [list.remove] on a list that holds the item. *)
Lemma remove_In (x : Card) (h : list Card) :
  In x h -> exists h', py.remove Card_eqb x h = Ok h' /\ Permutation h (x :: h').
Proof.
  induction h as [|y h IH]; simpl; [tauto|]; intros H.
  destruct (Card_eqb y x) eqn:E.
  - apply Card_eqb_eq in E; subst y; exists h; split; reflexivity.
  - destruct H as [H|H]; [subst y; rewrite (proj2 (Card_eqb_eq x x) eq_refl) in E; discriminate|].
    destruct (IH H) as (h' & -> & Hp); simpl.
    exists (y :: h'); split; [reflexivity|].
    rewrite Hp; apply perm_swap.
Qed.

(** Removing, one after the other, cards that the hand holds never raises. *)
Lemma remove_all (ds h rest : list Card) :
  Permutation h (ds ++ rest) ->
  exists h', foldM (fun h card => py.remove Card_eqb card h) ds h = Ok h' /\ Permutation h' rest.
Proof.
  revert h; induction ds as [|d ds IH]; intros h Hp; simpl.
  - exists h; split; [reflexivity | exact Hp].
  - assert (Hd : In d h).
    { apply (Permutation_in d (Permutation_sym Hp)); left; reflexivity. }
    destruct (remove_In d h Hd) as (h1 & -> & Hp1); simpl.
    apply IH, (Permutation_cons_inv (a := d)).
    rewrite <- Hp1; exact Hp.
Qed.

Lemma slice_to_prefix {A : Type} (n : Z) (l : list A) :
  exists rest, l = py.slice_to n l ++ rest.
Proof.
  unfold py.slice_to; destruct (n <? 0);
    eexists; symmetry; apply firstn_skipn.
Qed.

Lemma slice_to_length {A : Type} (n : Z) (l : list A) :
  0 <= n -> (length (py.slice_to n l) <= Z.to_nat n)%nat.
Proof.
  intros Hn; unfold py.slice_to.
  destruct (Z.ltb_spec n 0) as [H|H]; [lia|].
  rewrite length_firstn; lia.
Qed.

Lemma filter_split (p : Card -> bool) (l : list Card) :
  Permutation l (filter p l ++ filter (fun c => negb (p c)) l).
Proof.
  induction l as [|x l IH]; simpl; [constructor|].
  destruct (p x); simpl; [constructor; exact IH|].
  rewrite <- Permutation_middle; constructor; exact IH.
Qed.

(** [Player.discard] when the keeper function returns [kept]. *)
Lemma discard_spec (self : game.Player) (kept : list Card) :
  game.get_keeper_func (game.discarder self) (game.hand self) = Ok kept ->
  exists discards new_hand,
    game.get_discards (game.discarder self) (game.hand self) = Ok discards /\
    game.discard self = Ok (game.set_hand self new_hand) /\
    Permutation (game.hand self) (discards ++ new_hand) /\
    (forall card, In card discards -> In card (game.hand self) /\ ~ In card kept) /\
    (0 <= game.max_discards (game.discarder self) ->
     (length discards <= Z.to_nat (game.max_discards (game.discarder self)))%nat).
Proof.
  intros Hk.
  set (irrelevant := filter (fun card => negb (py.contains Card_eqb card kept)) (game.hand self)).
  set (discards := py.slice_to (game.max_discards (game.discarder self)) irrelevant).
  assert (Hd : game.get_discards (game.discarder self) (game.hand self) = Ok discards).
  { unfold game.get_discards, game.get_irrelevant_cards; rewrite Hk; reflexivity. }
  destruct (slice_to_prefix (game.max_discards (game.discarder self)) irrelevant) as [rest Hrest].
  fold discards in Hrest.
  assert (Hp : Permutation (game.hand self)
                 (discards ++ rest ++ filter (fun card => py.contains Card_eqb card kept)
                                             (game.hand self))).
  { rewrite app_assoc, <- Hrest.
    rewrite (filter_split (fun card => py.contains Card_eqb card kept) (game.hand self)) at 1.
    apply Permutation_app_comm. }
  destruct (remove_all _ _ _ Hp) as (new_hand & Hrem & Hnew).
  exists discards, new_hand; split; [exact Hd | split; [|split; [|split]]].
  - unfold game.discard; rewrite Hd; cbn [bind]; rewrite Hrem; reflexivity.
  - rewrite Hnew; exact Hp.
  - intros card Hc.
    assert (Hi : In card irrelevant) by (rewrite Hrest; apply in_or_app; left; exact Hc).
    apply filter_In in Hi; destruct Hi as [Hh Hn]; split; [exact Hh|].
    intros Hin; apply (contains_In Card_eqb Card_eqb_eq) in Hin.
    rewrite Hin in Hn; discriminate.
  - intros Hmax; apply slice_to_length, Hmax.
Qed.

Lemma pop_snoc {A : Type} (l : list A) (x : A) : py.pop (l ++ [x]) = Ok (x, l).
Proof.
  induction l as [|y l IH]; simpl; [reflexivity|].
  rewrite IH; destruct (l ++ [x]) eqn:E; [destruct l; discriminate | reflexivity].
Qed.

Lemma fill_loop_draws (drawn d hand : list Card) :
  game.fill_loop (length drawn) (d ++ rev drawn) hand = Ok (d, hand ++ drawn).
Proof.
  revert hand; induction drawn as [|x drawn IH]; intros hand; simpl.
  - rewrite !app_nil_r; reflexivity.
  - rewrite app_assoc, pop_snoc; simpl.
    rewrite IH, <- app_assoc; reflexivity.
Qed.

Lemma fill_loop_short (n : nat) (deck hand : list Card) :
  (length deck < n)%nat -> game.fill_loop n deck hand = Raise IndexError.
Proof.
  revert deck hand; induction n as [|n IH]; intros deck hand H; [lia|].
  destruct (rev deck) as [|x r] eqn:E.
  - apply (f_equal (@rev Card)) in E; rewrite rev_involutive in E; subst deck; reflexivity.
  - apply (f_equal (@rev Card)) in E; rewrite rev_involutive in E; simpl in E; subst deck.
    simpl; rewrite pop_snoc; simpl; apply IH.
    rewrite length_app in H; simpl in H; lia.
Qed.

(** [Game.fill_player_hand] when the deck holds the missing cards: they are
    taken from the end of the deck, the last card first. *)
Lemma fill_player_hand_spec (deck : list Card) (player : game.Player) :
  (game.MAX_HAND_LENGTH - length (game.hand player) <= length deck)%nat ->
  exists deck' drawn,
    game.fill_player_hand deck player
    = Ok (deck', game.set_hand player (game.hand player ++ drawn)) /\
    deck = deck' ++ rev drawn /\
    length drawn = (game.MAX_HAND_LENGTH - length (game.hand player))%nat.
Proof.
  intros H.
  set (need := (game.MAX_HAND_LENGTH - length (game.hand player))%nat) in *.
  set (deck' := firstn (length deck - need) deck).
  set (drawn := rev (skipn (length deck - need) deck)).
  assert (Hdeck : deck = deck' ++ rev drawn).
  { unfold deck', drawn; rewrite rev_involutive; symmetry; apply firstn_skipn. }
  assert (Hlen : length drawn = need).
  { unfold drawn; rewrite length_rev, length_skipn; lia. }
  exists deck', drawn; split; [|split; [exact Hdeck | exact Hlen]].
  unfold game.fill_player_hand; fold need.
  rewrite <- Hlen, Hdeck at 1; rewrite fill_loop_draws; reflexivity.
Qed.

(** *** The keeper functions return *)

Lemma group_item_key_nonempty {K : Type} (item : K * list Card) :
  snd item <> [] ->
  cardUtils.group_item_key item = Ok (size_and_value item) /\
  fst (size_and_value item) = length (snd item).
Proof.
  intros Hne; unfold size_and_value, cardUtils.group_item_key.
  pose proof (sorted_length Card_ltb (fun c => c) true (snd item)) as Hlen.
  destruct (py.sorted Card_ltb (fun c => c) true (snd item)) as [|top rest].
  - destruct (snd item); [congruence | discriminate].
  - simpl; split; reflexivity.
Qed.

(** [get_group_items_by_size_and_value] on a dictionary without empty groups. *)
Lemma get_group_items_sorted {K : Type} (groups : list (K * list Card)) (reverse : bool) :
  Forall (fun item => snd item <> []) groups ->
  cardUtils.get_group_items_by_size_and_value groups reverse
  = Ok (py.sorted cardUtils.size_value_ltb size_and_value reverse groups).
Proof.
  intros Hne; unfold cardUtils.get_group_items_by_size_and_value, py.items.
  rewrite (mapM_total _ size_and_value).
  - simpl; rewrite sorted_decorated; reflexivity.
  - rewrite Forall_forall in Hne; intros item Hi.
    apply group_item_key_nonempty, Hne, Hi.
Qed.

Lemma keep_large_groups_fixed {K : Type} (n : Z) (cards : list Card)
    (items : list (K * list Card)) (acc : list Card) :
  game.keep_large_groups (game.Fixed n) cards items acc
  = Ok (acc ++ concat (map snd (take_while (fun item => Z.of_nat (length (snd item)) >=? n)
                                           items))).
Proof.
  revert acc; induction items as [|[k g] items IH]; intros acc; simpl.
  - rewrite app_nil_r; reflexivity.
  - destruct (Z.of_nat (length g) >=? n); simpl.
    + rewrite IH, <- app_assoc; reflexivity.
    + rewrite app_nil_r; reflexivity.
Qed.

Lemma groups_nonempty {K : Type} (eqb : K -> K -> bool) (key : Card -> K) (cards : list Card) :
  (forall a b, eqb a b = true <-> a = b) ->
  Forall (fun item : K * list Card => snd item <> [])
         (tabulate (group_of eqb key cards) (py.set_of eqb (map key cards))).
Proof.
  intros eqb_spec; apply Forall_forall; intros item Hi.
  apply in_map_iff in Hi; destruct Hi as (k & <- & Hk); simpl.
  apply (group_of_nonempty eqb eqb_spec), (set_of_In eqb eqb_spec), Hk.
Qed.

Lemma frequency_keeper_returns (n : Z) (cards : list Card) :
  game.create_face_frequency_target_finder (game.Fixed n) cards
  = Ok (concat (map snd (take_while (fun item => Z.of_nat (length (snd item)) >=? n)
                                    (sorted_groups cards)))).
Proof.
  unfold game.create_face_frequency_target_finder, cardUtils.Hand.
  rewrite get_groups_by_face_eq; cbn [bind].
  fold (face_groups cards); rewrite get_group_items_eq; cbn [bind].
  rewrite keep_large_groups_fixed; reflexivity.
Qed.



(** A valid starter whose straight holds the face. *)
Lemma valid_starter_exists (f : Face) :
  exists s, py.contains Face_eqb s ranks.INVALID_STRAIGHT_STARTERS = false /\
            py.contains Face_eqb f (walk next_face ranks.REQUIRED_LENGTH s) = true.
Proof.
  exists (match f with JACK | QUEEN | KING => TEN | _ => f end).
  destruct f; split; vm_compute; reflexivity.
Qed.

Lemma straight_starter_returns (faces : list Face) :
  faces <> [] ->
  exists r,
    cardUtils.get_most_frequent_starter_of_sequences_including_faces
      faces ranks.REQUIRED_LENGTH (Some ranks.INVALID_STRAIGHT_STARTERS) = Ok r.
Proof.
  intros Hne.
  assert (Hn : (ranks.REQUIRED_LENGTH <= NUM_FACES)%nat) by (vm_compute; lia).
  destruct (starters_counter faces ranks.REQUIRED_LENGTH
              (Some ranks.INVALID_STRAIGHT_STARTERS) Hn) as (c & _ & Hnd & Hpick & Hkey & Hget).
  rewrite Hpick.
  destruct (pick_starter c) as [r|e] eqn:E; [exists r; reflexivity|].
  exfalso; apply pick_starter_raises in E; [|exact Hnd]; destruct E as [-> _].
  destruct faces as [|f faces]; [congruence|].
  destruct (valid_starter_exists f) as (s & Hs & Hf).
  assert (Hpos : (0 < py.counter_get Face_eqb [] s)%nat).
  { rewrite Hget; simpl cardUtils.or_empty; rewrite Hs.
    unfold covered.
    assert (Hin : In f (filter (fun f0 => py.contains Face_eqb f0
                                            (walk next_face ranks.REQUIRED_LENGTH s))
                               (py.set_of Face_eqb (f :: faces)))).
    { apply filter_In; split; [|exact Hf].
      apply (set_of_In Face_eqb Face_eqb_eq); left; reflexivity. }
    destruct (filter _ _); [destruct Hin | simpl; lia]. }
  simpl in Hpos; lia.
Qed.



(** *** Rounds *)

Section ForEachPlayer.
Variable body : list Card -> game.Player -> result (list Card * game.Player).
Variable P : game.Player -> Prop.
Variable Q : game.Player -> game.Player -> Prop.
Variable k : nat.
Hypothesis Hbody :
  forall deck p, P p -> (k <= length deck)%nat ->
  exists deck' p' out,
    body deck p = Ok (deck', p') /\ Q p p' /\
    (length deck <= length deck' + k)%nat /\
    Permutation (deck ++ game.hand p) (deck' ++ game.hand p' ++ out).


End ForEachPlayer.










(** X12: when the keeper function of the player's discarder returns,
    [Player.discard] returns too ([list.remove] never raises): the hand is
    split into the discards and the cards that stay; every discard is a card
    of the hand that the keeper function did not keep, so every kept card
    of the hand stays; and with a non-negative [max_discards] at most that
    many cards go.  When the keeper function raises, so does [discard]. *)
Theorem discard_removes_only_cards_not_kept (self : game.Player) :
  (forall kept,
     game.get_keeper_func (game.discarder self) (game.hand self) = Ok kept ->
     exists discards new_hand,
       game.get_discards (game.discarder self) (game.hand self) = Ok discards /\
       game.discard self = Ok (game.mkPlayer (game.name self) (game.discarder self) new_hand) /\
       Permutation (game.hand self) (discards ++ new_hand) /\
       (forall card, In card discards -> In card (game.hand self) /\ ~ In card kept) /\
       (forall card, In card kept -> In card (game.hand self) -> In card new_hand) /\
       (0 <= game.max_discards (game.discarder self) ->
        Z.of_nat (length discards) <= game.max_discards (game.discarder self))) /\
  (forall e,
     game.get_keeper_func (game.discarder self) (game.hand self) = Raise e ->
     game.discard self = Raise e).
Proof.
  split.
  - intros kept Hk.
    destruct (discard_spec self kept Hk) as (ds & new_hand & Hd & Hdis & Hperm & Hin & Hlen).
    exists ds, new_hand.
    split; [exact Hd | split; [exact Hdis | split; [exact Hperm | split; [exact Hin | split]]]].
    + intros card Hc Hh.
      apply (Permutation_in card Hperm) in Hh; apply in_app_or in Hh.
      destruct Hh as [Hh|Hh]; [|exact Hh].
      destruct (Hin card Hh) as [_ Hn]; contradiction.
    + intros Hmax; specialize (Hlen Hmax); lia.
  - intros e He; unfold game.discard, game.get_discards, game.get_irrelevant_cards.
    rewrite He; reflexivity.
Qed.

Lemma discard_removes_only_cards_not_kept_witness :
  exists discards new_hand,
    game.discard (game.mkPlayer "Player 1"%string game.FLUSH_DISCARDER kings_full_of_twos)
    = Ok (game.mkPlayer "Player 1"%string game.FLUSH_DISCARDER new_hand) /\
    Permutation kings_full_of_twos (discards ++ new_hand) /\
    Z.of_nat (length discards) <= 3.
Proof.
  assert (Hk : game.get_keeper_func game.FLUSH_DISCARDER kings_full_of_twos
               = Ok [mkCard KING SPADES; mkCard TWO SPADES]) by (vm_compute; reflexivity).
  destruct (proj1 (discard_removes_only_cards_not_kept
                     (game.mkPlayer "Player 1"%string game.FLUSH_DISCARDER kings_full_of_twos))
                  _ Hk)
    as (discards & new_hand & _ & Hdis & Hperm & _ & _ & Hmax).
  exists discards, new_hand; split; [exact Hdis | split; [exact Hperm|]].
  apply Hmax; vm_compute; discriminate.
Defined.

(** X13: [Game.fill_player_hand] takes the cards that the hand lacks to
    five from the end of the deck, the last card of the deck first, and
    appends them to the hand in the order drawn; a hand of five or more
    cards and the deck stay as they are.  When the deck has fewer cards
    than the hand lacks, the call raises [IndexError]. *)
Theorem fill_player_hand_draws_from_the_end (deck : list Card) (player : game.Player) :
  let missing := (game.MAX_HAND_LENGTH - length (game.hand player))%nat in
  ((missing <= length deck)%nat ->
   exists deck' drawn,
     game.fill_player_hand deck player
     = Ok (deck', game.mkPlayer (game.name player) (game.discarder player)
                                (game.hand player ++ drawn)) /\
     deck = deck' ++ rev drawn /\
     length drawn = missing) /\
  ((length deck < missing)%nat ->
   game.fill_player_hand deck player = Raise IndexError).
Proof.
  intros missing; split.
  - apply fill_player_hand_spec.
  - intros H; unfold game.fill_player_hand; fold missing.
    rewrite fill_loop_short by exact H; reflexivity.
Qed.

Lemma fill_player_hand_draws_from_the_end_witness :
  exists deck' drawn,
    game.fill_player_hand hearts_9_to_K
      (game.mkPlayer "Player 1"%string game.FLUSH_DISCARDER
                     [mkCard KING SPADES; mkCard TWO SPADES])
    = Ok (deck', game.mkPlayer "Player 1"%string game.FLUSH_DISCARDER
                               ([mkCard KING SPADES; mkCard TWO SPADES] ++ drawn)) /\
    hearts_9_to_K = deck' ++ rev drawn /\
    length drawn = 3%nat.
Proof.
  apply (proj1 (fill_player_hand_draws_from_the_end hearts_9_to_K
                  (game.mkPlayer "Player 1"%string game.FLUSH_DISCARDER
                                 [mkCard KING SPADES; mkCard TWO SPADES]))).
  vm_compute; lia.
Defined.



(** ** What the computer players keep *)

Lemma take_while_filter {X : Type} (R : X -> X -> Prop) (p : X -> bool) (l : list X) :
  StronglySorted R l ->
  (forall x y, R x y -> p y = true -> p x = true) ->
  take_while p l = filter p l.
Proof.
  intros Hs Hp; induction Hs as [|x l Hl IH Hx]; simpl; [reflexivity|].
  destruct (p x) eqn:E; [rewrite IH; reflexivity|].
  symmetry; apply filter_none; intros y Hy.
  rewrite Forall_forall in Hx; specialize (Hp x y (Hx y Hy)).
  destruct (p y); [rewrite Hp in E; [discriminate | reflexivity] | reflexivity].
Qed.

Lemma concat_map_Permutation {X Y : Type} (f : X -> list Y) (l l' : list X) :
  Permutation l l' -> Permutation (concat (map f l)) (concat (map f l')).
Proof.
  induction 1 as [|x l l' _ IH|x y l|l l' l'' _ IH1 _ IH2]; simpl.
  - constructor.
  - apply Permutation_app_head, IH.
  - rewrite !app_assoc; apply Permutation_app_tail, Permutation_app_comm.
  - rewrite IH1; exact IH2.
Qed.

Lemma size_value_ltb_size (a b : nat * Z) :
  cardUtils.size_value_ltb a b = false ->
  (fst b <= fst a)%nat /\ (fst b = fst a -> snd b <= snd a).
Proof.
  destruct a as [n1 v1], b as [n2 v2]; unfold cardUtils.size_value_ltb; simpl.
  destruct (Nat.ltb_spec n1 n2), (Nat.eqb_spec n1 n2), (Z.ltb_spec v1 v2);
    simpl; intros Hf; try discriminate Hf; lia.
Qed.

Section Keepers.
Context {K : Type} (eqb : K -> K -> bool).
Hypothesis eqb_spec : forall a b, eqb a b = true <-> a = b.
Context (key : Card -> K).

Local Abbreviation groups_of cards :=
  (tabulate (group_of eqb key cards) (py.set_of eqb (map key cards))).

(** The groups that satisfy a condition on their size hold the cards whose
    key occurs that often. *)
Lemma large_groups_Permutation (p : nat -> bool) (cards : list Card)
    (items : list (K * list Card)) :
  Permutation items (groups_of cards) ->
  Permutation (concat (map snd (filter (fun item => p (length (snd item))) items)))
              (filter (fun card => p (py.count eqb (key card) (map key cards))) cards).
Proof.
  intros Hp.
  rewrite (concat_map_Permutation snd _ _
             (Permutation_filter' (fun item => p (length (snd item))) _ _ Hp)).
  unfold tabulate; rewrite filter_map_swap, map_map; simpl.
  rewrite (concat_groups_Permutation eqb eqb_spec key)
    by apply NoDup_filter, (set_of_NoDup eqb eqb_spec).
  erewrite filter_ext_in; [reflexivity|].
  intros card Hc; simpl.
  rewrite <- (group_of_count eqb key).
  destruct (p (length (group_of eqb key cards (key card)))) eqn:E.
  - apply (contains_In eqb eqb_spec), filter_In; split; [|exact E].
    apply (set_of_In eqb eqb_spec), in_map, Hc.
  - apply (contains_not_In eqb eqb_spec); intros Hin.
    apply filter_In in Hin; destruct Hin as [_ Hin]; congruence.
Qed.

(** The cards that are not among the cards of a group. *)
Lemma not_in_group (cards : list Card) (k : K) :
  filter (fun card => negb (py.contains Card_eqb card (group_of eqb key cards k))) cards
  = filter (fun card => negb (eqb (key card) k)) cards.
Proof.
  apply filter_ext_in; intros card Hc; f_equal.
  destruct (eqb (key card) k) eqn:E.
  - apply (contains_In Card_eqb Card_eqb_eq), filter_In; auto.
  - apply (contains_not_In Card_eqb Card_eqb_eq); intros Hin.
    apply filter_In in Hin; destruct Hin as [_ Hin]; congruence.
Qed.

(** The first group in descending order of size and value. *)
Lemma most_frequent_group (cards : list Card) :
  cards <> [] ->
  exists k,
    In k (map key cards) /\
    py.first (py.sorted cardUtils.size_value_ltb size_and_value true (groups_of cards))
    = Ok (k, group_of eqb key cards k) /\
    (forall k', (py.count eqb k' (map key cards) <= py.count eqb k (map key cards))%nat) /\
    (forall k', In k' (map key cards) ->
                cardUtils.size_value_ltb (size_and_value (k, group_of eqb key cards k))
                                         (size_and_value (k', group_of eqb key cards k'))
                = false).
Proof.
  intros Hne.
  pose proof (sorted_Permutation cardUtils.size_value_ltb size_and_value true (groups_of cards))
    as Hp.
  pose proof (sorted_desc_StronglySorted cardUtils.size_value_ltb (@size_and_value K)
                size_value_ltb_asym size_value_nltb_trans (groups_of cards)) as Hs.
  destruct (py.sorted cardUtils.size_value_ltb size_and_value true (groups_of cards))
    as [|[k g] rest].
  { apply Permutation_nil in Hp; unfold tabulate in Hp.
    apply map_eq_nil in Hp; exfalso; revert Hp; apply (set_of_nonempty eqb eqb_spec).
    destruct cards; [congruence | discriminate]. }
  assert (Hin : In (k, g) (groups_of cards)) by (apply (Permutation_in _ Hp); left; reflexivity).
  apply tabulate_In in Hin; destruct Hin as [Hk ->].
  apply (proj1 (set_of_In eqb eqb_spec _ _)) in Hk.
  inversion Hs as [|? ? _ Hall]; subst; rewrite Forall_forall in Hall.
  assert (Hmax : forall k', In k' (map key cards) ->
            cardUtils.size_value_ltb (size_and_value (k, group_of eqb key cards k))
                                     (size_and_value (k', group_of eqb key cards k'))
            = false).
  { intros k' Hk'.
    assert (Hin' : In (k', group_of eqb key cards k') (groups_of cards)).
    { apply tabulate_In; split; [apply (set_of_In eqb eqb_spec), Hk' | reflexivity]. }
    apply (Permutation_in _ (Permutation_sym Hp)) in Hin'.
    destruct Hin' as [E|Hin']; [|apply (Hall _ Hin')].
    rewrite <- E.
    destruct (cardUtils.size_value_ltb _ _) eqn:El; [|reflexivity].
    pose proof (size_value_ltb_asym _ _ El); congruence. }
  exists k; split; [exact Hk | split; [reflexivity | split; [|exact Hmax]]].
  intros k'.
  destruct (Nat.eq_dec (py.count eqb k' (map key cards)) 0) as [E|E]; [lia|].
  assert (Hk' : In k' (map key cards)) by (apply (count_pos_In eqb eqb_spec); lia).
  destruct (size_value_ltb_size _ _ (Hmax k' Hk')) as [Hle _].
  assert (Hsize : forall j, In j (map key cards) ->
            fst (size_and_value (j, group_of eqb key cards j))
            = py.count eqb j (map key cards)).
  { intros j Hj.
    rewrite (proj2 (group_item_key_nonempty (j, group_of eqb key cards j)
                      (group_of_nonempty eqb eqb_spec key cards j Hj))).
    apply group_of_count. }
  rewrite !Hsize in Hle by assumption; exact Hle.
Qed.
End Keepers.

Lemma size_and_value_face (cards : list Card) (f : Face) :
  In f (cardUtils.get_faces cards) ->
  size_and_value (f, group_of Face_eqb face cards f)
  = (py.count Face_eqb f (cardUtils.get_faces cards), Face_value f).
Proof.
  intros Hf; unfold size_and_value.
  rewrite (group_item_key_face cards) by (apply face_groups_In; auto).
  unfold group_size_value; simpl; rewrite group_of_count; reflexivity.
Qed.

(** X15: the keeper function made by [create_face_frequency_target_finder]
    from an integer [n] never raises and keeps exactly the cards whose face
    occurs at least [n] times in the hand.  So [FREQUENCY_DISCARDER]
    discards the first three cards, in hand order, whose face occurs only
    once. *)
Theorem frequency_keeper_keeps_the_repeated_faces (cards : list Card) :
  (forall n : Z,
     exists kept,
       game.create_face_frequency_target_finder (game.Fixed n) cards = Ok kept /\
       Permutation kept
         (filter (fun card =>
                    Z.of_nat (py.count Face_eqb (face card) (cardUtils.get_faces cards)) >=? n)
                 cards)) /\
  game.get_discards game.FREQUENCY_DISCARDER cards
  = Ok (firstn 3 (filter (fun card =>
                            (py.count Face_eqb (face card) (cardUtils.get_faces cards) <? 2)%nat)
                         cards)).
Proof.
  assert (Hkeep : forall n : Z,
            Permutation
              (concat (map snd (take_while (fun item => Z.of_nat (length (snd item)) >=? n)
                                           (sorted_groups cards))))
              (filter (fun card =>
                         Z.of_nat (py.count Face_eqb (face card) (cardUtils.get_faces cards))
                         >=? n) cards)).
  { intros n.
    destruct (sorted_groups_spec cards) as (_ & _ & Hs).
    rewrite (take_while_filter _ _ _ Hs).
    - apply (large_groups_Permutation Face_eqb Face_eqb_eq face
               (fun size => Z.of_nat size >=? n) cards).
      apply sorted_Permutation.
    - intros x y Hxy Hy.
      destruct (size_value_ltb_size _ _ Hxy) as [Hle _]; simpl in Hle.
      apply Z.geb_le; apply Z.geb_le in Hy; lia. }
  split.
  - intros n; rewrite frequency_keeper_returns; eexists; split; [reflexivity | apply Hkeep].
  - unfold game.get_discards, game.get_irrelevant_cards; simpl game.get_keeper_func.
    rewrite frequency_keeper_returns; cbn [bind]; f_equal.
    change (py.slice_to (game.max_discards game.FREQUENCY_DISCARDER)) with (@firstn Card 3).
    f_equal; apply filter_ext_in; intros card Hc.
    destruct (Nat.ltb_spec (py.count Face_eqb (face card) (cardUtils.get_faces cards)) 2)
      as [Hlt|Hge].
    + apply negb_true_iff, (contains_not_In Card_eqb Card_eqb_eq); intros Hin.
      apply (Permutation_in _ (Hkeep game.MIN_FREQUENCY_TO_KEEP)) in Hin.
      apply filter_In in Hin; destruct Hin as [_ Hin].
      apply Z.geb_le in Hin; unfold game.MIN_FREQUENCY_TO_KEEP in Hin; lia.
    + apply negb_false_iff, (contains_In Card_eqb Card_eqb_eq).
      apply (Permutation_in _ (Permutation_sym (Hkeep game.MIN_FREQUENCY_TO_KEEP))).
      apply filter_In; split; [exact Hc|].
      apply Z.geb_le; unfold game.MIN_FREQUENCY_TO_KEEP; lia.
Qed.

(** X16: on a non-empty hand [get_most_frequent_face_targets] returns the
    cards, in hand order, of a face that no face outnumbers and that has
    the greatest value among the faces occurring as often;
    [get_most_frequent_suit_targets] returns the cards of a suit that no
    suit outnumbers, and [FLUSH_DISCARDER] discards the first three cards
    of the other suits.  On the empty hand both functions raise
    [IndexError]. *)
Theorem most_frequent_targets_are_a_largest_group (cards : list Card) :
  (cards = [] ->
   game.get_most_frequent_face_targets cards = Raise IndexError /\
   game.get_most_frequent_suit_targets cards = Raise IndexError) /\
  (cards <> [] ->
   (exists f,
      In f (cardUtils.get_faces cards) /\
      game.get_most_frequent_face_targets cards = Ok (cardUtils.get_cards_with_face cards f) /\
      (forall g, (py.count Face_eqb g (cardUtils.get_faces cards)
                  <= py.count Face_eqb f (cardUtils.get_faces cards))%nat) /\
      (forall g, In g (cardUtils.get_faces cards) ->
                 py.count Face_eqb g (cardUtils.get_faces cards)
                 = py.count Face_eqb f (cardUtils.get_faces cards) ->
                 Face_value g <= Face_value f)) /\
   (exists s,
      In s (cardUtils.get_suits cards) /\
      game.get_most_frequent_suit_targets cards = Ok (cardUtils.get_cards_with_suit cards s) /\
      (forall s', (py.count Suit_eqb s' (cardUtils.get_suits cards)
                   <= py.count Suit_eqb s (cardUtils.get_suits cards))%nat) /\
      game.get_discards game.FLUSH_DISCARDER cards
      = Ok (firstn 3 (filter (fun card => negb (Suit_eqb (suit card) s)) cards)))).
Proof.
  split; [intros ->; split; reflexivity|].
  intros Hne; split.
  - destruct (most_frequent_group Face_eqb Face_eqb_eq face cards Hne)
      as (f & Hf & Hfirst & Hcount & Hmax).
    exists f; split; [exact Hf | split; [|split; [exact Hcount|]]].
    + unfold game.get_most_frequent_face_targets, cardUtils.Hand.
      rewrite get_groups_by_face_eq; cbn [bind].
      rewrite get_group_items_sorted by apply (groups_nonempty Face_eqb face cards Face_eqb_eq).
      cbn [bind]; unfold cardUtils.get_faces; rewrite Hfirst; reflexivity.
    + intros g Hg Heq.
      specialize (Hmax g Hg).
      rewrite !size_and_value_face in Hmax by assumption.
      destruct (size_value_ltb_size _ _ Hmax) as [_ Hv]; simpl in Hv; auto.
  - destruct (most_frequent_group Suit_eqb Suit_eqb_eq suit cards Hne)
      as (s & Hs & Hfirst & Hcount & _).
    assert (Hkeep : game.get_most_frequent_suit_targets cards
                    = Ok (cardUtils.get_cards_with_suit cards s)).
    { unfold game.get_most_frequent_suit_targets, cardUtils.Hand.
      rewrite get_groups_by_suit_eq; cbn [bind].
      rewrite get_group_items_sorted by apply (groups_nonempty Suit_eqb suit cards Suit_eqb_eq).
      cbn [bind]; unfold cardUtils.get_suits; rewrite Hfirst; reflexivity. }
    exists s; split; [exact Hs | split; [exact Hkeep | split; [exact Hcount|]]].
    unfold game.get_discards, game.get_irrelevant_cards; simpl game.get_keeper_func.
    rewrite Hkeep; cbn [bind]; f_equal.
    change (py.slice_to (game.max_discards game.FLUSH_DISCARDER)) with (@firstn Card 3).
    f_equal; apply (not_in_group Suit_eqb suit).
Qed.

Lemma most_frequent_targets_are_a_largest_group_witness :
  exists s,
    game.get_most_frequent_suit_targets kings_full_of_twos
    = Ok (cardUtils.get_cards_with_suit kings_full_of_twos s) /\
    game.get_discards game.FLUSH_DISCARDER kings_full_of_twos
    = Ok (firstn 3 (filter (fun card => negb (Suit_eqb (suit card) s)) kings_full_of_twos)).
Proof.
  destruct (proj2 (most_frequent_targets_are_a_largest_group kings_full_of_twos))
    as (_ & s & _ & Hkeep & _ & Hdis); [discriminate|].
  exists s; split; [exact Hkeep | exact Hdis].
Defined.

Lemma find_snoc {X : Type} (p : X -> bool) (l : list X) (x : X) :
  find p (l ++ [x]) = match find p l with
                      | Some y => Some y
                      | None => if p x then Some x else None
                      end.
Proof.
  induction l as [|y l IH]; simpl; [reflexivity|].
  destruct (p y); [reflexivity | exact IH].
Qed.

Lemma find_none_iff {X : Type} (p : X -> bool) (l : list X) :
  find p l = None <-> forall x, In x l -> p x = false.
Proof.
  split; [apply find_none|].
  induction l as [|y l IH]; intros H; simpl; [reflexivity|].
  rewrite (H y (or_introl eq_refl)); apply IH; intros x Hx; apply H; right; exact Hx.
Qed.

Section FirstCards.
Context {K : Type} (eqb : K -> K -> bool).
Hypothesis eqb_spec : forall a b, eqb a b = true <-> a = b.
Context (key : Card -> K) (wanted : list K).

(** The loop of [get_first_cards_with_faces] / [get_first_cards_with_suits]
    after the cards of [pre]. *)
Lemma first_cards_loop (pre : list Card) :
  let state := fold_left (cardUtils.first_cards_step eqb key wanted) pre ([], []) in
  snd state = filter (fun k => py.contains eqb k wanted) (py.set_of eqb (map key pre)) /\
  map key (fst state) = snd state /\
  Forall (fun card => find (fun other => eqb (key other) (key card)) pre = Some card)
         (fst state).
Proof.
  induction pre as [|card pre IH] using rev_ind; [simpl; auto|].
  cbv zeta in *; rewrite fold_left_app; simpl fold_left.
  destruct (fold_left (cardUtils.first_cards_step eqb key wanted) pre ([], []))
    as [first_cards used]; simpl in IH; destruct IH as (Hused & Hkeys & Hfirst).
  assert (Hset : py.set_of eqb (map key (pre ++ [card]))
                 = py.set_add eqb (py.set_of eqb (map key pre)) (key card)).
  { unfold py.set_of; rewrite map_app, fold_left_app; reflexivity. }
  assert (Hold : Forall (fun c => find (fun other => eqb (key other) (key c)) (pre ++ [card])
                                  = Some c) first_cards).
  { revert Hfirst; apply Forall_impl; intros c Hc; rewrite find_snoc, Hc; reflexivity. }
  assert (Hin_used : forall k, In k used <-> In k wanted /\ In k (map key pre)).
  { intros k; rewrite Hused, filter_In, (set_of_In eqb eqb_spec),
      (contains_In eqb eqb_spec); tauto. }
  unfold cardUtils.first_cards_step; rewrite Hset; unfold py.set_add at 2.
  destruct (py.contains eqb (key card) wanted) eqn:Ew;
    destruct (py.contains eqb (key card) used) eqn:Eu; simpl.
  - (* wanted, already used *)
    apply (contains_In eqb eqb_spec) in Eu; apply Hin_used in Eu; destruct Eu as [_ Eu].
    rewrite (proj2 (contains_In eqb eqb_spec _ _)
               (proj2 (set_of_In eqb eqb_spec _ _) Eu)).
    auto.
  - (* wanted, new *)
    assert (Hnew : ~ In (key card) (map key pre)).
    { intros Hin; apply (contains_not_In eqb eqb_spec) in Eu; apply Eu, Hin_used.
      split; [apply (contains_In eqb eqb_spec), Ew | exact Hin]. }
    rewrite (proj2 (contains_not_In eqb eqb_spec _ _)
               (fun H => Hnew (proj1 (set_of_In eqb eqb_spec _ _) H))).
    unfold py.set_add; rewrite Eu, filter_app; simpl; rewrite Ew, <- Hused.
    split; [reflexivity | split; [rewrite map_app, Hkeys; reflexivity|]].
    apply Forall_app; split; [exact Hold|].
    constructor; [|constructor].
    rewrite find_snoc.
    rewrite (proj2 (find_none_iff _ pre)).
    + rewrite (proj2 (eqb_spec _ _) eq_refl); reflexivity.
    + intros other Ho.
      destruct (eqb (key other) (key card)) eqn:E; [|reflexivity].
      apply eqb_spec in E; exfalso; apply Hnew; rewrite <- E; apply in_map, Ho.
  - (* not wanted *)
    split; [|auto].
    destruct (py.contains eqb (key card) (py.set_of eqb (map key pre))); [exact Hused|].
    rewrite filter_app; simpl; rewrite Ew, app_nil_r; exact Hused.
  - split; [|auto].
    destruct (py.contains eqb (key card) (py.set_of eqb (map key pre))); [exact Hused|].
    rewrite filter_app; simpl; rewrite Ew, app_nil_r; exact Hused.
Qed.

Lemma first_cards_spec (cards : list Card) :
  let first_cards :=
    fst (fold_left (cardUtils.first_cards_step eqb key wanted) cards ([], [])) in
  map key first_cards
  = filter (fun k => py.contains eqb k wanted) (py.set_of eqb (map key cards)) /\
  Forall (fun card => find (fun other => eqb (key other) (key card)) cards = Some card)
         first_cards.
Proof.
  destruct (first_cards_loop cards) as (Hused & Hkeys & Hfirst).
  cbv zeta; rewrite Hkeys; auto.
Qed.
End FirstCards.

(** X17: [get_first_cards_with_faces] returns one card for each distinct
    face of the hand that is among the given faces, in the order in which
    these faces first occur in the hand, and each returned card is the first
    card of the hand with its face; likewise [get_first_cards_with_suits].
    On a non-empty hand the keeper function of [STRAIGHT_DISCARDER] returns
    these cards for the sequence of the most frequent starter, as many
    cards as the sequence covers faces of the hand. *)
Theorem first_cards_are_the_first_of_each_wanted_key (cards : list Card) :
  (forall faces,
     map face (cardUtils.get_first_cards_with_faces cards faces)
     = filter (fun f => py.contains Face_eqb f faces)
              (py.set_of Face_eqb (cardUtils.get_faces cards)) /\
     Forall (fun card => find (fun other => Face_eqb (face other) (face card)) cards = Some card)
            (cardUtils.get_first_cards_with_faces cards faces)) /\
  (forall suits,
     map suit (cardUtils.get_first_cards_with_suits cards suits)
     = filter (fun s => py.contains Suit_eqb s suits)
              (py.set_of Suit_eqb (cardUtils.get_suits cards)) /\
     Forall (fun card => find (fun other => Suit_eqb (suit other) (suit card)) cards = Some card)
            (cardUtils.get_first_cards_with_suits cards suits)) /\
  (cards <> [] ->
   exists starter sequence,
     cardUtils.get_most_frequent_starter_of_sequences_including_faces
       (cardUtils.get_faces cards) ranks.REQUIRED_LENGTH (Some ranks.INVALID_STRAIGHT_STARTERS)
     = Ok starter /\
     cardUtils.get_sequence_of_starter starter ranks.REQUIRED_LENGTH = Ok sequence /\
     game.get_keeper_func game.STRAIGHT_DISCARDER cards
     = Ok (cardUtils.get_first_cards_with_faces cards sequence) /\
     length (cardUtils.get_first_cards_with_faces cards sequence)
     = covered (cardUtils.get_faces cards) sequence).
Proof.
  split; [|split].
  - intros faces; apply (first_cards_spec Face_eqb Face_eqb_eq face faces cards).
  - intros suits; apply (first_cards_spec Suit_eqb Suit_eqb_eq suit suits cards).
  - intros Hne.
    destruct (straight_starter_returns (cardUtils.get_faces cards)) as [starter Hs].
    { destruct cards; [congruence | discriminate]. }
    exists starter, (walk next_face ranks.REQUIRED_LENGTH starter).
    split; [exact Hs | split; [apply get_sequence_of_starter_eq | split]].
    + simpl game.get_keeper_func.
      unfold game.create_sequence_target_finder, cardUtils.Hand,
        cardUtils.get_sequence_including_most_faces.
      simpl cardUtils.or_empty; rewrite Hs; cbn [bind].
      rewrite get_sequence_of_starter_eq; reflexivity.
    + rewrite <- (length_map face).
      unfold cardUtils.get_first_cards_with_faces.
      rewrite (proj1 (first_cards_spec Face_eqb Face_eqb_eq face _ cards)).
      reflexivity.
Qed.

Lemma first_cards_are_the_first_of_each_wanted_key_witness :
  exists starter sequence,
    cardUtils.get_sequence_of_starter starter ranks.REQUIRED_LENGTH = Ok sequence /\
    game.get_keeper_func game.STRAIGHT_DISCARDER kings_full_of_twos
    = Ok (cardUtils.get_first_cards_with_faces kings_full_of_twos sequence).
Proof.
  destruct (proj2 (proj2 (first_cards_are_the_first_of_each_wanted_key kings_full_of_twos)))
    as (starter & sequence & _ & Hseq & Hkeep & _); [discriminate|].
  exists starter, sequence; split; [exact Hseq | exact Hkeep].
Defined.

(** ** The category of a hand *)

Lemma Face_members_all (f : Face) : In f Face_members.
Proof. destruct f; simpl; tauto. Qed.

Lemma Face_members_NoDup : NoDup Face_members.
Proof. apply distinctb_NoDup; vm_compute; reflexivity. Qed.

(** [has_required_group] on faces counts the faces occurring that often. *)
Lemma face_groups_occurring (faces : list Face) (n k : nat) :
  (0 < n)%nat ->
  ranks.has_required_group Face_eqb faces n k = Nat.eqb (length (occurring n faces)) k.
Proof.
  intros Hn; rewrite (has_required_group_eq Face_eqb Face_eqb_eq); f_equal.
  apply Permutation_length, NoDup_Permutation.
  - apply NoDup_filter, (set_of_NoDup Face_eqb Face_eqb_eq).
  - apply NoDup_filter, Face_members_NoDup.
  - intros f; unfold occurring; rewrite !filter_In, (set_of_In Face_eqb Face_eqb_eq), Nat.eqb_eq.
    split; [intros [_ H]; split; [apply Face_members_all | exact H]|].
    intros [_ H]; split; [|exact H].
    apply (count_pos_In Face_eqb Face_eqb_eq); lia.
Qed.

Lemma sequence_check_straightb (faces : list Face) :
  length faces = ranks.REQUIRED_LENGTH -> sequence_check faces = Ok (is_straightb faces).
Proof.
  intros Hlen.
  assert (Htotal : exists b, sequence_check faces = Ok b).
  { unfold sequence_check; rewrite Hlen.
    destruct (default_most_frequent_starter_total faces) as [f Hf].
    { destruct faces; [discriminate Hlen | discriminate]. }
    rewrite Hf; cbn [bind]; apply sequence_loop_total. }
  destruct Htotal as [b Hb]; rewrite Hb; f_equal.
  destruct b.
  - destruct (recognised_is_straight faces Hlen Hb) as (s & Hs & Hp).
    symmetry; apply existsb_exists; exists s; split.
    + destruct s; simpl; try tauto; exfalso; apply Hs; simpl; tauto.
    + apply forallb_forall; intros f Hf.
      apply (contains_In Face_eqb Face_eqb_eq), (Permutation_in f (Permutation_sym Hp)), Hf.
  - destruct (is_straightb faces) eqn:E; [|reflexivity].
    apply existsb_exists in E; destruct E as (s & Hs & Hall).
    rewrite forallb_forall in Hall.
    assert (Hp : Permutation (walk next_face ranks.REQUIRED_LENGTH s) faces).
    { apply NoDup_Permutation_bis.
      - apply walk_NoDup; vm_compute; lia.
      - rewrite walk_length, Hlen; apply Nat.le_refl.
      - intros f Hf; apply (contains_In Face_eqb Face_eqb_eq), Hall, Hf. }
    rewrite (straight_is_recognised faces s) in Hb; [discriminate| |symmetry; exact Hp].
    intros Hinv; simpl in Hs, Hinv.
    destruct Hs as [<-|[<-|[<-|[<-|[<-|[<-|[<-|[<-|[<-|[<-|[]]]]]]]]]]];
      destruct Hinv as [H|[H|[H|[]]]]; discriminate H.
Qed.

Lemma flush_group_all_equalb (suits : list Suit) :
  length suits = ranks.REQUIRED_LENGTH ->
  ranks.has_required_group Suit_eqb suits ranks.REQUIRED_LENGTH 1 = all_equalb suits.
Proof.
  intros Hlen; apply Bool.eqb_prop.
  revert suits Hlen; apply forall_suit_lists; vm_compute; reflexivity.
Qed.

Section Categories.
Variable cards : list Card.
Hypothesis Hlen : length cards = ranks.REQUIRED_LENGTH.

Local Abbreviation faces := (cardUtils.get_faces cards).
Local Abbreviation flush := (all_equalb (cardUtils.get_suits cards)).

Lemma sequence_validator_straightb :
  ranks.create_sequence_validator (Some ranks.INVALID_STRAIGHT_STARTERS) cards
  = Ok (is_straightb faces).
Proof.
  rewrite sequence_validator_faces; apply sequence_check_straightb.
  unfold cardUtils.get_faces; rewrite length_map; exact Hlen.
Qed.

Lemma suit_frequency_validator_flush :
  ranks.create_suit_frequency_validator [(ranks.REQUIRED_LENGTH, 1%nat)] cards = Ok flush.
Proof.
  unfold ranks.create_suit_frequency_validator, cardUtils.Hand, py.items; simpl forallb.
  rewrite andb_true_r, flush_group_all_equalb; [reflexivity|].
  unfold cardUtils.get_suits; rewrite length_map; exact Hlen.
Qed.

Lemma face_frequency_validator_one (n k : nat) :
  (0 < n)%nat ->
  ranks.create_face_frequency_validator [(n, k)] cards
  = Ok (Nat.eqb (length (occurring n faces)) k).
Proof.
  intros Hn; unfold ranks.create_face_frequency_validator, cardUtils.Hand, py.items.
  simpl forallb; rewrite andb_true_r, face_groups_occurring by exact Hn; reflexivity.
Qed.

Lemma face_frequency_validator_two (n k n' k' : nat) :
  (0 < n)%nat -> (0 < n')%nat ->
  ranks.create_face_frequency_validator [(n, k); (n', k')] cards
  = Ok (Nat.eqb (length (occurring n faces)) k && Nat.eqb (length (occurring n' faces)) k').
Proof.
  intros Hn Hn'; unfold ranks.create_face_frequency_validator, cardUtils.Hand, py.items.
  simpl forallb; rewrite andb_true_r, !face_groups_occurring by assumption; reflexivity.
Qed.

(** What each rank of the catalog tests on five cards. *)
Lemma default_rank_tests :
  ranks.is_rank ranks.ROYAL_FLUSH cards = Ok (is_straightb faces && flush && is_royalb faces) /\
  ranks.is_rank ranks.STRAIGHT_FLUSH cards = Ok (is_straightb faces && flush) /\
  ranks.is_rank ranks.FOUR_OF_A_KIND cards = Ok (Nat.eqb (length (occurring 4 faces)) 1) /\
  ranks.is_rank ranks.FULL_HOUSE cards
  = Ok (Nat.eqb (length (occurring 3 faces)) 1 && Nat.eqb (length (occurring 2 faces)) 1) /\
  ranks.is_rank ranks.FLUSH cards = Ok flush /\
  ranks.is_rank ranks.STRAIGHT cards = Ok (is_straightb faces) /\
  ranks.is_rank ranks.THREE_OF_A_KIND cards = Ok (Nat.eqb (length (occurring 3 faces)) 1) /\
  ranks.is_rank ranks.TWO_PAIR cards = Ok (Nat.eqb (length (occurring 2 faces)) 2) /\
  ranks.is_rank ranks.PAIR cards = Ok (Nat.eqb (length (occurring 2 faces)) 1) /\
  ranks.is_rank ranks.HIGH cards = Ok true.
Proof.
  pose proof (length_validator_accepts cards Hlen) as Hl.
  pose proof sequence_validator_straightb as Hseq.
  pose proof suit_frequency_validator_flush as Hsuit.
  assert (Hroyal : ranks.create_face_validator ranks.ROYAL_FACES cards = Ok (is_royalb faces))
    by reflexivity.
  repeat split; unfold ranks.is_rank;
    match goal with
    | |- ranks.run_validators (ranks.validators ?r) _ = _ =>
        unfold r, ranks.Rank_init; cbn [ranks.validators ranks.run_validators]
    end;
    rewrite ?Hl, ?Hseq, ?Hsuit, ?Hroyal,
      ?face_frequency_validator_two, ?face_frequency_validator_one by lia;
    cbn [bind negb];
    repeat match goal with
           | |- context [if negb ?b then _ else _] => destruct b; cbn [bind negb andb]
           end;
    reflexivity.
Qed.
End Categories.

(** X18: on five cards [get_rank] with the default catalog returns the
    poker category of the hand: Royal Flush for a flush that is a straight
    holding Ten to Ace, else Straight Flush for a flush that is a straight,
    else Four of a Kind when one face occurs four times, else Full House
    when one face occurs three times and one twice, else Flush when all
    suits are the same, else Straight when the hand holds the five faces of
    one of the ten straights A-2-3-4-5 to 10-J-Q-K-A, else Three of a Kind,
    Two Pair or Pair when one face occurs three times, two faces occur
    twice, or one face occurs twice, else High Card.  On any other number
    of cards it returns the null rank. *)
Theorem get_rank_is_the_poker_category (cards : list Card) :
  (length cards = 5%nat -> ranks.get_rank cards None = Ok (poker_category cards)) /\
  (length cards <> 5%nat -> ranks.get_rank cards None = Ok ranks.NULL_RANK).
Proof.
  split.
  - intros Hlen.
    destruct (default_rank_tests cards Hlen)
      as (H10 & H9 & H8 & H7 & H6 & H5 & H4 & H3 & H2 & H1).
    unfold ranks.get_rank, ranks.DEFAULT_RANKS; cbn [ranks.first_rank].
    rewrite H10, H9, H8, H7, H6, H5, H4, H3, H2, H1; cbn [bind].
    unfold poker_category; cbv zeta.
    destruct (is_straightb (cardUtils.get_faces cards)),
             (all_equalb (cardUtils.get_suits cards)),
             (is_royalb (cardUtils.get_faces cards)),
             (Nat.eqb (length (occurring 4 (cardUtils.get_faces cards))) 1),
             (Nat.eqb (length (occurring 3 (cardUtils.get_faces cards))) 1),
             (Nat.eqb (length (occurring 2 (cardUtils.get_faces cards))) 1),
             (Nat.eqb (length (occurring 2 (cardUtils.get_faces cards))) 2);
      reflexivity.
  - intros Hlen.
    destruct (get_rank_any cards) as (r & Hr & [(_ & _ & H)|[-> _]]); [|exact Hr].
    exfalso; apply Hlen, H.
Qed.

Lemma get_rank_is_the_poker_category_witness :
  ranks.get_rank kings_full_of_twos None = Ok (poker_category kings_full_of_twos).
Proof.
  apply (proj1 (get_rank_is_the_poker_category kings_full_of_twos)); reflexivity.
Defined.

Lemma first_rank_raises (pre post : list ranks.Rank) (r : ranks.Rank) (cards : list Card)
    (e : exn) :
  (forall r', In r' pre -> ranks.is_rank r' cards = Ok false) ->
  ranks.is_rank r cards = Raise e ->
  ranks.first_rank (pre ++ r :: post) cards = Raise e.
Proof.
  intros Hpre Hr; induction pre as [|r' pre IH]; simpl.
  - rewrite Hr; reflexivity.
  - rewrite (Hpre r' (or_introl eq_refl)); simpl.
    apply IH; intros r'' H; apply Hpre; right; exact H.
Qed.

Lemma get_rank_custom (cards : list Card) (rs : list ranks.Rank) :
  rs <> [] -> ranks.get_rank cards (Some rs) = ranks.first_rank rs cards.
Proof. destruct rs; [congruence | reflexivity]. Qed.

(** X19: [get_rank] with a catalog of the caller's.  An empty catalog is
    replaced by the default one.  Otherwise, when the ranks listed return
    on the cards, as all the ranks of the default catalog do on any cards,
    the result is the first listed rank that accepts the cards, and the
    null rank when none does; a rank that raises after ranks that reject
    makes [get_rank] raise.  The ranks overlap, so the order of the catalog
    matters: every Full House is accepted by Three of a Kind and by Pair,
    and a catalog that lists one of them before Full House returns it for a
    Full House. *)
Theorem get_rank_custom_catalog (cards : list Card) (rs : list ranks.Rank) :
  ranks.get_rank cards (Some []) = ranks.get_rank cards None /\
  (forall r, In r ranks.DEFAULT_RANKS -> exists b, ranks.is_rank r cards = Ok b) /\
  (rs <> [] ->
   (forall r, In r rs -> exists b, ranks.is_rank r cards = Ok b) ->
   (exists pre r post,
      rs = pre ++ r :: post /\ ranks.get_rank cards (Some rs) = Ok r /\
      ranks.is_rank r cards = Ok true /\
      forall r', In r' pre -> ranks.is_rank r' cards = Ok false) \/
   (ranks.get_rank cards (Some rs) = Ok ranks.NULL_RANK /\
    forall r, In r rs -> ranks.is_rank r cards = Ok false)) /\
  (forall pre r post e,
     rs = pre ++ r :: post ->
     (forall r', In r' pre -> ranks.is_rank r' cards = Ok false) ->
     ranks.is_rank r cards = Raise e ->
     ranks.get_rank cards (Some rs) = Raise e) /\
  (ranks.is_rank ranks.FULL_HOUSE cards = Ok true ->
   ranks.is_rank ranks.THREE_OF_A_KIND cards = Ok true /\
   ranks.is_rank ranks.PAIR cards = Ok true /\
   ranks.get_rank cards (Some [ranks.THREE_OF_A_KIND; ranks.FULL_HOUSE])
   = Ok ranks.THREE_OF_A_KIND /\
   ranks.get_rank cards (Some [ranks.PAIR; ranks.FULL_HOUSE]) = Ok ranks.PAIR).
Proof.
  split; [reflexivity | split; [intros r; apply default_is_rank_total | split; [|split]]].
  - intros Hne Htot; rewrite (get_rank_custom cards rs Hne).
    apply first_rank_cases, Htot.
  - intros pre r post e -> Hpre Hr.
    rewrite get_rank_custom by (destruct pre; discriminate).
    apply first_rank_raises; assumption.
  - intros Hfull.
    assert (Hlen : length cards = ranks.REQUIRED_LENGTH).
    { apply (default_rank_length ranks.FULL_HOUSE); [simpl; tauto | exact Hfull]. }
    destruct (default_rank_tests cards Hlen) as (_ & _ & _ & H7 & _ & _ & H4 & _ & H2 & _).
    rewrite H7 in Hfull.
    assert (E : Nat.eqb (length (occurring 3 (cardUtils.get_faces cards))) 1
                && Nat.eqb (length (occurring 2 (cardUtils.get_faces cards))) 1 = true)
      by congruence.
    apply andb_true_iff in E; destruct E as [E3 E2].
    rewrite E3 in H4; rewrite E2 in H2.
    split; [exact H4 | split; [exact H2 | split]].
    + apply first_rank_hit, H4.
    + apply first_rank_hit, H2.
Qed.

Lemma get_rank_custom_catalog_witness :
  ranks.get_rank kings_full_of_twos (Some [ranks.PAIR; ranks.FULL_HOUSE]) = Ok ranks.PAIR.
Proof.
  apply (get_rank_custom_catalog kings_full_of_twos [ranks.PAIR; ranks.FULL_HOUSE]).
  vm_compute; reflexivity.
Defined.

(** ** Faces and cards *)

(** X20: [get_face_from_value] never raises: it returns the face with the
    given value when there is one, which is the case exactly for the values
    from [MIN_VALUE] to [MAX_VALUE], and [None] otherwise; it inverts
    [Face.value].  [get_next_face] and [get_previous_face] invert each
    other, and thirteen steps of [get_next_face], as taken by
    [get_sequence_of_starter], pass through every face once and lead back
    to the start. *)
Theorem faces_values_and_the_face_cycle :
  (forall f, get_face_from_value (Face_value f) = Ok (Some f)) /\
  (forall v, exists found,
     get_face_from_value v = Ok found /\
     (forall f, found = Some f <-> Face_value f = v) /\
     (found = None <-> v < MIN_VALUE \/ MAX_VALUE < v)) /\
  (forall f g, get_next_face f = Ok g <-> get_previous_face g = Ok f) /\
  (forall f, exists sequence,
     cardUtils.get_sequence_of_starter f 13 = Ok sequence /\
     NoDup sequence /\ (forall g, In g sequence) /\
     cardUtils.get_sequence_of_starter f 14 = Ok (sequence ++ [f])).
Proof.
  split; [intros f; destruct f; reflexivity | split; [|split]].
  - intros v; unfold get_face_from_value, Face_call.
    destruct (find (fun f => Face_value f =? v) Face_members) as [f|] eqn:E.
    + apply find_some in E; destruct E as [_ E]; apply Z.eqb_eq in E.
      exists (Some f); split; [reflexivity | split].
      * intros f'; split; [intros H; assert (Ef : f' = f) by congruence; subst f'; exact E|].
        intros H; f_equal; apply Face_value_inj; congruence.
      * rewrite MIN_VALUE_eq, MAX_VALUE_eq.
        split; [discriminate|]; intros H; exfalso; destruct f; simpl in E; lia.
    + exists None; split; [reflexivity | split].
      * intros f; split; [discriminate|]; intros H.
        pose proof (find_none _ _ E f (Face_members_all f)) as Hf; simpl in Hf.
        apply Z.eqb_neq in Hf; contradiction.
      * rewrite MIN_VALUE_eq, MAX_VALUE_eq; split; [intros _ | reflexivity].
        destruct (Z_lt_dec v 2) as [Hlo|Hlo]; [left; exact Hlo|].
        destruct (Z_lt_dec 14 v) as [Hhi|Hhi]; [right; exact Hhi|].
        exfalso.
        assert (Hv : v = 2 \/ v = 3 \/ v = 4 \/ v = 5 \/ v = 6 \/ v = 7 \/ v = 8 \/ v = 9 \/
                     v = 10 \/ v = 11 \/ v = 12 \/ v = 13 \/ v = 14) by lia.
        assert (Hf : exists f, Face_value f = v).
        { destruct Hv as [->|[->|[->|[->|[->|[->|[->|[->|[->|[->|[->|[->| ->]]]]]]]]]]]];
            [exists TWO | exists THREE | exists FOUR | exists FIVE | exists SIX | exists SEVEN
             | exists EIGHT | exists NINE | exists TEN | exists JACK | exists QUEEN
             | exists KING | exists ACE]; reflexivity. }
        destruct Hf as [f Hf].
        pose proof (find_none _ _ E f (Face_members_all f)) as Hn; simpl in Hn.
        apply Z.eqb_neq in Hn; contradiction.
  - intros f g; rewrite get_next_face_eq, get_previous_face_eq; split; intros H.
    + assert (E : next_face f = g) by congruence; subst g; rewrite previous_next; reflexivity.
    + assert (E : previous_face g = f) by congruence; subst f; rewrite next_previous; reflexivity.
  - intros f; exists (walk next_face 13 f).
    rewrite !get_sequence_of_starter_eq.
    split; [reflexivity | split; [|split]].
    + apply walk_NoDup; vm_compute; lia.
    + intros g; destruct f, g; vm_compute; tauto.
    + destruct f; reflexivity.
Qed.

(** X21: cards are ordered by face alone, while equality also compares the
    suit.  [==] holds exactly for the same face and suit and [!=] is its
    negation; [>] is [<] with the cards swapped, [<=] is the negation of
    [>] and [>=] that of [<]; exactly one of [a < b], [a > b] and equal
    faces holds, so two cards of one face and different suits are neither
    equal nor ordered, while [<=] and [>=] both hold. *)
Theorem card_order_ignores_suits (a b : Card) :
  (Card_eqb a b = true <-> face a = face b /\ suit a = suit b) /\
  Card_neb a b = negb (Card_eqb a b) /\
  Card_gtb a b = Card_ltb b a /\
  Card_leb a b = negb (Card_gtb a b) /\
  Card_geb a b = negb (Card_ltb a b) /\
  (Card_leb a b = true /\ Card_geb a b = true <-> face a = face b) /\
  ((Card_ltb a b = true /\ Card_gtb a b = false /\ face a <> face b) \/
   (Card_ltb a b = false /\ Card_gtb a b = true /\ face a <> face b) \/
   (Card_ltb a b = false /\ Card_gtb a b = false /\ face a = face b)).
Proof.
  destruct a as [fa sa], b as [fb sb];
    unfold Card_eqb, Card_neb, Card_gtb, Card_ltb, Card_leb, Card_geb, Card_value; simpl.
  split; [rewrite andb_true_iff, Face_eqb_eq, Suit_eqb_eq; reflexivity|].
  split; [rewrite negb_andb; reflexivity|].
  split; [apply Z.gtb_ltb|].
  split; [rewrite Z.gtb_ltb, Z.leb_antisym; reflexivity|].
  split; [rewrite Z.geb_leb, Z.leb_antisym; reflexivity|].
  split.
  - rewrite Z.geb_leb, !Z.leb_le; split.
    + intros [H1 H2]; apply Face_value_inj; lia.
    + intros ->; lia.
  - rewrite Z.gtb_ltb.
    destruct (Z.lt_total (Face_value fa) (Face_value fb)) as [H|[H|H]].
    + left; rewrite (proj2 (Z.ltb_lt _ _) H), (proj2 (Z.ltb_ge _ _)) by lia.
      repeat split; intros E; subst; lia.
    + right; right; apply Face_value_inj in H; subst; rewrite Z.ltb_irrefl; auto.
    + right; left; rewrite (proj2 (Z.ltb_lt _ _) H), (proj2 (Z.ltb_ge _ _)) by lia.
      repeat split; intros E; subst; lia.
Qed.

(** ** Sorting helpers *)

Lemma StronglySorted_impl {X : Type} (R S : X -> X -> Prop) (l : list X) :
  (forall x y, R x y -> S x y) -> StronglySorted R l -> StronglySorted S l.
Proof.
  intros HRS; induction 1 as [|a l Hs IH Ha]; constructor; [exact IH|].
  revert Ha; apply Forall_impl; intros y; apply HRS.
Qed.

Lemma first_sorted {X : Type} (R : X -> X -> Prop) (l : list X) (r : X) :
  StronglySorted R l -> py.first l = Ok r ->
  In r l /\ forall x, In x l -> x = r \/ R r x.
Proof.
  intros Hs; destruct l as [|a l]; [discriminate|]; simpl; intros E.
  assert (a = r) by congruence; subst a.
  inversion Hs as [|? ? _ Ha]; subst; rewrite Forall_forall in Ha.
  split; [left; reflexivity|]; intros x [<-|Hx]; auto.
Qed.

Section SortedByKey.
Context {A : Type} (key : A -> Z).

(** [sorted(xs, key=key, reverse=reverse)] for an integer key. *)
Lemma sorted_by_key (reverse : bool) (xs : list A) :
  Permutation (py.sorted Z.ltb key reverse xs) xs /\
  StronglySorted (fun a b => if reverse then key b <= key a else key a <= key b)
                 (py.sorted Z.ltb key reverse xs).
Proof.
  split; [apply sorted_Permutation|].
  destruct starter_key_ltb_facts as [Ha Ht].
  destruct reverse.
  - apply (StronglySorted_impl (desc_ok Z.ltb key)).
    + intros x y H; apply Z.ltb_ge, H.
    + apply sorted_desc_StronglySorted; assumption.
  - apply (StronglySorted_impl (asc_ok Z.ltb key)).
    + intros x y H; apply Z.ltb_ge, H.
    + apply sorted_asc_StronglySorted; assumption.
Qed.

(** [sorted(xs, key=key)[-1]] and [sorted(xs, key=key)[0]]. *)
Lemma sorted_extremes (xs : list A) :
  xs <> [] ->
  exists hi lo,
    py.last (py.sorted Z.ltb key false xs) = Ok hi /\
    py.first (py.sorted Z.ltb key false xs) = Ok lo /\
    In hi xs /\ In lo xs /\
    forall x, In x xs -> key lo <= key x <= key hi.
Proof.
  intros Hne.
  destruct (sorted_by_key false xs) as [Hp Hs].
  assert (Hsne : py.sorted Z.ltb key false xs <> []).
  { intros E; rewrite E in Hp; apply Permutation_nil in Hp; contradiction. }
  destruct (last_total _ Hsne) as (hi & Hhi & _).
  destruct (py.first (py.sorted Z.ltb key false xs)) as [lo|e] eqn:Hlo;
    [|destruct (py.sorted Z.ltb key false xs); [congruence | discriminate]].
  destruct (last_sorted _ _ hi Hs Hhi) as [Hin_hi Hall_hi].
  destruct (first_sorted _ _ lo Hs Hlo) as [Hin_lo Hall_lo].
  exists hi, lo; split; [exact Hhi | split; [reflexivity | split; [|split]]].
  - apply (Permutation_in _ Hp), Hin_hi.
  - apply (Permutation_in _ Hp), Hin_lo.
  - intros x Hx; apply (Permutation_in _ (Permutation_sym Hp)) in Hx.
    assert (H1 : key x <= key hi) by (destruct (Hall_hi x Hx) as [E|H]; [rewrite E|]; lia).
    assert (H2 : key lo <= key x) by (destruct (Hall_lo x Hx) as [E|H]; [rewrite E|]; lia).
    lia.
Qed.
End SortedByKey.

(** Python's [sorted] is stable: items that the key does not separate keep
    their order. *)
Lemma sorted_stable {A K : Type} (ltb : K -> K -> bool) (key : A -> K) (class : A -> bool)
    (reverse : bool) (xs : list A) :
  (forall x y, class x = true -> class y = true -> ltb (key x) (key y) = false) ->
  filter class (py.sorted ltb key reverse xs) = filter class xs.
Proof.
  intros Hclass.
  assert (Hasc : forall x l, filter class (py.insert_asc ltb key x l)
                             = filter class (x :: l)).
  { intros x l; induction l as [|y l IH]; [reflexivity|].
    cbn [py.insert_asc]; destruct (ltb (key y) (key x)) eqn:E; [|reflexivity].
    cbn [filter] in *; rewrite IH.
    destruct (class x) eqn:Ex, (class y) eqn:Ey; try reflexivity.
    rewrite (Hclass y x Ey Ex) in E; discriminate. }
  assert (Hdesc : forall x l, filter class (py.insert_desc ltb key x l)
                              = filter class (x :: l)).
  { intros x l; induction l as [|y l IH]; [reflexivity|].
    cbn [py.insert_desc]; destruct (ltb (key x) (key y)) eqn:E; [|reflexivity].
    cbn [filter] in *; rewrite IH.
    destruct (class x) eqn:Ex, (class y) eqn:Ey; try reflexivity.
    rewrite (Hclass x y Ex Ey) in E; discriminate. }
  unfold py.sorted; induction xs as [|x xs IH]; [reflexivity|].
  cbn [fold_right]; destruct reverse; [rewrite Hdesc | rewrite Hasc];
    cbn [filter]; rewrite IH; reflexivity.
Qed.

(** X22: [sorted_faces] returns the faces rearranged in ascending order of
    value, descending with [reverse]; on a non-empty list [get_max_face]
    and [get_min_face] return a face of the list of greatest and of least
    value; on the empty list both raise [IndexError]. *)
Theorem sorted_faces_and_extreme_faces (faces : list Face) :
  (forall reverse,
     Permutation (cardUtils.sorted_faces faces reverse) faces /\
     StronglySorted (fun a b => if reverse then Face_value b <= Face_value a
                                else Face_value a <= Face_value b)
                    (cardUtils.sorted_faces faces reverse)) /\
  (faces = [] ->
   cardUtils.get_max_face faces = Raise IndexError /\
   cardUtils.get_min_face faces = Raise IndexError) /\
  (faces <> [] ->
   exists highest lowest,
     cardUtils.get_max_face faces = Ok highest /\
     cardUtils.get_min_face faces = Ok lowest /\
     In highest faces /\ In lowest faces /\
     forall f, In f faces -> Face_value lowest <= Face_value f <= Face_value highest).
Proof.
  split; [intros reverse; apply sorted_by_key | split].
  - intros ->; split; reflexivity.
  - apply (sorted_extremes Face_value).
Qed.

Lemma sorted_faces_and_extreme_faces_witness :
  exists highest lowest,
    cardUtils.get_max_face [TWO; ACE; TEN] = Ok highest /\
    cardUtils.get_min_face [TWO; ACE; TEN] = Ok lowest /\
    Face_value lowest <= Face_value TEN <= Face_value highest.
Proof.
  destruct (proj2 (proj2 (sorted_faces_and_extreme_faces [TWO; ACE; TEN])))
    as (highest & lowest & Hmax & Hmin & _ & _ & Hall); [discriminate|].
  exists highest, lowest; split; [exact Hmax | split; [exact Hmin|]].
  apply Hall; simpl; tauto.
Defined.

(** X23: [sorted_starters] returns the starters rearranged in ascending
    order of starter precedence, Ace first, descending with [reverse]: no
    starter is [is_straight_starter_lesser] than one before it (greater,
    with [reverse]).  On a non-empty list [get_max_straight_starter] and
    [get_min_straight_starter] return a starter of the list that none of
    the list is greater, respectively lesser, than; on the empty list both
    raise [IndexError]. *)
Theorem sorted_starters_and_extreme_starters (starters : list Face) :
  (forall reverse,
     Permutation (cardUtils.sorted_starters starters reverse) starters /\
     StronglySorted (fun a b => if reverse
                                then cardUtils.is_straight_starter_greater b a = false
                                else cardUtils.is_straight_starter_lesser b a = false)
                    (cardUtils.sorted_starters starters reverse)) /\
  (starters = [] ->
   cardUtils.get_max_straight_starter starters = Raise IndexError /\
   cardUtils.get_min_straight_starter starters = Raise IndexError) /\
  (starters <> [] ->
   exists highest lowest,
     cardUtils.get_max_straight_starter starters = Ok highest /\
     cardUtils.get_min_straight_starter starters = Ok lowest /\
     In highest starters /\ In lowest starters /\
     forall s, In s starters ->
               cardUtils.is_straight_starter_greater s highest = false /\
               cardUtils.is_straight_starter_lesser s lowest = false).
Proof.
  split; [|split].
  - intros reverse.
    destruct (sorted_by_key cardUtils.starter_key reverse starters) as [Hp Hs].
    split; [exact Hp|].
    revert Hs; apply StronglySorted_impl; intros a b.
    rewrite starter_greater_key, starter_lesser_key.
    destruct reverse; intros H; apply Z.ltb_ge; exact H.
  - intros ->; split; reflexivity.
  - intros Hne.
    destruct (sorted_extremes cardUtils.starter_key starters Hne)
      as (hi & lo & Hhi & Hlo & Hin_hi & Hin_lo & Hall).
    exists hi, lo.
    split; [exact Hhi | split; [exact Hlo | split; [exact Hin_hi | split; [exact Hin_lo|]]]].
    intros s Hs; rewrite starter_greater_key, starter_lesser_key, !Z.ltb_ge.
    specialize (Hall s Hs); lia.
Qed.

Lemma sorted_starters_and_extreme_starters_witness :
  exists highest lowest,
    cardUtils.get_max_straight_starter [TWO; ACE; TEN] = Ok highest /\
    cardUtils.get_min_straight_starter [TWO; ACE; TEN] = Ok lowest /\
    cardUtils.is_straight_starter_lesser ACE lowest = false.
Proof.
  destruct (proj2 (proj2 (sorted_starters_and_extreme_starters [TWO; ACE; TEN])))
    as (highest & lowest & Hmax & Hmin & _ & _ & Hall); [discriminate|].
  exists highest, lowest; split; [exact Hmax | split; [exact Hmin|]].
  apply Hall; simpl; tauto.
Defined.

(** X24: [sorted_by_frequency] returns the items rearranged in ascending
    order of the number of times they occur in the input, descending with
    [reverse], and it is stable: with or without [reverse], the items that
    occur equally often keep the order they have in the input. *)
Theorem sorted_by_frequency_sorts_stably {A : Type} (eqb : A -> A -> bool)
    (iterable : list A) (reverse : bool) :
  let frequency := fun item => py.count eqb item iterable in
  let result := cardUtils.sorted_by_frequency eqb iterable reverse in
  Permutation result iterable /\
  StronglySorted (fun a b => if reverse then (frequency b <= frequency a)%nat
                             else (frequency a <= frequency b)%nat) result /\
  forall n, filter (fun item => Nat.eqb (frequency item) n) result
            = filter (fun item => Nat.eqb (frequency item) n) iterable.
Proof.
  intros frequency result; unfold result, cardUtils.sorted_by_frequency.
  fold frequency.
  assert (Ha : forall a b : nat, Nat.ltb a b = true -> Nat.ltb b a = false).
  { intros a b; rewrite Nat.ltb_lt, Nat.ltb_ge; lia. }
  assert (Ht : forall a b c : nat,
             Nat.ltb a b = false -> Nat.ltb b c = false -> Nat.ltb a c = false).
  { intros a b c; rewrite !Nat.ltb_ge; lia. }
  split; [apply sorted_Permutation | split].
  - destruct reverse.
    + apply (StronglySorted_impl (desc_ok Nat.ltb frequency)).
      * intros x y H; apply Nat.ltb_ge, H.
      * apply sorted_desc_StronglySorted; assumption.
    + apply (StronglySorted_impl (asc_ok Nat.ltb frequency)).
      * intros x y H; apply Nat.ltb_ge, H.
      * apply sorted_asc_StronglySorted; assumption.
  - intros n; apply sorted_stable.
    intros x y Hx Hy; apply Nat.eqb_eq in Hx, Hy; apply Nat.ltb_ge; lia.
Qed.

(** ** Comparing straights *)

(** The starter search on the faces of a straight finds its starter. *)
Lemma straight_starter_found (faces : list Face) (s : Face) :
  ~ In s ranks.INVALID_STRAIGHT_STARTERS ->
  Permutation faces (walk next_face ranks.REQUIRED_LENGTH s) ->
  cardUtils.get_most_frequent_starter_of_sequences_including_faces
    faces ranks.REQUIRED_LENGTH (Some ranks.INVALID_STRAIGHT_STARTERS) = Ok s.
Proof.
  intros Hs Hp; rewrite (most_frequent_starter_Permutation _ _ _ _ Hp).
  destruct s; try (vm_compute; reflexivity); exfalso; apply Hs; simpl; tauto.
Qed.

(** A hand of a sequential rank is a straight. *)
Lemma sequential_rank_straight (cards : list Card) (r : ranks.Rank) :
  ranks.get_rank cards None = Ok r -> In r pokerLogic.SEQUENTIAL_RANKS ->
  exists s, ~ In s ranks.INVALID_STRAIGHT_STARTERS /\
            Permutation (cardUtils.get_faces cards) (walk next_face ranks.REQUIRED_LENGTH s).
Proof.
  intros Hr Hin.
  destruct (get_rank_any cards) as (r' & Hr' & [(_ & Ht & Hlen)|[-> _]]).
  - assert (E : r' = r) by congruence; subst r'.
    apply is_rank_true in Ht; unfold validators_hold in Ht.
    assert (Hseq : ranks.create_sequence_validator (Some ranks.INVALID_STRAIGHT_STARTERS) cards
                   = Ok true).
    { simpl in Hin; destruct Hin as [<-|[<-|[<-|[]]]];
        inversion Ht as [|? ? _ Ht']; inversion Ht' as [|? ? Hv _]; exact Hv. }
    rewrite sequence_validator_faces in Hseq.
    apply recognised_is_straight; [|exact Hseq].
    unfold cardUtils.get_faces; rewrite length_map; exact Hlen.
  - exfalso.
    assert (E : r = ranks.NULL_RANK) by congruence; subst r.
    simpl in Hin; destruct Hin as [H|[H|[H|[]]]];
      apply (f_equal ranks.value) in H; discriminate H.
Qed.

(** X25: two hands of the same sequential rank (Straight, Straight Flush or
    Royal Flush) are compared by the starters of their straights: each hand
    holds the five faces that [get_sequence_of_starter] lists from a starter
    other than Jack, Queen and King, and [compare_hands] returns EQUAL for
    equal starters, else GREATER or LESSER as
    [is_straight_starter_greater] orders the two starters, the Ace-low
    straight being the lowest.  The hands compare EQUAL exactly when they
    hold the same faces. *)
Theorem straights_compared_by_starter (A B : list Card) (r : ranks.Rank) :
  ranks.get_rank A None = Ok r -> ranks.get_rank B None = Ok r ->
  In r pokerLogic.SEQUENTIAL_RANKS ->
  exists starterA starterB sequenceA sequenceB,
    ~ In starterA ranks.INVALID_STRAIGHT_STARTERS /\
    ~ In starterB ranks.INVALID_STRAIGHT_STARTERS /\
    cardUtils.get_sequence_of_starter starterA 5 = Ok sequenceA /\
    cardUtils.get_sequence_of_starter starterB 5 = Ok sequenceB /\
    Permutation (cardUtils.get_faces A) sequenceA /\
    Permutation (cardUtils.get_faces B) sequenceB /\
    pokerLogic.compare_hands A B
    = Ok (if Face_eqb starterA starterB then pokerLogic.EQUAL
          else if cardUtils.is_straight_starter_greater starterA starterB
               then pokerLogic.GREATER
               else pokerLogic.LESSER) /\
    (pokerLogic.compare_hands A B = Ok pokerLogic.EQUAL <->
     Permutation (cardUtils.get_faces A) (cardUtils.get_faces B)).
Proof.
  intros HA HB Hin.
  destruct (sequential_rank_straight A r HA Hin) as (sA & HsA & HpA).
  destruct (sequential_rank_straight B r HB Hin) as (sB & HsB & HpB).
  pose proof (straight_starter_found _ _ HsA HpA) as HfA.
  pose proof (straight_starter_found _ _ HsB HpB) as HfB.
  assert (Hcmp : pokerLogic.compare_hands A B
                 = Ok (if Face_eqb sA sB then pokerLogic.EQUAL
                       else if cardUtils.is_straight_starter_greater sA sB
                            then pokerLogic.GREATER
                            else pokerLogic.LESSER)).
  { unfold pokerLogic.compare_hands; rewrite HA, HB; cbn [bind].
    unfold ranks.Rank_gtb, ranks.Rank_ltb; rewrite Z.gtb_ltb, Z.ltb_irrefl.
    assert (Hff : py.contains ranks.Rank_eqb r pokerLogic.FACE_FREQUENCY_RANKS = false)
      by (simpl in Hin; destruct Hin as [<-|[<-|[<-|[]]]]; reflexivity).
    assert (Hsq : py.contains ranks.Rank_eqb r pokerLogic.SEQUENTIAL_RANKS = true)
      by (simpl in Hin; destruct Hin as [<-|[<-|[<-|[]]]]; reflexivity).
    rewrite Hff, Hsq.
    unfold pokerLogic.compare_by_straight_starter, cardUtils.Hand.
    rewrite HfA, HfB; cbn [bind].
    destruct (Face_eqb sA sB); [reflexivity|].
    destruct (cardUtils.is_straight_starter_greater sA sB); reflexivity. }
  exists sA, sB, (walk next_face 5 sA), (walk next_face 5 sB).
  split; [exact HsA | split; [exact HsB|]].
  split; [apply get_sequence_of_starter_eq | split; [apply get_sequence_of_starter_eq|]].
  split; [exact HpA | split; [exact HpB | split; [exact Hcmp|]]].
  rewrite Hcmp; split.
  - destruct (Face_eqb sA sB) eqn:E.
    + intros _; apply Face_eqb_eq in E; subst sB.
      rewrite HpA; symmetry; exact HpB.
    + destruct (cardUtils.is_straight_starter_greater sA sB); discriminate.
  - intros Hp.
    rewrite (most_frequent_starter_Permutation _ _ _ _ Hp) in HfA.
    assert (E : sA = sB) by congruence; subst sB.
    rewrite (proj2 (Face_eqb_eq sA sA) eq_refl); reflexivity.
Qed.

Lemma straights_compared_by_starter_witness :
  pokerLogic.compare_hands ace_low_mixed (rev ace_low_mixed) = Ok pokerLogic.EQUAL.
Proof.
  destruct (straights_compared_by_starter ace_low_mixed (rev ace_low_mixed) ranks.STRAIGHT)
    as (sA & sB & qA & qB & _ & _ & _ & _ & _ & _ & _ & H).
  - vm_compute; reflexivity.
  - vm_compute; reflexivity.
  - simpl; tauto.
  - apply H; unfold cardUtils.get_faces; rewrite map_rev; apply Permutation_rev.
Defined.
